(** * web_search.py: search, fetch and text extraction

    A shallow embedding of [skills/web-search/scripts/web_search.py]:
    [extract_text_from_html], [fetch_url_content], [ddg_web_search],
    [search_and_fetch] and [main], with the properties of the retrieval pipeline
    stated and proved over it.

    Conventions of the embedding:
    - a Python [str] is the list of its code points, so that [len] is
      [length]; [py "..."] writes a literal;
    - a Python [int] is a [Z];
    - a Python [dict] with string keys is a [gmap string value];
    - the third-party libraries (bs4, httpx, ddgs) are not part of the
      repository: what they return or raise is a parameter ([Env]), what
      the script does with it is modelled; the parser of bs4 may raise on
      the markup it is given, and a call of [client.get] is one event
      whatever httpx puts on the wire for it;
    - exceptions are the instances of Python's [Exception]; an [await]
      runs the awaited coroutine to completion, which is what it does in
      a program that never creates a second task;
    - logging is not modelled. *)

From Stdlib Require Import ZArith NArith List String Ascii Lia DecimalString.
From stdpp Require Import gmap strings list.

Set Warnings "-register-all".
Local Open Scope Z_scope.

(** ** Python strings *)

Module PyStr.

Definition str := list N.

Definition py (s : string) : str := map N_of_ascii (list_ascii_of_string s).

(** [str(n)] for an [int]. *)
Definition str_of_int (n : Z) : str := py (NilEmpty.string_of_int (Z.to_int n)).

Definition len {A} (s : list A) : Z := Z.of_nat (length s).

(** [s[:n]] as Python slices it: a negative bound counts from the end. *)
Definition slice_to {A} (s : list A) (n : Z) : list A :=
  if 0 <=? n then take (Z.to_nat n) s
  else take (length s - Z.to_nat (- n))%nat s.

Fixpoint startswith (s prefix : str) : bool :=
  match prefix, s with
  | [], _ => true
  | p :: prefix', c :: s' => (p =? c)%N && startswith s' prefix'
  | _ :: _, [] => false
  end.

(** [needle in hay]. *)
Fixpoint contains (needle hay : str) : bool :=
  startswith hay needle ||
  match hay with
  | [] => false
  | _ :: hay' => contains needle hay'
  end.

Definition mem (c : N) (l : list N) : bool := existsb (N.eqb c) l.

(** The characters [str.isspace], [str.strip] and the regex class [\s]
    take for whitespace. *)
Definition whitespace : list N :=
  [ 9; 10; 11; 12; 13; 28; 29; 30; 31; 32; 133; 160; 5760;
    8192; 8193; 8194; 8195; 8196; 8197; 8198; 8199; 8200; 8201; 8202;
    8232; 8233; 8239; 8287; 12288 ]%N.

Definition isspace (c : N) : bool := mem c whitespace.

(** The line boundaries of [str.splitlines]. *)
Definition linebreaks : list N :=
  [ 10; 11; 12; 13; 28; 29; 30; 133; 8232; 8233 ]%N.

Definition is_linebreak (c : N) : bool := mem c linebreaks.

Definition LF : N := 10%N.
Definition CR : N := 13%N.
Definition SPACE : N := 32%N.
Definition LT : N := 60%N.
Definition GT : N := 62%N.

Fixpoint lstrip (s : str) : str :=
  match s with
  | [] => []
  | c :: s' => if isspace c then lstrip s' else s
  end.

Definition rstrip (s : str) : str := rev (lstrip (rev s)).

Definition strip (s : str) : str := rstrip (lstrip s).

(** Puts [c] in front of the first piece of a split. *)
Definition cons_first (c : N) (pieces : list str) : list str :=
  match pieces with
  | [] => [[c]]
  | p :: ps => (c :: p) :: ps
  end.

(** [s.splitlines()]: a line ends at a line boundary, CR LF counts as one,
    and there is no empty last line. *)
Fixpoint splitlines (s : str) : list str :=
  match s with
  | [] => []
  | c :: s' =>
      if is_linebreak c then
        match s' with
        | c' :: s'' =>
            if (c =? CR)%N && (c' =? LF)%N then [] :: splitlines s''
            else [] :: splitlines s'
        | [] => [] :: splitlines s'
        end
      else cons_first c (splitlines s')
  end.

(** [s.split("  ")]: cut at each pair of spaces, left to right. *)
Fixpoint split_2sp (s : str) : list str :=
  match s with
  | [] => [[]]
  | c :: s' =>
      match s' with
      | c' :: s'' =>
          if (c =? SPACE)%N && (c' =? SPACE)%N then [] :: split_2sp s''
          else cons_first c (split_2sp s')
      | [] => cons_first c (split_2sp s')
      end
  end.

(** [sep.join(pieces)]. *)
Fixpoint join (sep : str) (pieces : list str) : str :=
  match pieces with
  | [] => []
  | [p] => p
  | p :: ps => p ++ sep ++ join sep ps
  end.

Definition nonempty (s : str) : bool :=
  match s with [] => false | _ :: _ => true end.

(** [re.sub(r'<[^>]+>', '', s)].  A match starts at a [<] that is
    followed by at least one character other than [>] and, after the run
    of such characters, by a [>]; [closes] is that test on what follows
    the [<], and inside a match everything up to the [>] goes. *)
Fixpoint has_gt (s : str) : bool :=
  match s with
  | [] => false
  | c :: s' => (c =? GT)%N || has_gt s'
  end.

Definition closes (s : str) : bool :=
  match s with
  | [] => false
  | c :: _ => negb (c =? GT)%N && has_gt s
  end.

Fixpoint sub_tags (in_tag : bool) (s : str) : str :=
  match s with
  | [] => []
  | c :: s' =>
      if in_tag then
        if (c =? GT)%N then sub_tags false s' else sub_tags true s'
      else if (c =? LT)%N && closes s' then sub_tags true s'
      else c :: sub_tags false s'
  end.

(** [re.sub(r'\s+', ' ', s)]: each run of whitespace becomes one space. *)
Fixpoint sub_spaces (in_run : bool) (s : str) : str :=
  match s with
  | [] => []
  | c :: s' =>
      if isspace c then
        if in_run then sub_spaces true s' else SPACE :: sub_spaces true s'
      else c :: sub_spaces false s'
  end.

End PyStr.
Import PyStr.

(** ** The libraries the script imports *)

(** An [import] inside a function either gives the module or raises an
    [ImportError] (class name and message as Python reports them). *)
Inductive imported (M : Type) :=
| Imported (m : M)
| NotInstalled (name msg : str).
Arguments Imported {M} m.
Arguments NotInstalled {M} name msg.

(** *** Exceptions *)

(** What httpx hands back for a request that got a response. *)
Record Response := {
  status_code : Z;
  reason_phrase : str;
  text : str;
  content_type_header : option str
}.

(** The classes the handlers of the script test an exception against. *)
Inductive exc_base :=
| IsImportError
| IsHTTPStatusError (response : Response)
| IsTimeoutException
| IsOther.

(** An exception: [isinstance], [type(e).__module__], [type(e).__name__]
    and [str(e)]. *)
Record Exception := {
  exc_isinstance : exc_base;
  exc_module : str;
  exc_name : str;
  exc_str : str
}.

Definition builtin_error (name msg : str) : Exception :=
  {| exc_isinstance := IsOther; exc_module := py "builtins";
     exc_name := name; exc_str := msg |}.

Definition import_error (name msg : str) : Exception :=
  {| exc_isinstance := IsImportError; exc_module := py "builtins";
     exc_name := name; exc_str := msg |}.

(** What a call comes to: the value it returns or the exception it
    raises. *)
Inductive outcome (A : Type) :=
| Return (a : A)
| Raise (e : Exception).
Arguments Return {A} a.
Arguments Raise {A} e.

(** *** bs4: the parse tree *)

Module Bs4.

(** The classes of the strings of a tree.  [get_text] keeps the first two. *)
Inductive string_class :=
| NavigableString | CData | Comment | Declaration | Doctype
| ProcessingInstruction | Script | Stylesheet | TemplateString
| RubyTextString | RubyParenthesisString.

Inductive node :=
| Str (cls : string_class) (s : str)
| Tag (name : str) (contents : list node).

(** [BeautifulSoup(html, 'html.parser')]: the top-level nodes of the
    document, or the exception the parser raises on markup it rejects
    (bs4's ParserRejectedMarkup).  The parser itself is the library's. *)
Definition BeautifulSoup := str -> Exception + list node.

Definition interesting (cls : string_class) : bool :=
  match cls with
  | NavigableString | CData => true
  | _ => false
  end.

Definition name_in (name : str) (names : list str) : bool :=
  bool_decide (name ∈ names).

(** [for t in soup(names): t.decompose()]: every tag with one of the
    names leaves the tree, with all it contains, at any depth. *)
Fixpoint decompose (names : list str) (n : node) : list node :=
  match n with
  | Str _ _ => [n]
  | Tag name contents =>
      if name_in name names then []
      else [Tag name (flat_map (decompose names) contents)]
  end.

Definition decompose_all (names : list str) (soup : list node) : list node :=
  flat_map (decompose names) soup.

(** The strings [get_text] joins, in document order. *)
Fixpoint strings (n : node) : list str :=
  match n with
  | Str cls s => if interesting cls then [s] else []
  | Tag _ contents => flat_map strings contents
  end.

Definition get_text (soup : list node) : str :=
  concat (flat_map strings soup).

(** [find(name)]: the first tag of that name, in document order. *)
Fixpoint find (name : str) (n : node) : option node :=
  match n with
  | Str _ _ => None
  | Tag name' contents =>
      if bool_decide (name' = name) then Some n
      else
        (fix first (l : list node) : option node :=
           match l with
           | [] => None
           | c :: l' =>
               match find name c with
               | Some t => Some t
               | None => first l'
               end
           end) contents
  end.

Fixpoint find_first (name : str) (soup : list node) : option node :=
  match soup with
  | [] => None
  | c :: soup' =>
      match find name c with
      | Some t => Some t
      | None => find_first name soup'
      end
  end.

End Bs4.

(** ** extract_text_from_html *)

Definition truncation_marker : str := LF :: LF :: py "[Content truncated...]".

Definition non_content_tags : list str :=
  [py "script"; py "style"; py "nav"; py "footer"; py "header"].

(** Lines 58 to 61: split into lines, strip, split at double spaces, strip,
    drop the empty chunks, join with newlines. *)
Definition clean_whitespace (text : str) : str :=
  let lines := map strip (splitlines text) in
  let chunks := flat_map (fun line => map strip (split_2sp line)) lines in
  join [LF] (List.filter nonempty chunks).

(** Lines 72 to 76: the tags go, each run of whitespace becomes a space,
    and the ends are stripped. *)
Definition fallback_text (html : str) : str :=
  let text := sub_tags false html in
  strip (sub_spaces false text).

(** Lines 51 to 61, on the tree of the parser. *)
Definition soup_text (soup : list Bs4.node) : str :=
  let soup := Bs4.decompose_all non_content_tags soup in
  let text := Bs4.get_text soup in
  clean_whitespace text.

(** The text before its length is limited.  [except ImportError] is the
    only handler: the fallback is taken when bs4 cannot be imported, or
    when an ImportError comes out of the parser; any other exception of
    the parser leaves the function. *)
Definition collapsed_text (bs4 : imported Bs4.BeautifulSoup) (html : str)
    : outcome str :=
  match bs4 with
  | Imported BeautifulSoup =>
      match BeautifulSoup html with
      | inr soup => Return (soup_text soup)
      | inl e =>
          match exc_isinstance e with
          | IsImportError => Return (fallback_text html)
          | _ => Raise e
          end
      end
  | NotInstalled _ _ => Return (fallback_text html)
  end.

Definition limit_length (text : str) (max_length : Z) : str :=
  if len text >? max_length
  then slice_to text max_length ++ truncation_marker
  else text.

Definition extract_text_from_html
    (bs4 : imported Bs4.BeautifulSoup) (html : str) (max_length : Z)
    : outcome str :=
  match collapsed_text bs4 html with
  | Return text => Return (limit_length text max_length)
  | Raise e => Raise e
  end.

(** ** Values, dicts and exceptions *)

Inductive value :=
| VNone
| VBool (b : bool)
| VInt (n : Z)
| VStr (s : str)
| VList (l : list value)
| VDict (d : gmap string value).

(** A dict literal. *)
Definition dict_of (items : list (string * value)) : gmap string value :=
  list_to_map items.

(** [d.get(k)] and [d.get(k, v)]. *)
Definition get (d : gmap string value) (k : string) : value :=
  default VNone (d !! k).

Definition get_or (d : gmap string value) (k : string) (v : value) : value :=
  default v (d !! k).

(** Truth value of an object, as [if] and [not] take it. *)
Definition truthy (v : value) : bool :=
  match v with
  | VNone => false
  | VBool b => b
  | VInt n => negb (n =? 0)
  | VStr s => nonempty s
  | VList l => match l with [] => false | _ :: _ => true end
  | VDict d => negb (Nat.eqb (size d) 0)
  end.

Definition type_name (v : value) : str :=
  match v with
  | VNone => py "NoneType"
  | VBool _ => py "bool"
  | VInt _ => py "int"
  | VStr _ => py "str"
  | VList _ => py "list"
  | VDict _ => py "dict"
  end.

(** ** The world: network events and the wall clock *)

(** The events are the calls of the libraries: [Searched] a call of
    [ddgs.text], [GetSent] a call of [client.get] at its start and
    [GetDone] at its end, with the time.  What httpx puts on the wire
    during one call (the request, those of the redirects it follows, or
    nothing when it refuses the url) is the library's and is no event. *)
Inductive event :=
| Searched (query : str) (max_results : Z) (at_ : N)
| GetSent (url : str) (at_ : N)
| GetDone (url : str) (at_ : N).

Record World := { trace : list event; clock : N }.

(** What the libraries do is a parameter.  A call sees the events so far,
    so the same request may be answered differently the second time; it
    returns its result or the exception it raises, and the seconds it
    took. *)
(** What the script hands to httpx: the arguments of
    [httpx.AsyncClient(...)] and the headers of [client.get]. *)
Record Request := {
  timeout : Z;
  follow_redirects : bool;
  headers : list (str * str)
}.

Record Httpx := {
  client_get : Request -> list event -> str -> (Exception + Response) * N;
  status_error_message : Response -> str
}.

Record Ddgs := {
  ddgs_text : list event -> str -> Z -> (Exception + list (gmap string str)) * N
}.

Record Env := {
  bs4 : imported Bs4.BeautifulSoup;
  httpx : imported Httpx;
  ddgs : imported Ddgs
}.

(** ** Computations that may raise *)

Definition Py (A : Type) : Type := World -> outcome A * World.

#[export] Instance Py_ret : MRet Py := λ A a w, (Return a, w).

#[export] Instance Py_bind : MBind Py := λ A B f m w,
  match m w with
  | (Return a, w') => f a w'
  | (Raise e, w') => (Raise e, w')
  end.

Definition raise {A} (e : Exception) : Py A := λ w, (Raise e, w).

(** [try: body  except Exception as e: handler e]. *)
Definition try_except {A} (body : Py A) (handler : Exception -> Py A) : Py A :=
  λ w,
    match body w with
    | (Return a, w') => (Return a, w')
    | (Raise e, w') => handler e w'
    end.

Definition import_ {M} (m : imported M) : Py M :=
  match m with
  | Imported m => mret m
  | NotInstalled name msg => raise (import_error name msg)
  end.

(** Takes the outcome of a call that touches nothing of the world. *)
Definition call {A} (o : outcome A) : Py A := λ w, (o, w).

(** [await client.get(url, headers=headers)]: the call starts, the
    coroutine waits for httpx to answer, and the clock has moved by the
    time that took. *)
Definition await_get (client : Httpx) (request : Request) (url : str) : Py Response :=
  λ w,
    let sent := trace w ++ [GetSent url (clock w)] in
    let '(answer, seconds) := client_get client request sent url in
    let w' := {| trace := sent ++ [GetDone url (clock w + seconds)%N];
                 clock := (clock w + seconds)%N |} in
    match answer with
    | inl e => (Raise e, w')
    | inr response => (Return response, w')
    end.

(** [list(ddgs.text(query, max_results=max_results))]. *)
Definition call_text (client : Ddgs) (query : str) (max_results : Z)
    : Py (list (gmap string str)) :=
  λ w,
    let '(answer, seconds) := ddgs_text client (trace w) query max_results in
    let w' := {| trace := trace w ++ [Searched query max_results (clock w)];
                 clock := (clock w + seconds)%N |} in
    match answer with
    | inl e => (Raise e, w')
    | inr results => (Return results, w')
    end.

(** *** The operations on objects whose type is only known when they run *)

(** [url.startswith((p1, p2))]. *)
Definition startswith_any (v : value) (prefixes : list str) : Py bool :=
  match v with
  | VStr s => mret (existsb (startswith s) prefixes)
  | _ => raise (builtin_error (py "AttributeError")
                  (py "'" ++ type_name v ++ py "' object has no attribute 'startswith'"))
  end.

(** The string behind a url that [startswith] has accepted. *)
Definition as_str (v : value) : str :=
  match v with VStr s => s | _ => [] end.

(** [r[k]]. *)
Definition getitem (v : value) (k : string) : Py value :=
  match v with
  | VDict d =>
      match d !! k with
      | Some x => mret x
      | None => raise (builtin_error (py "KeyError") (py "'" ++ py k ++ py "'"))
      end
  | _ => raise (builtin_error (py "TypeError")
                  (py "'" ++ type_name v ++ py "' object is not subscriptable"))
  end.

(** The list behind [results[:top_n]], [for r in ...] and [len(results)];
    ddg_web_search always stores a list. *)
Definition as_list (v : value) : Py (list value) :=
  match v with
  | VList l => mret l
  | _ => raise (builtin_error (py "TypeError")
                  (py "'" ++ type_name v ++ py "' object is not a list"))
  end.

(** ** fetch_url_content *)

(** [response.raise_for_status()] of httpx: nothing for a 2xx status, an
    [HTTPStatusError] carrying the response for any other. *)
Definition raise_for_status (client : Httpx) (response : Response) : Py unit :=
  if (200 <=? status_code response) && (status_code response <=? 299)
  then mret tt
  else raise {| exc_isinstance := IsHTTPStatusError response;
                exc_module := py "httpx";
                exc_name := py "HTTPStatusError";
                exc_str := status_error_message client response |}.

(** Lines 124 to 133: the title, with every failure swallowed. *)
Definition extract_title (bs4 : imported Bs4.BeautifulSoup) (html_content : str) : str :=
  match bs4 with
  | Imported BeautifulSoup =>
      match BeautifulSoup html_content with
      | inr soup =>
          match Bs4.find_first (py "title") soup with
          | Some title_tag => strip (Bs4.get_text [title_tag])
          | None => py "No title"
          end
      | inl _ => py "No title"
      end
  | NotInstalled _ _ => py "No title"
  end.

(** Lines 112 to 115: the arguments of the client and the headers of the
    request. *)
Definition get_request : Request :=
  {| timeout := 30;
     follow_redirects := true;
     headers := [(py "User-Agent", py "Mozilla/5.0 (compatible; WebSearchSkill/1.0)")] |}.

Definition fetch_url_content
    (env : Env) (url : value) (include_html : bool) (max_length : Z)
    : Py (gmap string value) :=
  try_except
    (client ← import_ (httpx env);
     (* Validate URL *)
     ok ← startswith_any url [py "http://"; py "https://"];
     if negb ok then
       mret (dict_of [("success", VBool false);
                      ("error", VStr (py "URL must start with http:// or https://"));
                      ("url", url)])
     else
       (* Fetch URL with timeout *)
       response ← await_get client get_request (as_str url);
       _ ← raise_for_status client response;
       (* Get content *)
       let html_content := text response in
       let content_type := default [] (content_type_header response) in
       (* Extract title *)
       let title := extract_title (bs4 env) html_content in
       (* Extract text *)
       text_content ← call (extract_text_from_html (bs4 env) html_content max_length);
       (* Build response *)
       let result :=
         dict_of [("success", VBool true);
                  ("url", url);
                  ("title", VStr title);
                  ("content_type", VStr content_type);
                  ("text_content", VStr text_content);
                  ("text_length", VInt (len text_content));
                  ("status_code", VInt (status_code response))] in
       let result :=
         if include_html
         then <["html_content" := VStr (slice_to html_content max_length)]> result
         else result in
       mret result)
    (λ e,
       let error_type := exc_name e in
       let generic :=
         dict_of [("success", VBool false);
                  ("error", VStr (error_type ++ py ": " ++ exc_str e));
                  ("url", url)] in
       (* Handle specific error types *)
       if contains (py "httpx") (exc_module e) then
         match exc_isinstance e with
         | IsHTTPStatusError response =>
             mret (dict_of
                     [("success", VBool false);
                      ("error", VStr (py "HTTP error " ++ str_of_int (status_code response)
                                        ++ py ": " ++ reason_phrase response));
                      ("url", url);
                      ("status_code", VInt (status_code response))])
         | IsTimeoutException =>
             mret (dict_of [("success", VBool false);
                            ("error", VStr (py "Request timed out (30 seconds)"));
                            ("url", url)])
         | _ => mret generic
         end
       else mret generic).

(** ** ddg_web_search *)

(** Lines 207 to 214; [idx] is the position [enumerate] has reached. *)
Fixpoint format_results (idx : Z) (results : list (gmap string str)) : list value :=
  match results with
  | [] => []
  | result :: results' =>
      VDict (dict_of
               [("index", VInt (idx + 1));
                ("title", VStr (default (py "No title") (result !! "title")));
                ("snippet", VStr (default (py "No snippet") (result !! "body")));
                ("link", VStr (default (py "No link") (result !! "href")))])
      :: format_results (idx + 1) results'
  end.

Definition ddgs_not_installed : str :=
  py "ddgs library not installed. Please install it with: pip install ddgs".

Definition ddg_web_search (env : Env) (query : str) (max_results : Z)
    : Py (gmap string value) :=
  try_except
    (DDGS ← import_ (ddgs env);
     (* Limit max_results to prevent abuse *)
     let max_results := Z.min max_results 10 in
     (* Perform search *)
     results ← call_text DDGS query max_results;
     (* Format results *)
     let formatted_results := format_results 0 results in
     mret (dict_of [("success", VBool true);
                    ("query", VStr query);
                    ("result_count", VInt (len formatted_results));
                    ("results", VList formatted_results)]))
    (λ e,
       match exc_isinstance e with
       | IsImportError =>
           let error_msg := ddgs_not_installed in
           mret (dict_of [("success", VBool false);
                          ("error", VStr error_msg);
                          ("query", VStr query)])
       | _ =>
           mret (dict_of [("success", VBool false);
                          ("error", VStr (exc_str e));
                          ("query", VStr query)])
       end).

(** ** search_and_fetch *)

(** [[r["link"] for r in ...]]. *)
Fixpoint links (rs : list value) : Py (list value) :=
  match rs with
  | [] => mret []
  | r :: rs' =>
      link ← getitem r "link";
      rest ← links rs';
      mret (link :: rest)
  end.

(** One turn of the loop of lines 273 to 285: what is appended for [url]. *)
Definition fetched_entry (idx : Z) (url : value) (content : gmap string value)
    : gmap string value :=
  dict_of [("index", VInt idx);
           ("url", url);
           ("title", get_or content "title" (VStr (py "No title")));
           ("text_content", get_or content "text_content" (VStr []));
           ("text_length", get_or content "text_length" (VInt 0));
           ("fetch_success", get_or content "success" (VBool false));
           ("error", get content "error")].

Fixpoint fetch_loop (env : Env) (max_length : Z)
    (idx : Z) (urls_to_fetch : list value) (fetched_content : list value)
    : Py (list value) :=
  match urls_to_fetch with
  | [] => mret fetched_content
  | url :: urls' =>
      content ← fetch_url_content env url false max_length;
      fetch_loop env max_length (idx + 1) urls'
        (fetched_content ++ [VDict (fetched_entry idx url content)])
  end.

Definition search_and_fetch
    (env : Env) (query : str) (max_results top_n max_length : Z)
    : Py (gmap string value) :=
  (* First, perform the search *)
  search_results ← ddg_web_search env query max_results;
  if negb (truthy (get search_results "success")) then mret search_results
  else
    (* Get URLs from top N results *)
    results ← as_list (get_or search_results "results" (VList []));
    urls_to_fetch ← links (slice_to results top_n);
    (* Fetch content from each URL *)
    fetched_content ← fetch_loop env max_length 1 urls_to_fetch [];
    mret (dict_of [("success", VBool true);
                   ("query", VStr query);
                   ("search_results", VDict search_results);
                   ("fetched_content", VList fetched_content);
                   ("total_results", VInt (len results));
                   ("fetched_count", VInt (len fetched_content))]).

(** ** main *)

(** The parsed command line, [args]; parsing it is argparse's work.  An
    option that takes a string is [None] when it was not given. *)
Module Cli.
Record Args := {
  query : option str;
  max_results : Z;
  fetch_url : option str;
  include_html : bool;
  max_length : Z;
  fetch_content : bool;
  top_n : Z;
  pretty : bool
}.
End Cli.

(** How the process ends, an interrupt from the keyboard apart (it is no
    [Exception] and is outside the model): [parser.error] writes its message to the
    standard error and exits with status 2; otherwise one JSON document
    has been printed, here the dict and the indent given to [json.dumps],
    and [sys.exit] was called with a code. *)
Inductive finished :=
| ParserError (message : str)
| Exit (printed : gmap string value) (indent : option Z) (code : Z).

Definition exit_status (f : finished) : Z :=
  match f with
  | ParserError _ => 2
  | Exit _ _ code => code
  end.

(** Truth value of [args.query] and [args.fetch_url]. *)
Definition given (arg : option str) : bool :=
  match arg with
  | Some s => nonempty s
  | None => false
  end.

Definition main (env : Env) (args : Cli.Args) : World -> finished * World :=
  λ w,
    (* Validate arguments *)
    if negb (given (Cli.query args)) && negb (given (Cli.fetch_url args)) then
      (ParserError (py "Must specify either --query or --fetch-url"), w)
    else if given (Cli.query args) && given (Cli.fetch_url args) then
      (ParserError (py "Cannot specify both --query and --fetch-url"), w)
    else
      (* Execute appropriate mode *)
      let run :=
        if given (Cli.fetch_url args) then
          (* URL fetch mode *)
          fetch_url_content env (VStr (default [] (Cli.fetch_url args)))
            (Cli.include_html args) (Cli.max_length args)
        else if Cli.fetch_content args then
          (* Combined search + fetch mode *)
          search_and_fetch env (default [] (Cli.query args))
            (Cli.max_results args) (Cli.top_n args) (Cli.max_length args)
        else
          (* Search only mode *)
          ddg_web_search env (default [] (Cli.query args)) (Cli.max_results args) in
      match run w with
      | (Return result, w') =>
          (* Output result *)
          let indent := if Cli.pretty args then Some 2 else None in
          (* Exit with appropriate code *)
          (Exit result indent (if truthy (get result "success") then 0 else 1), w')
      | (Raise e, w') =>
          let error_result :=
            dict_of [("success", VBool false); ("error", VStr (exc_str e))] in
          (Exit error_result (Some 2) 1, w')
      end.

(** ** Vocabulary of the properties *)

(** Two newline characters in a row, somewhere in [s]. *)
Fixpoint blank_run (s : str) : bool :=
  match s with
  | [] => false
  | c :: s' =>
      match s' with
      | [] => false
      | c' :: _ => ((c =? LF)%N && (c' =? LF)%N) || blank_run s'
      end
  end.

(** No element of [s] is a newline. *)
Definition no_newline (s : str) : Prop := Forall (λ c, c ≠ LF) s.

Section Forall2b.
Context {A B : Type} (f : A -> B -> bool).

Fixpoint forall2b (l1 : list A) (l2 : list B) : bool :=
  match l1, l2 with
  | [], [] => true
  | x :: l1', y :: l2' => f x y && forall2b l1' l2'
  | _, _ => false
  end.
End Forall2b.

#[export] Instance string_class_eq_dec : EqDecision Bs4.string_class.
Proof. solve_decision. Defined.

(** Two trees that are the same except, possibly, in what their tags of
    the given names contain. *)
Fixpoint same_outside (names : list str) (a b : Bs4.node) : bool :=
  match a, b with
  | Bs4.Str cls1 s1, Bs4.Str cls2 s2 =>
      bool_decide (cls1 = cls2) && bool_decide (s1 = s2)
  | Bs4.Tag name1 contents1, Bs4.Tag name2 contents2 =>
      bool_decide (name1 = name2)
      && (Bs4.name_in name1 names
          || forall2b (same_outside names) contents1 contents2)
  | _, _ => false
  end.

(** The strings of a tree that are not inside a tag of the given names. *)
Fixpoint outside_strings (names : list str) (n : Bs4.node) : list str :=
  match n with
  | Bs4.Str cls s => if Bs4.interesting cls then [s] else []
  | Bs4.Tag name contents =>
      if Bs4.name_in name names then []
      else flat_map (outside_strings names) contents
  end.

Definition bs4_missing : imported Bs4.BeautifulSoup :=
  NotInstalled (py "ModuleNotFoundError") (py "No module named 'bs4'").

(** What bs4 raises on markup its parser rejects. *)
Definition parser_rejected : Exception :=
  {| exc_isinstance := IsOther; exc_module := py "bs4.exceptions";
     exc_name := py "ParserRejectedMarkup";
     exc_str := py "The markup you provided was rejected by the parser." |}.

(** A parser for the examples: it knows one document with a script and
    rejects one piece of markup. *)
Definition page_with_script (script_text : str) : list Bs4.node :=
  [Bs4.Tag (py "html")
     [Bs4.Tag (py "head") [Bs4.Tag (py "title") [Bs4.Str Bs4.NavigableString (py "T")]];
      Bs4.Tag (py "body")
        [Bs4.Tag (py "script") [Bs4.Str Bs4.Script script_text];
         Bs4.Tag (py "p") [Bs4.Str Bs4.NavigableString (py "Hello   World")]]]].

Definition example_parser : Bs4.BeautifulSoup :=
  λ html,
    if bool_decide (html = py "<html><head><title>T</title></head><body><script>x</script><p>Hello   World</p></body></html>")
    then inr (page_with_script (py "x"))
    else if bool_decide (html = py "<html><head><title>T</title></head><body><script>y = 1</script><p>Hello   World</p></body></html>")
    then inr (page_with_script (py "y = 1"))
    else if bool_decide (html = py "<![x] >")
    then inl parser_rejected
    else inr [Bs4.Str Bs4.NavigableString html].


(** [url] starts with one of the two schemes. *)
Definition is_http (url : str) : bool :=
  startswith url (py "http://") || startswith url (py "https://").

(** A fetch of [url] calls [client.get]: httpx is there and the url
    passes the validation. *)
Definition requests (env : Env) (url : value) : bool :=
  match httpx env, url with
  | Imported _, VStr s => is_http s
  | _, _ => false
  end.

(** What a dict returned by fetch_url_content looks like. *)
Definition fetch_succeeded (d : gmap string value) : Prop :=
  ∃ title text_content,
    d !! "success" = Some (VBool true)
    /\ d !! "title" = Some (VStr title)
    /\ d !! "text_content" = Some (VStr text_content)
    /\ d !! "text_length" = Some (VInt (len text_content))
    /\ d !! "error" = None.

Definition fetch_failed (d : gmap string value) : Prop :=
  ∃ msg,
    d !! "success" = Some (VBool false)
    /\ d !! "error" = Some (VStr msg)
    /\ d !! "title" = None
    /\ d !! "text_content" = None
    /\ d !! "text_length" = None.

(** The world after a fetch that called [client.get] for [u] and waited
    [seconds] for the answer. *)
Definition after_get (w : World) (u : str) (seconds : N) : World :=
  {| trace := trace w ++ [GetSent u (clock w); GetDone u (clock w + seconds)%N];
     clock := (clock w + seconds)%N |}.

(** The urls [client.get] was called with in a list of events, in
    order. *)
Definition sent_urls (evs : list event) : list str :=
  flat_map (λ ev, match ev with GetSent u _ => [u] | _ => [] end) evs.

(** The seconds between each call of [client.get] and the answer that
    follows it. *)
Fixpoint waited (evs : list event) : N :=
  match evs with
  | [] => 0
  | GetSent _ t :: evs' =>
      match evs' with
      | GetDone _ t' :: evs'' => (t' - t) + waited evs''
      | _ => waited evs'
      end
  | _ :: evs' => waited evs'
  end%N.

(** The urls of a list of values that are strings with one of the two
    schemes. *)
Definition http_urls (urls : list value) : list str :=
  flat_map (λ url, match url with
                   | VStr u => if is_http u then [u] else []
                   | _ => []
                   end) urls.

(** The fetches of [urls] one after the other, from time [t] on: a url
    that sends no request leaves no event; one that does leaves its
    request, at the time the fetch before it was over, and then its
    answer, before anything of the next url. *)
Inductive fetched_in_turn (env : Env) : list value -> N -> list event -> N -> Prop :=
| turn_end t :
    fetched_in_turn env [] t [] t
| turn_no_request url urls t evs t' :
    requests env url = false ->
    fetched_in_turn env urls t evs t' ->
    fetched_in_turn env (url :: urls) t evs t'
| turn_request u urls t seconds evs t' :
    requests env (VStr u) = true ->
    fetched_in_turn env urls (t + seconds)%N evs t' ->
    fetched_in_turn env (VStr u :: urls) t
      (GetSent u t :: GetDone u (t + seconds)%N :: evs) t'.

(** An entry of fetched_content, for the url at position [idx]. *)
Definition well_formed_entry (idx : Z) (url : value) (e : gmap string value) : Prop :=
  e !! "index" = Some (VInt idx)
  /\ e !! "url" = Some url
  /\ ∃ title text_content success error,
       e !! "title" = Some (VStr title)
       /\ e !! "text_content" = Some (VStr text_content)
       /\ e !! "text_length" = Some (VInt (len text_content))
       /\ e !! "fetch_success" = Some (VBool success)
       /\ e !! "error" = Some error
       /\ (success = false -> title = py "No title" /\ text_content = []).

Inductive entries_for : Z -> list value -> list value -> Prop :=
| entries_nil idx :
    entries_for idx [] []
| entries_cons idx url urls e entries :
    well_formed_entry idx url e ->
    entries_for (idx + 1) urls entries ->
    entries_for idx (url :: urls) (VDict e :: entries).

(** [r] is a dict whose link is [url]. *)
Definition link_is (r url : value) : Prop :=
  ∃ d, r = VDict d /\ d !! "link" = Some url.

(** The environments of the examples. *)
Definition start : World := {| trace := []; clock := 0 |}.

Definition not_found : Response :=
  {| status_code := 404; reason_phrase := py "Not Found";
     text := py "<html><body>gone</body></html>";
     content_type_header := Some (py "text/html") |}.

Definition read_timeout : Exception :=
  {| exc_isinstance := IsTimeoutException; exc_module := py "httpx";
     exc_name := py "ReadTimeout"; exc_str := [] |}.

Definition connect_error : Exception :=
  {| exc_isinstance := IsOther; exc_module := py "httpx";
     exc_name := py "ConnectError"; exc_str := py "All connection attempts failed" |}.

(** An httpx whose answer depends on the url: a 404, a timeout after the
    thirty seconds, or a refused connection. *)
Definition example_httpx : Httpx :=
  {| client_get := λ _ _ url,
       if bool_decide (url = py "https://example.com/missing") then (inr not_found, 1%N)
       else if bool_decide (url = py "https://example.com/slow") then (inl read_timeout, 30%N)
       else (inl connect_error, 2%N);
     status_error_message := λ _, py "Client error '404 Not Found'" |}.

Definition search_error : Exception :=
  {| exc_isinstance := IsOther; exc_module := py "ddgs.exceptions";
     exc_name := py "RatelimitException"; exc_str := py "202 Ratelimit" |}.

(** A ddgs with three results for "batteries" and an error for anything
    else. *)
Definition example_ddgs : Ddgs :=
  {| ddgs_text := λ _ query _,
       if bool_decide (query = py "batteries")
       then (inr [ {[ "title" := py "A"; "href" := py "https://example.com/missing" ]};
                   {[ "title" := py "B"; "href" := py "https://example.com/slow" ]};
                   {[ "title" := py "C"; "href" := py "https://example.com/down" ]} ],
             1%N)
       else (inl search_error, 1%N) |}.

Definition example_env : Env :=
  {| bs4 := Imported example_parser;
     httpx := Imported example_httpx;
     ddgs := Imported example_ddgs |}.

Definition env_without_httpx : Env :=
  {| bs4 := Imported example_parser;
     httpx := NotInstalled (py "ModuleNotFoundError") (py "No module named 'httpx'");
     ddgs := Imported example_ddgs |}.

Definition env_without_ddgs : Env :=
  {| bs4 := Imported example_parser;
     httpx := Imported example_httpx;
     ddgs := NotInstalled (py "ModuleNotFoundError") (py "No module named 'ddgs'") |}.

(** Every request times out after thirty seconds. *)
Definition slow_httpx : Httpx :=
  {| client_get := λ _ _ _, (inl read_timeout, 30%N);
     status_error_message := λ _, [] |}.

Definition slow_env : Env :=
  {| bs4 := Imported example_parser;
     httpx := Imported slow_httpx;
     ddgs := Imported example_ddgs |}.

(** Two spaces in a row, somewhere in [s]. *)
Fixpoint double_space (s : str) : bool :=
  match s with
  | [] => false
  | c :: s' =>
      match s' with
      | [] => false
      | c' :: _ => ((c =? SPACE)%N && (c' =? SPACE)%N) || double_space s'
      end
  end.

(** A match of the pattern [<[^>]+>] starts somewhere in [s]. *)
Fixpoint tag_starts (s : str) : bool :=
  match s with
  | [] => false
  | c :: s' => ((c =? LT)%N && closes s') || tag_starts s'
  end.

(** The chunks [clean_whitespace] joins: not empty, stripped, within one
    line and without a double space. *)
Definition clean_chunk (chunk : str) : Prop :=
  chunk ≠ []
  /\ strip chunk = chunk
  /\ Forall (λ c, is_linebreak c = false) chunk
  /\ double_space chunk = false.

(** The searches of a list of events: the query and the number of
    results asked for, in order. *)
Definition searches (evs : list event) : list (str * Z) :=
  flat_map (λ ev, match ev with
                  | Searched query max_results _ => [(query, max_results)]
                  | _ => []
                  end) evs.

(** A result of fetch_url_content, for the limit [max_length]: a success
    with its text within the limit, or a failure with its message. *)
Definition fetch_outcome (max_length : Z) (d : gmap string value) : Prop :=
  (∃ title text_content,
     d !! "success" = Some (VBool true)
     /\ d !! "title" = Some (VStr title)
     /\ d !! "text_content" = Some (VStr text_content)
     /\ d !! "text_length" = Some (VInt (len text_content))
     /\ d !! "error" = None
     /\ (0 < max_length -> len text_content <= max_length + 24))
  \/ (∃ msg,
        d !! "success" = Some (VBool false)
        /\ d !! "error" = Some (VStr msg)
        /\ msg ≠ []
        /\ d !! "title" = None
        /\ d !! "text_content" = None
        /\ d !! "text_length" = None).

(** [entry] is what the loop of search_and_fetch appends for [url]: the
    entry made from the result of fetching it. *)
Definition entry_of_fetch (env : Env) (max_length : Z) (url entry : value) : Prop :=
  ∃ idx content wa wb,
    entry = VDict (fetched_entry idx url content)
    /\ fetch_url_content env url false max_length wa = (Return content, wb).

(** The formatted result for the raw result [r] at position [i]. *)
Definition formatted (i : nat) (r : gmap string str) : value :=
  VDict (dict_of [("index", VInt (Z.of_nat i + 1));
                  ("title", VStr (default (py "No title") (r !! "title")));
                  ("snippet", VStr (default (py "No snippet") (r !! "body")));
                  ("link", VStr (default (py "No link") (r !! "href")))]).

(** More environments for the examples: a page that is there, and a
    search with a result that has no href. *)
Definition found : Response :=
  {| status_code := 200; reason_phrase := py "OK";
     text := py "<html><head><title>T</title></head><body><script>x</script><p>Hello   World</p></body></html>";
     content_type_header := Some (py "text/html; charset=utf-8") |}.

Definition ok_httpx : Httpx :=
  {| client_get := λ _ _ _, (inr found, 1%N);
     status_error_message := λ _, [] |}.

Definition linkless_ddgs : Ddgs :=
  {| ddgs_text := λ _ _ _,
       (inr [ {[ "title" := py "A"; "href" := py "https://example.com/a" ]};
              {[ "title" := py "B"; "body" := py "no address" ]} ],
        1%N) |}.

Definition ok_env : Env :=
  {| bs4 := Imported example_parser;
     httpx := Imported ok_httpx;
     ddgs := Imported linkless_ddgs |}.

Definition env_without_bs4 : Env :=
  {| bs4 := bs4_missing;
     httpx := Imported ok_httpx;
     ddgs := Imported linkless_ddgs |}.

Definition fetch_args (url : str) : Cli.Args :=
  {| Cli.query := None; Cli.max_results := 5; Cli.fetch_url := Some url;
     Cli.include_html := false; Cli.max_length := 50000;
     Cli.fetch_content := false; Cli.top_n := 3; Cli.pretty := false |}.

Definition search_args (query : str) (fetch_content : bool) : Cli.Args :=
  {| Cli.query := Some query; Cli.max_results := 5; Cli.fetch_url := None;
     Cli.include_html := false; Cli.max_length := 50000;
     Cli.fetch_content := fetch_content; Cli.top_n := 3; Cli.pretty := true |}.

(** The exception an attempted fetch ends with: the one [client.get]
    raised, or the one the extraction of the text raised on a 2xx
    answer. *)
Definition fetch_raised (env : Env) (max_length : Z)
    (answer : Exception + Response) (e : Exception) : Prop :=
  answer = inl e
  \/ ∃ response,
       answer = inr response
       /\ 200 <= status_code response <= 299
       /\ extract_text_from_html (bs4 env) (text response) max_length = Raise e.

(** A page that is there and whose markup the parser rejects. *)
Definition odd_page : Response :=
  {| status_code := 200; reason_phrase := py "OK";
     text := py "<![x] >";
     content_type_header := Some (py "text/html") |}.

Definition odd_httpx : Httpx :=
  {| client_get := λ _ _ _, (inr odd_page, 1%N);
     status_error_message := λ _, [] |}.

Definition rejecting_env : Env :=
  {| bs4 := Imported example_parser;
     httpx := Imported odd_httpx;
     ddgs := Imported example_ddgs |}.

(** The fetches of a loop over [urls] from the world [w] on, with the
    entries they leave: every url is fetched, in the world the fetch
    before it left and whatever that fetch returned, and its entry
    carries the url and, as fetch_success, the success of its own
    fetch. *)
Inductive fetched_each (env : Env) (max_length : Z)
  : list value -> World -> list value -> World -> Prop :=
| each_end w :
    fetched_each env max_length [] w [] w
| each_fetch url urls w content (success : bool) w1 e entries w2 :
    fetch_url_content env url false max_length w = (Return content, w1) ->
    content !! "success" = Some (VBool success) ->
    e !! "url" = Some url ->
    e !! "fetch_success" = Some (VBool success) ->
    fetched_each env max_length urls w1 entries w2 ->
    fetched_each env max_length (url :: urls) w (VDict e :: entries) w2.

(** The fetch_success of the entries of a report, in order. *)
Definition fetch_flags (report : gmap string value) : list value :=
  match report !! "fetched_content" with
  | Some (VList entries) =>
      map (λ entry, match entry with
                    | VDict e => get e "fetch_success"
                    | _ => VNone
                    end) entries
  | _ => []
  end.

(** An httpx for which one page is missing and every other is there. *)
Definition mixed_httpx : Httpx :=
  {| client_get := λ _ _ url,
       if bool_decide (url = py "https://example.com/missing") then (inr not_found, 1%N)
       else (inr found, 1%N);
     status_error_message := λ _, py "Client error '404 Not Found'" |}.

Definition mixed_env : Env :=
  {| bs4 := Imported example_parser;
     httpx := Imported mixed_httpx;
     ddgs := Imported example_ddgs |}.

(** A ddgs that is installed and whose search raises an ImportError: a
    module it imports when the search runs is missing. *)
Definition backend_missing : Exception :=
  {| exc_isinstance := IsImportError; exc_module := py "builtins";
     exc_name := py "ModuleNotFoundError";
     exc_str := py "No module named 'lxml'" |}.

Definition broken_ddgs : Ddgs :=
  {| ddgs_text := λ _ _ _, (inl backend_missing, 0%N) |}.

Definition env_with_broken_ddgs : Env :=
  {| bs4 := Imported example_parser;
     httpx := Imported example_httpx;
     ddgs := Imported broken_ddgs |}.

(** Unfolds the monad and the operations on objects. *)
Ltac run_py :=
  cbv beta iota delta
    [try_except mbind Py_bind mret Py_ret raise import_ startswith_any
     raise_for_status as_list getitem call].

(** * Properties *)

(** ** Length limit *)

Lemma len_app {A} (s t : list A) : len (s ++ t) = len s + len t.
Proof. unfold len. rewrite length_app. lia. Qed.

Lemma len_slice_to {A} (s : list A) (n : Z) :
  0 <= n -> len (slice_to s n) = Z.min n (len s).
Proof.
  intros Hn. unfold slice_to, len.
  destruct (Z.leb_spec 0 n) as [_|]; [|lia].
  rewrite length_take. lia.
Qed.

Lemma len_truncation_marker : len truncation_marker = 24.
Proof. reflexivity. Qed.

Lemma limit_length_cases (text : str) (max_length : Z) :
  (len text > max_length
   /\ limit_length text max_length = slice_to text max_length ++ truncation_marker)
  \/ (len text <= max_length /\ limit_length text max_length = text).
Proof.
  unfold limit_length.
  destruct (Z.gtb_spec (len text) max_length); [left | right]; split; auto; lia.
Qed.

(** ** Blank-line runs *)

Lemma blank_run_no_newline s : no_newline s -> blank_run s = false.
Proof.
  induction 1 as [|c s Hc Hs IH]; [reflexivity|].
  simpl. destruct s as [|c' s']; [reflexivity|].
  rewrite IH. destruct (N.eqb_spec c LF); [contradiction | reflexivity].
Qed.

Lemma blank_run_cons_other c s : c ≠ LF -> blank_run (c :: s) = blank_run s.
Proof.
  intros Hc. simpl. destruct s as [|c' s']; [reflexivity|].
  destruct (N.eqb_spec c LF); [contradiction | reflexivity].
Qed.

(** A newline between a newline-free, non-empty piece and a text that
    does not start with one opens no blank line. *)
Lemma blank_run_piece p s :
  no_newline p -> p ≠ [] -> head s ≠ Some LF ->
  blank_run (p ++ LF :: s) = blank_run s /\ head (p ++ LF :: s) ≠ Some LF.
Proof.
  intros Hp Hne Hs. split.
  - clear Hne. induction Hp as [|c p Hc Hp IH].
    + simpl. destruct s as [|c' s']; [reflexivity|].
      destruct (N.eqb_spec c' LF) as [->|]; [|reflexivity].
      exfalso. apply Hs. reflexivity.
    + change ((c :: p) ++ LF :: s) with (c :: (p ++ LF :: s)).
      rewrite blank_run_cons_other by assumption. exact IH.
  - destruct Hp as [|c p Hc Hp]; [congruence|].
    simpl. congruence.
Qed.

Lemma blank_run_join (pieces : list str) :
  Forall (λ p, no_newline p /\ p ≠ []) pieces ->
  blank_run (join [LF] pieces) = false /\ head (join [LF] pieces) ≠ Some LF.
Proof.
  induction 1 as [|p ps [Hp Hne] Hps [IH1 IH2]]; [split; [reflexivity | discriminate]|].
  destruct ps as [|q ps].
  - simpl. split; [apply blank_run_no_newline; assumption|].
    destruct Hp; [congruence | simpl; congruence].
  - change (join [LF] (p :: q :: ps)) with (p ++ LF :: join [LF] (q :: ps)).
    destruct (blank_run_piece p (join [LF] (q :: ps)) Hp Hne IH2) as [E1 E2].
    split; [rewrite E1; exact IH1 | exact E2].
Qed.

Lemma blank_run_take n s : blank_run s = false -> blank_run (take n s) = false.
Proof.
  revert n. induction s as [|c s IH]; intros [|n] H; try reflexivity.
  simpl in H. destruct s as [|c' s']; [destruct n; reflexivity|].
  apply orb_false_iff in H as [H1 H2].
  destruct n as [|n]; [reflexivity|].
  change (blank_run (c :: c' :: take n s') = false).
  specialize (IH (S n) H2). change (blank_run (c' :: take n s') = false) in IH.
  simpl. simpl in IH. rewrite H1. exact IH.
Qed.

Lemma blank_run_marker s : blank_run (s ++ truncation_marker) = true.
Proof.
  induction s as [|c s IH]; [reflexivity|].
  change ((c :: s) ++ truncation_marker) with (c :: (s ++ truncation_marker)).
  remember (s ++ truncation_marker) as t eqn:Et.
  destruct t as [|c' t'].
  - destruct s; discriminate.
  - simpl. simpl in IH. rewrite IH. apply orb_true_r.
Qed.

(** *** What the pieces of the splits are made of *)

Section Pieces.
Variable Q : N -> Prop.

Lemma Forall_cons_first c pieces :
  Q c -> Forall (Forall Q) pieces -> Forall (Forall Q) (cons_first c pieces).
Proof.
  intros Hc [|p ps Hp Hps]; simpl; repeat constructor; assumption.
Qed.

Lemma Forall_lstrip s : Forall Q s -> Forall Q (lstrip s).
Proof.
  induction 1 as [|c s Hc Hs IH]; simpl; [constructor|].
  destruct (isspace c); [exact IH | constructor; assumption].
Qed.

Lemma Forall_strip s : Forall Q s -> Forall Q (strip s).
Proof.
  intros H. unfold strip, rstrip.
  apply Forall_rev, Forall_lstrip, Forall_rev, Forall_lstrip, H.
Qed.

Lemma Forall_split_2sp s : Forall Q s -> Forall (Forall Q) (split_2sp s).
Proof.
  remember (length s) as n eqn:En. revert s En.
  induction n as [n IH] using lt_wf_ind. intros s -> Hs.
  destruct Hs as [|c s Hc Hs]; [repeat constructor|].
  assert (Hrest : Forall (Forall Q) (split_2sp s))
    by (apply (IH (length s)); simpl; [lia | reflexivity | assumption]).
  simpl. destruct Hs as [|c' s' Hc' Hs']; [apply Forall_cons_first; assumption|].
  destruct ((c =? SPACE)%N && (c' =? SPACE)%N).
  - constructor; [constructor|].
    apply (IH (length s')); simpl; [lia | reflexivity | assumption].
  - apply Forall_cons_first; assumption.
Qed.
End Pieces.

(** No line of [splitlines] holds a line boundary. *)
Lemma splitlines_no_linebreak s :
  Forall (Forall (λ c, is_linebreak c = false)) (splitlines s).
Proof.
  remember (length s) as n eqn:En. revert s En.
  induction n as [n IH] using lt_wf_ind. intros s ->.
  destruct s as [|c s]; [constructor|].
  assert (Hrest : Forall (Forall (λ c, is_linebreak c = false)) (splitlines s))
    by (apply (IH (length s)); simpl; [lia | reflexivity]).
  simpl. destruct (is_linebreak c) eqn:Hc.
  - destruct s as [|c' s']; [repeat constructor|].
    destruct ((c =? CR)%N && (c' =? LF)%N).
    + constructor; [constructor|].
      apply (IH (length s')); simpl; [lia | reflexivity].
    + constructor; [constructor | exact Hrest].
  - apply Forall_cons_first; assumption.
Qed.

Lemma not_linebreak_not_LF c : is_linebreak c = false -> c ≠ LF.
Proof. intros H ->. discriminate H. Qed.

Lemma clean_whitespace_no_blank_run text :
  blank_run (clean_whitespace text) = false.
Proof.
  unfold clean_whitespace. apply blank_run_join.
  apply List.Forall_forall. intros chunk Hin.
  apply filter_In in Hin as [Hin Hne].
  split; [|destruct chunk; [discriminate | congruence]].
  apply in_flat_map in Hin as (line & Hline & Hchunk).
  apply in_map_iff in Hchunk as (piece & <- & Hpiece).
  apply in_map_iff in Hline as (raw & <- & Hraw).
  pose proof (splitlines_no_linebreak text) as Hall.
  rewrite List.Forall_forall in Hall. specialize (Hall raw Hraw).
  apply Forall_strip.
  pose proof (Forall_split_2sp _ _ (Forall_strip _ _ Hall)) as Hpieces.
  rewrite List.Forall_forall in Hpieces. specialize (Hpieces piece Hpiece).
  eapply Forall_impl; [exact Hpieces|]. intros c. apply not_linebreak_not_LF.
Qed.

Lemma sub_spaces_no_space_char in_run s :
  Forall (λ c, c = SPACE \/ isspace c = false) (sub_spaces in_run s).
Proof.
  revert in_run. induction s as [|c s IH]; intros in_run; simpl; [constructor|].
  destruct (isspace c) eqn:Hc.
  - destruct in_run; [apply IH | constructor; [left; reflexivity | apply IH]].
  - constructor; [right; exact Hc | apply IH].
Qed.

Lemma fallback_no_blank_run html :
  blank_run (strip (sub_spaces false (sub_tags false html))) = false.
Proof.
  apply blank_run_no_newline, Forall_strip.
  eapply Forall_impl; [apply sub_spaces_no_space_char|].
  intros c [-> | Hc]; [discriminate|]. intros ->. discriminate Hc.
Qed.

(** *** The two ways extract_text_from_html ends *)

Lemma collapsed_text_cases bs4 html text :
  collapsed_text bs4 html = Return text ->
  (∃ soup, text = soup_text soup) \/ text = fallback_text html.
Proof.
  unfold collapsed_text. destruct bs4 as [BeautifulSoup | name msg].
  - destruct (BeautifulSoup html) as [e | soup].
    + destruct (exc_isinstance e); intros H; try discriminate H;
        injection H as <-; right; reflexivity.
    + intros [= <-]. left. exists soup. reflexivity.
  - intros [= <-]. right. reflexivity.
Qed.

Lemma collapsed_text_raises bs4 html e :
  collapsed_text bs4 html = Raise e
  <-> ∃ BeautifulSoup,
        bs4 = Imported BeautifulSoup
        /\ BeautifulSoup html = inl e
        /\ exc_isinstance e ≠ IsImportError.
Proof.
  unfold collapsed_text. split.
  - destruct bs4 as [BeautifulSoup | name msg]; [|discriminate].
    destruct (BeautifulSoup html) as [e' | soup] eqn:Hparse; [|discriminate].
    destruct (exc_isinstance e') eqn:Hcls; intros H; try discriminate H;
      injection H as <-; exists BeautifulSoup;
      (split; [reflexivity | split; [exact Hparse | rewrite Hcls; discriminate]]).
  - intros (BeautifulSoup & -> & -> & Hcls).
    destruct (exc_isinstance e); [contradiction | reflexivity..].
Qed.

Lemma extract_returns bs4 html max_length out :
  extract_text_from_html bs4 html max_length = Return out
  <-> ∃ text, collapsed_text bs4 html = Return text
              /\ out = limit_length text max_length.
Proof.
  unfold extract_text_from_html. destruct (collapsed_text bs4 html) as [text | e]; split.
  - intros [= <-]. exists text. split; reflexivity.
  - intros (text' & [= <-] & ->). reflexivity.
  - discriminate.
  - intros (text' & H & _). discriminate H.
Qed.

Lemma extract_raises bs4 html max_length e :
  extract_text_from_html bs4 html max_length = Raise e
  <-> collapsed_text bs4 html = Raise e.
Proof.
  unfold extract_text_from_html. destruct (collapsed_text bs4 html) as [text | e'];
    split; (discriminate || (intros [= <-]; reflexivity)).
Qed.

Lemma extract_of_collapsed bs4 html max_length text :
  collapsed_text bs4 html = Return text ->
  extract_text_from_html bs4 html max_length = Return (limit_length text max_length).
Proof. intros H. unfold extract_text_from_html. rewrite H. reflexivity. Qed.

Lemma collapsed_text_no_blank_run bs4 html text :
  collapsed_text bs4 html = Return text -> blank_run text = false.
Proof.
  intros H. destruct (collapsed_text_cases _ _ _ H) as [[soup ->] | ->].
  - apply clean_whitespace_no_blank_run.
  - apply fallback_no_blank_run.
Qed.

(** ** Non-content elements *)

Lemma node_ind_nested (P : Bs4.node -> Prop) :
  (∀ cls s, P (Bs4.Str cls s)) ->
  (∀ name contents, Forall P contents -> P (Bs4.Tag name contents)) ->
  ∀ n, P n.
Proof.
  intros HStr HTag. fix IH 1. intros [cls s | name contents].
  - apply HStr.
  - apply HTag. induction contents as [|c cs IHcs]; constructor; [apply IH | exact IHcs].
Qed.

Lemma strings_decompose names n :
  flat_map Bs4.strings (Bs4.decompose names n) = outside_strings names n.
Proof.
  induction n as [cls s | name contents IH] using node_ind_nested; simpl.
  - apply app_nil_r.
  - destruct (Bs4.name_in name names); [reflexivity|].
    simpl. rewrite app_nil_r.
    induction IH as [|c cs Hc Hcs IHcs]; [reflexivity|].
    simpl. rewrite flat_map_app, Hc, IHcs. reflexivity.
Qed.

Lemma get_text_decompose_all names soup :
  Bs4.get_text (Bs4.decompose_all names soup)
  = concat (flat_map (outside_strings names) soup).
Proof.
  unfold Bs4.get_text, Bs4.decompose_all. f_equal.
  induction soup as [|n soup IH]; [reflexivity|].
  simpl. rewrite flat_map_app, strings_decompose, IH. reflexivity.
Qed.

Lemma same_outside_strings names a :
  ∀ b, same_outside names a b = true ->
       outside_strings names a = outside_strings names b.
Proof.
  induction a as [cls s | name contents IH] using node_ind_nested;
    intros [cls' s' | name' contents'] H; simpl in H; try discriminate.
  - apply andb_true_iff in H as [H1 H2].
    apply bool_decide_eq_true in H1, H2. subst. reflexivity.
  - apply andb_true_iff in H as [H1 H2].
    apply bool_decide_eq_true in H1. subst name'. simpl.
    destruct (Bs4.name_in name names); [reflexivity|].
    simpl in H2. revert contents' H2.
    induction IH as [|c cs Hc Hcs IHcs]; intros [|c' cs'] H2;
      simpl in H2; try discriminate; [reflexivity|].
    apply andb_true_iff in H2 as [Hhead Htail].
    simpl. rewrite (Hc _ Hhead), (IHcs _ Htail). reflexivity.
Qed.

Lemma same_outside_all_strings names soup1 :
  ∀ soup2, forall2b (same_outside names) soup1 soup2 = true ->
           flat_map (outside_strings names) soup1
           = flat_map (outside_strings names) soup2.
Proof.
  induction soup1 as [|a soup1 IH]; intros [|b soup2] H;
    simpl in H; try discriminate; [reflexivity|].
  apply andb_true_iff in H as [Hhead Htail].
  simpl. rewrite (same_outside_strings _ _ _ Hhead), (IH _ Htail). reflexivity.
Qed.

(** ** Properties of extract_text_from_html *)

(** C2. For a positive [max_length], whenever extract_text_from_html
    returns, its output is at most [max_length] plus the length of the
    truncation marker long; it is exactly that long if and only if the
    collapsed text was longer than [max_length]; the output then is the
    first [max_length] characters of the collapsed text followed by the
    marker, once, and otherwise it is the collapsed text itself.  The
    function returns exactly when the collapsed text is produced; it
    raises, with no output to bound, exactly when bs4 is there and its
    parser raises something that is not an ImportError on this html. *)
Theorem extract_length_limit (bs4 : imported Bs4.BeautifulSoup) (html : str) (max_length : Z) :
  0 < max_length ->
  (∀ text,
     collapsed_text bs4 html = Return text ->
     ∃ out,
       extract_text_from_html bs4 html max_length = Return out
       /\ len out <= max_length + len truncation_marker
       /\ (len out = max_length + len truncation_marker <-> len text > max_length)
       /\ (len text > max_length ->
           out = take (Z.to_nat max_length) text ++ truncation_marker)
       /\ (len text <= max_length -> out = text))
  /\ (∀ out,
        extract_text_from_html bs4 html max_length = Return out ->
        len out <= max_length + len truncation_marker
        /\ ∃ text, collapsed_text bs4 html = Return text)
  /\ (∀ e,
        extract_text_from_html bs4 html max_length = Raise e
        <-> ∃ BeautifulSoup,
              bs4 = Imported BeautifulSoup
              /\ BeautifulSoup html = inl e
              /\ exc_isinstance e ≠ IsImportError).
Proof.
  intros Hpos.
  assert (Hbound : ∀ text,
             len (limit_length text max_length) <= max_length + len truncation_marker
             /\ (len (limit_length text max_length) = max_length + len truncation_marker
                 <-> len text > max_length)
             /\ (len text > max_length ->
                 limit_length text max_length
                 = take (Z.to_nat max_length) text ++ truncation_marker)
             /\ (len text <= max_length -> limit_length text max_length = text)).
  { intros text.
    assert (Hslice : slice_to text max_length = take (Z.to_nat max_length) text).
    { unfold slice_to. destruct (Z.leb_spec 0 max_length); [reflexivity | lia]. }
    destruct (limit_length_cases text max_length) as [[Hlong ->] | [Hshort ->]].
    - rewrite len_app, len_slice_to, len_truncation_marker, Hslice by lia.
      repeat split; intros; try lia; reflexivity.
    - rewrite len_truncation_marker.
      repeat split; intros; try lia; reflexivity. }
  split; [|split].
  - intros text Htext. exists (limit_length text max_length).
    split; [apply extract_of_collapsed, Htext | apply Hbound].
  - intros out Hout. apply extract_returns in Hout as (text & Htext & ->).
    split; [apply Hbound | exists text; exact Htext].
  - intros e. rewrite extract_raises. apply collapsed_text_raises.
Qed.

Lemma extract_length_limit_witness :
  0 < 5
  /\ collapsed_text bs4_missing (py "<p>Hello   World</p>") = Return (py "Hello World")
  /\ extract_text_from_html bs4_missing (py "<p>Hello   World</p>") 5
     = Return (py "Hello" ++ truncation_marker)
  /\ extract_text_from_html (Imported example_parser) (py "<![x] >") 5
     = Raise parser_rejected.
Proof.
  split; [lia|].
  destruct (extract_length_limit bs4_missing (py "<p>Hello   World</p>") 5)
    as (Hreturns & _ & _); [lia|].
  destruct (Hreturns (py "Hello World")) as (out & Hout & _ & _ & Hlong & _);
    [vm_compute; reflexivity|].
  split; [vm_compute; reflexivity|].
  split.
  - rewrite Hout, Hlong; [reflexivity | vm_compute; reflexivity].
  - apply (extract_length_limit (Imported example_parser) (py "<![x] >") 5); [lia|].
    exists example_parser. split; [reflexivity|]. split; [reflexivity | discriminate].
Defined.

(** C3, the counterexample. Without bs4 the script's text is in the
    output: the fallback takes the tags away and keeps what is between
    them. *)
Lemma fallback_keeps_script_text :
  extract_text_from_html bs4_missing (py "<script>x</script>") 1000 = Return (py "x")
  /\ extract_text_from_html bs4_missing
       (py "<html><head><title>T</title></head><body><script>x</script><p>Hello   World</p></body></html>")
       1000
     = Return (py "TxHello World").
Proof. split; vm_compute; reflexivity. Qed.

(** C3, as amended. When bs4 is there, the output is made of the strings
    outside the script, style, nav, footer and header elements only: two
    documents whose trees differ inside such elements at most give the
    same output. *)
Theorem non_content_text_excluded
    (BeautifulSoup : Bs4.BeautifulSoup) (html1 html2 : str)
    (soup1 soup2 : list Bs4.node) (max_length : Z) :
  BeautifulSoup html1 = inr soup1 ->
  BeautifulSoup html2 = inr soup2 ->
  forall2b (same_outside non_content_tags) soup1 soup2 = true ->
  collapsed_text (Imported BeautifulSoup) html1
  = Return (clean_whitespace
              (concat (flat_map (outside_strings non_content_tags) soup1)))
  /\ extract_text_from_html (Imported BeautifulSoup) html1 max_length
     = extract_text_from_html (Imported BeautifulSoup) html2 max_length
  /\ ∃ out, extract_text_from_html (Imported BeautifulSoup) html1 max_length = Return out.
Proof.
  intros Hsoup1 Hsoup2 Hsame.
  unfold extract_text_from_html, collapsed_text, soup_text.
  rewrite Hsoup1, Hsoup2, !get_text_decompose_all.
  rewrite (same_outside_all_strings _ _ _ Hsame).
  split; [reflexivity|]. split; [reflexivity|]. eexists. reflexivity.
Qed.

Lemma non_content_text_excluded_witness :
  extract_text_from_html (Imported example_parser)
    (py "<html><head><title>T</title></head><body><script>x</script><p>Hello   World</p></body></html>") 1000
  = extract_text_from_html (Imported example_parser)
      (py "<html><head><title>T</title></head><body><script>y = 1</script><p>Hello   World</p></body></html>") 1000.
Proof.
  apply (non_content_text_excluded example_parser
           (py "<html><head><title>T</title></head><body><script>x</script><p>Hello   World</p></body></html>")
           (py "<html><head><title>T</title></head><body><script>y = 1</script><p>Hello   World</p></body></html>")
           (page_with_script (py "x")) (page_with_script (py "y = 1"))
           1000).
  - vm_compute. reflexivity.
  - vm_compute. reflexivity.
  - vm_compute. reflexivity.
Defined.

(** C8, the counterexample. A truncated output ends with the marker, and
    the marker starts with two newlines. *)
Lemma truncated_output_has_blank_run :
  extract_text_from_html bs4_missing (py "ab") 1 = Return (py "a" ++ truncation_marker)
  /\ blank_run (py "a" ++ truncation_marker) = true
  /\ extract_text_from_html (Imported example_parser) (py "ab") 1
     = Return (py "a" ++ truncation_marker).
Proof. repeat split; vm_compute; reflexivity. Qed.

(** C8, as amended. The collapsed text has no two newlines in a row, so
    neither has an output that was not truncated, nor the first
    [max_length] characters of one that was; a truncated output has the
    two newlines its marker starts with. *)
Theorem blank_run_only_from_marker
    (bs4 : imported Bs4.BeautifulSoup) (html text : str) (max_length : Z) :
  collapsed_text bs4 html = Return text ->
  blank_run text = false
  /\ ∃ out,
       extract_text_from_html bs4 html max_length = Return out
       /\ (blank_run out = false <-> len text <= max_length)
       /\ blank_run (take (Z.to_nat max_length) out) = false.
Proof.
  intros Htext.
  pose proof (collapsed_text_no_blank_run bs4 html text Htext) as Hclean.
  split; [exact Hclean|].
  exists (limit_length text max_length).
  split; [apply extract_of_collapsed, Htext|].
  destruct (limit_length_cases text max_length) as [[Hlong ->] | [Hshort ->]].
  - rewrite blank_run_marker. split; [split; [discriminate | lia]|].
    destruct (Z.leb_spec 0 max_length) as [Hle|Hlt].
    + unfold slice_to. destruct (Z.leb_spec 0 max_length); [|lia].
      rewrite take_app_le by (rewrite length_take; unfold len in Hlong; lia).
      rewrite take_take. apply blank_run_take, Hclean.
    + replace (Z.to_nat max_length) with 0%nat by lia. reflexivity.
  - split; [split; [lia | intros _; exact Hclean]|].
    apply blank_run_take, Hclean.
Qed.

Lemma blank_run_only_from_marker_witness :
  collapsed_text (Imported example_parser) (py "a  b") = Return [97; LF; 98]%N
  /\ extract_text_from_html (Imported example_parser) (py "a  b") 10 = Return [97; LF; 98]%N
  /\ blank_run [97; LF; 98]%N = false.
Proof.
  assert (Htext : collapsed_text (Imported example_parser) (py "a  b") = Return [97; LF; 98]%N)
    by (vm_compute; reflexivity).
  split; [exact Htext|].
  destruct (blank_run_only_from_marker (Imported example_parser) (py "a  b")
              [97; LF; 98]%N 10 Htext)
    as (Hclean & out & Hout & _ & _).
  split; [vm_compute; reflexivity | exact Hclean].
Defined.

(** ** fetch_url_content *)

Lemma existsb_schemes s :
  existsb (startswith s) [py "http://"; py "https://"] = is_http s.
Proof. unfold is_http. simpl. rewrite orb_false_r. reflexivity. Qed.

Lemma await_get_world client request u w r w' :
  await_get client request u w = (r, w') ->
  ∃ seconds, w' = after_get w u seconds.
Proof.
  unfold await_get, after_get.
  destruct (client_get client request (trace w ++ [GetSent u (clock w)]) u)
    as [answer seconds].
  rewrite <- app_assoc. simpl.
  destruct answer; intros [= _ <-]; exists seconds; reflexivity.
Qed.

Lemma fetch_url_content_spec env url include_html max_length w :
  ∃ d w',
    fetch_url_content env url include_html max_length w = (Return d, w')
    /\ (fetch_succeeded d \/ fetch_failed d)
    /\ d !! "url" = Some url
    /\ (if requests env url
        then ∃ u seconds, url = VStr u /\ w' = after_get w u seconds
        else w' = w).
Proof.
  unfold fetch_url_content, requests. run_py.
  destruct (httpx env) as [client | name msg].
  2:{ eexists _, _. split; [reflexivity|]. cbn [exc_module import_error].
      split; [right; eexists; repeat split; reflexivity |]. split; reflexivity. }
  destruct url as [ | b | n | u | l | d ];
    try (eexists _, _; split; [reflexivity|]; cbn [exc_module builtin_error];
         split; [right; eexists; repeat split; reflexivity | split; reflexivity]).
  rewrite existsb_schemes. destruct (is_http u) eqn:Hu; cbn [negb].
  2:{ eexists _, _. split; [reflexivity|].
      split; [right; eexists; repeat split; reflexivity | split; reflexivity]. }
  cbn [as_str].
  destruct (await_get client get_request u w) as [r w1] eqn:Hget.
  destruct (await_get_world _ _ _ _ _ _ Hget) as [seconds ->].
  destruct r as [response | e].
  - destruct ((200 <=? status_code response) && (status_code response <=? 299)).
    + destruct (extract_text_from_html (bs4 env) (text response) max_length)
        as [text_content | e].
      * destruct include_html;
          (eexists _, _; split; [reflexivity|];
           split; [left; eexists _, _; repeat split; reflexivity|];
           split; [reflexivity | eexists _, _; split; reflexivity]).
      * destruct (contains (py "httpx") (exc_module e)); [destruct (exc_isinstance e)|];
          (eexists _, _; split; [reflexivity|];
           split; [right; eexists; repeat split; reflexivity|];
           split; [reflexivity | eexists _, _; split; reflexivity]).
    + eexists _, _. split; [reflexivity|].
      split; [right; eexists; repeat split; reflexivity|].
      split; [reflexivity | eexists _, _; split; reflexivity].
  - destruct (contains (py "httpx") (exc_module e)); [destruct (exc_isinstance e)|];
      (eexists _, _; split; [reflexivity|];
       split; [right; eexists; repeat split; reflexivity|];
       split; [reflexivity | eexists _, _; split; reflexivity]).
Qed.

(** C4, the counterexample. With httpx not installed the import of line
    101 raises before the url is looked at, and the error of the result is
    that of the import. *)
Lemma invalid_url_without_httpx :
  fetch_url_content env_without_httpx (VStr (py "ftp://example.com")) false 50000 start
  = (Return (dict_of [("success", VBool false);
                      ("error", VStr (py "ModuleNotFoundError: No module named 'httpx'"));
                      ("url", VStr (py "ftp://example.com"))]),
     start).
Proof. vm_compute. reflexivity. Qed.

(** C4, as amended. For a url that starts with neither scheme
    fetch_url_content returns a failure and leaves the world as it found
    it, so no request goes out; when httpx can be imported the error is
    the one about the url, and when it cannot the error is the class name
    and message of the failed import. *)
Theorem invalid_url_rejected
    (env : Env) (url : str) (include_html : bool) (max_length : Z) (w : World) :
  is_http url = false ->
  ∃ d,
    fetch_url_content env (VStr url) include_html max_length w = (Return d, w)
    /\ d !! "success" = Some (VBool false)
    /\ (∀ client, httpx env = Imported client ->
          d = dict_of [("success", VBool false);
                       ("error", VStr (py "URL must start with http:// or https://"));
                       ("url", VStr url)])
    /\ (∀ name msg, httpx env = NotInstalled name msg ->
          d = dict_of [("success", VBool false);
                       ("error", VStr (name ++ py ": " ++ msg));
                       ("url", VStr url)]).
Proof.
  intros Hurl. unfold fetch_url_content. run_py.
  destruct (httpx env) as [client | name msg].
  - rewrite existsb_schemes, Hurl. cbn [negb].
    eexists. split; [reflexivity|]. split; [reflexivity|].
    split; [reflexivity | discriminate].
  - eexists. split; [reflexivity|]. split; [reflexivity|].
    split; [discriminate | intros ? ? [= <- <-]; reflexivity].
Qed.

Lemma invalid_url_rejected_witness :
  is_http (py "ftp://example.com") = false
  /\ ∃ d,
       fetch_url_content example_env (VStr (py "ftp://example.com")) false 50000 start
       = (Return d, start)
       /\ d !! "error" = Some (VStr (py "URL must start with http:// or https://")).
Proof.
  split; [reflexivity|].
  destruct (invalid_url_rejected example_env (py "ftp://example.com") false 50000 start)
    as (d & Hrun & _ & Hmsg & _); [reflexivity|].
  exists d. split; [exact Hrun|].
  rewrite (Hmsg example_httpx); reflexivity.
Defined.

Lemma status_is_success (s : Z) :
  200 <= s <= 299 -> (200 <=? s) && (s <=? 299) = true.
Proof. intros H. apply andb_true_iff. split; apply Z.leb_le; lia. Qed.

Lemma status_is_error (s : Z) :
  ¬ (200 <= s <= 299) -> (200 <=? s) && (s <=? 299) = false.
Proof.
  intros H. apply andb_false_iff.
  destruct (Z.leb_spec 200 s); [right; apply Z.leb_gt; lia | left; reflexivity].
Qed.

(** C5. fetch_url_content never raises, and a fetch that was attempted
    and failed is classified.  A response with a 4xx or 5xx status gives a
    failure with the status code and an error made of the code and the
    reason phrase.  The other failures come from an exception, raised by
    [client.get] or, on a 2xx answer, by the extraction of the text (the
    parser rejecting the markup): a timeout of httpx gives a failure whose
    error names the thirty seconds and which has no status code; an
    HTTPStatusError of httpx gives the failure of the response it carries;
    any other exception gives a failure whose error is the class name and
    the message of the exception.  There is no other failure of an
    attempted fetch. *)
Theorem fetch_failures_classified
    (env : Env) (url : value) (include_html : bool) (max_length : Z) (w : World) :
  ∃ d w',
    fetch_url_content env url include_html max_length w = (Return d, w')
    /\ ∀ client u answer seconds,
         httpx env = Imported client ->
         url = VStr u ->
         is_http u = true ->
         client_get client get_request (trace w ++ [GetSent u (clock w)]) u
         = (answer, seconds) ->
         (∀ response,
            answer = inr response -> 400 <= status_code response <= 599 ->
            d = dict_of [("success", VBool false);
                         ("error", VStr (py "HTTP error " ++ str_of_int (status_code response)
                                           ++ py ": " ++ reason_phrase response));
                         ("url", url);
                         ("status_code", VInt (status_code response))])
         /\ (∀ e,
               fetch_raised env max_length answer e ->
               contains (py "httpx") (exc_module e) = true ->
               exc_isinstance e = IsTimeoutException ->
               d = dict_of [("success", VBool false);
                            ("error", VStr (py "Request timed out (30 seconds)"));
                            ("url", url)]
               /\ d !! "status_code" = None)
         /\ (∀ e response,
               fetch_raised env max_length answer e ->
               contains (py "httpx") (exc_module e) = true ->
               exc_isinstance e = IsHTTPStatusError response ->
               d = dict_of [("success", VBool false);
                            ("error", VStr (py "HTTP error " ++ str_of_int (status_code response)
                                              ++ py ": " ++ reason_phrase response));
                            ("url", url);
                            ("status_code", VInt (status_code response))])
         /\ (∀ e,
               fetch_raised env max_length answer e ->
               contains (py "httpx") (exc_module e) = false
               \/ exc_isinstance e = IsOther \/ exc_isinstance e = IsImportError ->
               d = dict_of [("success", VBool false);
                            ("error", VStr (exc_name e ++ py ": " ++ exc_str e));
                            ("url", url)])
         /\ (d !! "success" = Some (VBool false) ->
             (∃ response,
                answer = inr response /\ ¬ (200 <= status_code response <= 299))
             \/ ∃ e, fetch_raised env max_length answer e).
Proof.
  destruct (fetch_url_content_spec env url include_html max_length w)
    as (d & w' & Hrun & _).
  exists d, w'. split; [exact Hrun|].
  intros client u answer seconds Hclient -> Hu Hget.
  revert Hrun. unfold fetch_url_content. run_py.
  rewrite Hclient, existsb_schemes, Hu. cbn [negb as_str].
  unfold await_get. rewrite Hget.
  intros Hrun.
  assert (Hcase : ∀ e,
             fetch_raised env max_length answer e ->
             d = if contains (py "httpx") (exc_module e)
                 then
                   match exc_isinstance e with
                   | IsHTTPStatusError response =>
                       dict_of
                         [("success", VBool false);
                          ("error", VStr (py "HTTP error " ++ str_of_int (status_code response)
                                            ++ py ": " ++ reason_phrase response));
                          ("url", VStr u);
                          ("status_code", VInt (status_code response))]
                   | IsTimeoutException =>
                       dict_of [("success", VBool false);
                                ("error", VStr (py "Request timed out (30 seconds)"));
                                ("url", VStr u)]
                   | _ =>
                       dict_of [("success", VBool false);
                                ("error", VStr (exc_name e ++ py ": " ++ exc_str e));
                                ("url", VStr u)]
                   end
                 else
                   dict_of [("success", VBool false);
                            ("error", VStr (exc_name e ++ py ": " ++ exc_str e));
                            ("url", VStr u)]).
  { intros e [-> | (response & -> & Hstatus & Hraise)].
    - destruct (contains (py "httpx") (exc_module e)); [destruct (exc_isinstance e)|];
        injection Hrun as <- _; reflexivity.
    - rewrite (status_is_success _ Hstatus), Hraise in Hrun.
      destruct (contains (py "httpx") (exc_module e)); [destruct (exc_isinstance e)|];
        injection Hrun as <- _; reflexivity. }
  split; [|split; [|split; [|split]]].
  - intros response -> Hstatus.
    rewrite status_is_error in Hrun by lia.
    injection Hrun as <- _. reflexivity.
  - intros e He Hmod Hcls. rewrite (Hcase e He), Hmod, Hcls. split; reflexivity.
  - intros e response He Hmod Hcls. rewrite (Hcase e He), Hmod, Hcls. reflexivity.
  - intros e He Hother. rewrite (Hcase e He).
    destruct (contains (py "httpx") (exc_module e)); [|reflexivity].
    destruct Hother as [? | [-> | ->]]; [discriminate | reflexivity..].
  - intros Hfailed. destruct answer as [e | response].
    + right. exists e. left. reflexivity.
    + destruct (Z_le_dec 200 (status_code response)) as [Hlo|Hlo];
        [destruct (Z_le_dec (status_code response) 299) as [Hhi|Hhi]|];
        try (left; exists response; split; [reflexivity | lia]).
      rewrite (status_is_success _ (conj Hlo Hhi)) in Hrun.
      destruct (extract_text_from_html (bs4 env) (text response) max_length)
        as [text_content | e] eqn:Hextract.
      * exfalso. destruct include_html; injection Hrun as <- _; discriminate Hfailed.
      * right. exists e. right. exists response.
        split; [reflexivity|]. split; [lia | exact Hextract].
Qed.

Lemma fetch_failures_classified_witness :
  (∃ d w',
     fetch_url_content example_env (VStr (py "https://example.com/missing")) false 50000 start
     = (Return d, w')
     /\ d !! "status_code" = Some (VInt 404)
     /\ d !! "error" = Some (VStr (py "HTTP error 404: Not Found")))
  /\ (∃ d w',
        fetch_url_content example_env (VStr (py "https://example.com/slow")) false 50000 start
        = (Return d, w')
        /\ d !! "status_code" = None
        /\ d !! "error" = Some (VStr (py "Request timed out (30 seconds)")))
  /\ (∃ d w',
        fetch_url_content example_env (VStr (py "https://example.com/down")) false 50000 start
        = (Return d, w')
        /\ d !! "error" = Some (VStr (py "ConnectError: All connection attempts failed")))
  /\ (∃ d w',
        fetch_url_content rejecting_env (VStr (py "https://example.com/odd")) false 50000 start
        = (Return d, w')
        /\ d !! "success" = Some (VBool false)
        /\ d !! "error"
           = Some (VStr (py "ParserRejectedMarkup: The markup you provided was rejected by the parser."))).
Proof.
  split; [|split; [|split]].
  - destruct (fetch_failures_classified example_env
                (VStr (py "https://example.com/missing")) false 50000 start)
      as (d & w' & Hrun & Hcls).
    destruct (Hcls example_httpx (py "https://example.com/missing") (inr not_found) 1%N
                eq_refl eq_refl eq_refl eq_refl) as (Hstatus & _).
    exists d, w'. split; [exact Hrun|].
    rewrite (Hstatus not_found eq_refl); [split; reflexivity|].
    simpl. lia.
  - destruct (fetch_failures_classified example_env
                (VStr (py "https://example.com/slow")) false 50000 start)
      as (d & w' & Hrun & Hcls).
    destruct (Hcls example_httpx (py "https://example.com/slow") (inl read_timeout) 30%N
                eq_refl eq_refl eq_refl eq_refl) as (_ & Htimeout & _).
    exists d, w'. split; [exact Hrun|].
    destruct (Htimeout read_timeout (or_introl eq_refl) eq_refl eq_refl) as [-> _].
    split; reflexivity.
  - destruct (fetch_failures_classified example_env
                (VStr (py "https://example.com/down")) false 50000 start)
      as (d & w' & Hrun & Hcls).
    destruct (Hcls example_httpx (py "https://example.com/down") (inl connect_error) 2%N
                eq_refl eq_refl eq_refl eq_refl) as (_ & _ & _ & Hother & _).
    exists d, w'. split; [exact Hrun|].
    rewrite (Hother connect_error (or_introl eq_refl)); [reflexivity|].
    right. left. reflexivity.
  - destruct (fetch_failures_classified rejecting_env
                (VStr (py "https://example.com/odd")) false 50000 start)
      as (d & w' & Hrun & Hcls).
    destruct (Hcls odd_httpx (py "https://example.com/odd") (inr odd_page) 1%N
                eq_refl eq_refl eq_refl eq_refl) as (_ & _ & _ & Hother & _).
    exists d, w'. split; [exact Hrun|].
    rewrite (Hother parser_rejected); [split; reflexivity | | left; reflexivity].
    right. exists odd_page. split; [reflexivity|].
    split; [simpl; lia | vm_compute; reflexivity].
Defined.

(** ** ddg_web_search *)

(** C6, the counterexample. With ddgs installed, a search that raises an
    ImportError is caught by the first handler: the result carries the
    fixed message about a library that is not installed, and the message
    of the exception is lost. *)
Lemma search_import_error_loses_message :
  ddgs env_with_broken_ddgs = Imported broken_ddgs
  /\ ddgs_text broken_ddgs (trace start) (py "batteries") (Z.min 5 10)
     = (inl backend_missing, 0%N)
  /\ exc_str backend_missing = py "No module named 'lxml'"
  /\ ddg_web_search env_with_broken_ddgs (py "batteries") 5 start
     = (Return (dict_of
                  [("success", VBool false);
                   ("error", VStr (py "ddgs library not installed. Please install it with: pip install ddgs"));
                   ("query", VStr (py "batteries"))]),
        {| trace := [Searched (py "batteries") 5 0]; clock := 0 |}).
Proof. repeat split; vm_compute; reflexivity. Qed.

(** C6, as amended. ddg_web_search never raises: it always returns a
    dict.  When the ddgs library cannot be imported the dict is a failure
    whose error is the fixed message that names the library and the pip
    command, and nothing was searched; when the search raises an exception
    that is not an ImportError the dict is a failure whose error is the
    message of the exception; when the search raises an ImportError the
    dict is the failure with the fixed message again. *)
Theorem ddg_web_search_never_raises
    (env : Env) (query : str) (max_results : Z) (w : World) :
  ∃ d w',
    ddg_web_search env query max_results w = (Return d, w')
    /\ (∀ name msg,
          ddgs env = NotInstalled name msg ->
          w' = w
          /\ d = dict_of [("success", VBool false);
                          ("error", VStr (py "ddgs library not installed. Please install it with: pip install ddgs"));
                          ("query", VStr query)])
    /\ (∀ client e seconds,
          ddgs env = Imported client ->
          ddgs_text client (trace w) query (Z.min max_results 10) = (inl e, seconds) ->
          (exc_isinstance e ≠ IsImportError ->
           d = dict_of [("success", VBool false);
                        ("error", VStr (exc_str e));
                        ("query", VStr query)])
          /\ (exc_isinstance e = IsImportError ->
              d = dict_of [("success", VBool false);
                           ("error", VStr ddgs_not_installed);
                           ("query", VStr query)])).
Proof.
  unfold ddg_web_search. run_py.
  destruct (ddgs env) as [client | name msg].
  - unfold call_text.
    destruct (ddgs_text client (trace w) query (Z.min max_results 10))
      as [[e | results] seconds] eqn:Htext.
    + destruct (exc_isinstance e) eqn:Hcls;
        (eexists _, _; split; [reflexivity|]; split; [discriminate|];
         intros client' e' seconds' [= <-] Htext';
         rewrite Htext in Htext'; injection Htext' as <- _; rewrite Hcls;
         split; [intros Hne | intros Heq];
         first [reflexivity | congruence | discriminate]).
    + eexists _, _. split; [reflexivity|]. split; [discriminate|].
      intros client' e' seconds' [= <-] Htext'.
      rewrite Htext in Htext'. discriminate.
  - eexists _, _. split; [reflexivity|]. split.
    + intros ? ? _. split; reflexivity.
    + discriminate.
Qed.

Lemma ddg_web_search_never_raises_witness :
  (∃ d,
     ddg_web_search env_without_ddgs (py "batteries") 5 start = (Return d, start)
     /\ d !! "error" = Some (VStr ddgs_not_installed))
  /\ (∃ d w',
        ddg_web_search example_env (py "anything") 5 start = (Return d, w')
        /\ d !! "error" = Some (VStr (py "202 Ratelimit"))).
Proof.
  split.
  - destruct (ddg_web_search_never_raises env_without_ddgs (py "batteries") 5 start)
      as (d & w' & Hrun & Hmissing & _).
    destruct (Hmissing _ _ eq_refl) as [-> ->].
    eexists. split; [exact Hrun | reflexivity].
  - destruct (ddg_web_search_never_raises example_env (py "anything") 5 start)
      as (d & w' & Hrun & _ & Hraised).
    destruct (Hraised example_ddgs search_error 1%N eq_refl eq_refl) as [Hgeneric _].
    exists d, w'. split; [exact Hrun|].
    rewrite Hgeneric; [reflexivity | discriminate].
Defined.

(** ** search_and_fetch *)

Lemma ddg_web_search_cases env query max_results w :
  ∃ d w' evs,
    ddg_web_search env query max_results w = (Return d, w')
    /\ trace w' = trace w ++ evs
    /\ sent_urls evs = []
    /\ ((∃ raw,
           d = dict_of [("success", VBool true);
                        ("query", VStr query);
                        ("result_count", VInt (len (format_results 0 raw)));
                        ("results", VList (format_results 0 raw))])
        \/ (∃ msg,
              d = dict_of [("success", VBool false);
                           ("error", VStr msg);
                           ("query", VStr query)])).
Proof.
  unfold ddg_web_search. run_py.
  destruct (ddgs env) as [client | name msg].
  - unfold call_text.
    destruct (ddgs_text client (trace w) query (Z.min max_results 10))
      as [[e | results] seconds].
    + destruct (exc_isinstance e);
        (eexists _, _, _; split; [reflexivity|]; split; [reflexivity|];
         split; [reflexivity|]; right; eexists; reflexivity).
    + eexists _, _, _. split; [reflexivity|]. split; [reflexivity|].
      split; [reflexivity|]. left. eexists. reflexivity.
  - exists (dict_of [("success", VBool false); ("error", VStr ddgs_not_installed);
                     ("query", VStr query)]), w, [].
    split; [reflexivity|]. split; [symmetry; apply app_nil_r|].
    split; [reflexivity|]. right. eexists. reflexivity.
Qed.

Lemma format_results_links raw :
  ∀ idx, Forall (λ r, ∃ link, link_is r (VStr link)) (format_results idx raw).
Proof.
  induction raw as [|result raw IH]; intros idx; simpl; constructor; [|apply IH].
  eexists. eexists. split; reflexivity.
Qed.

Lemma links_spec rs w :
  Forall (λ r, ∃ link, link_is r (VStr link)) rs ->
  ∃ urls, links rs w = (Return urls, w) /\ Forall2 link_is rs urls.
Proof.
  induction 1 as [|r rs (link & d & -> & Hlink) Hrs (urls & Hrun & Hall)].
  - exists []. split; [reflexivity | constructor].
  - exists (VStr link :: urls). split.
    + simpl. run_py. rewrite Hlink, Hrun. reflexivity.
    + constructor; [exists d; split; [reflexivity | exact Hlink] | exact Hall].
Qed.

Lemma fetched_entry_well_formed idx url content :
  fetch_succeeded content \/ fetch_failed content ->
  well_formed_entry idx url (fetched_entry idx url content).
Proof.
  intros Hshape.
  assert (Htitle : fetched_entry idx url content !! "title"
                   = Some (get_or content "title" (VStr (py "No title"))))
    by reflexivity.
  assert (Htext : fetched_entry idx url content !! "text_content"
                  = Some (get_or content "text_content" (VStr [])))
    by reflexivity.
  assert (Hlen : fetched_entry idx url content !! "text_length"
                 = Some (get_or content "text_length" (VInt 0)))
    by reflexivity.
  assert (Hok : fetched_entry idx url content !! "fetch_success"
                = Some (get_or content "success" (VBool false)))
    by reflexivity.
  assert (Herr : fetched_entry idx url content !! "error"
                 = Some (get content "error"))
    by reflexivity.
  split; [reflexivity|]. split; [reflexivity|].
  unfold get_or, get in *.
  destruct Hshape as [(title & text_content & Hs & Ht & Hc & Hl & He)
                     | (msg & Hs & He & Ht & Hc & Hl)];
    rewrite Hs, Ht, Hc, Hl, He in *; simpl in *.
  - exists title, text_content, true, VNone.
    repeat split; try assumption; discriminate.
  - exists (py "No title"), [], false, (VStr msg).
    repeat split; assumption.
Qed.

Lemma fetched_entry_flag idx url content :
  fetch_succeeded content \/ fetch_failed content ->
  ∃ success : bool,
    content !! "success" = Some (VBool success)
    /\ fetched_entry idx url content !! "url" = Some url
    /\ fetched_entry idx url content !! "fetch_success" = Some (VBool success).
Proof.
  intros Hshape.
  assert (Hok : fetched_entry idx url content !! "fetch_success"
                = Some (get_or content "success" (VBool false)))
    by reflexivity.
  unfold get_or in Hok.
  destruct Hshape as [(title & text_content & Hs & _) | (msg & Hs & _)];
    rewrite Hs in Hok; simpl in Hok; eexists;
    (split; [exact Hs | split; [reflexivity | exact Hok]]).
Qed.

Lemma fetch_loop_spec env max_length urls :
  ∀ idx acc w,
    ∃ entries evs w',
      fetch_loop env max_length idx urls acc w = (Return (acc ++ entries), w')
      /\ entries_for idx urls entries
      /\ trace w' = trace w ++ evs
      /\ fetched_in_turn env urls (clock w) evs (clock w')
      /\ fetched_each env max_length urls w entries w'.
Proof.
  induction urls as [|url urls IH]; intros idx acc w.
  - exists [], [], w. rewrite !app_nil_r.
    repeat split; constructor.
  - destruct (fetch_url_content_spec env url false max_length w)
      as (content & w1 & Hrun & Hshape & _ & Hworld).
    destruct (IH (idx + 1) (acc ++ [VDict (fetched_entry idx url content)]) w1)
      as (entries & evs & w2 & Hloop & Hentries & Htrace & Hturn & Heach).
    assert (Hstep : fetch_loop env max_length idx (url :: urls) acc w
                    = (Return (acc ++ VDict (fetched_entry idx url content) :: entries), w2)).
    { simpl. unfold mbind, Py_bind. rewrite Hrun, Hloop, <- app_assoc. reflexivity. }
    pose proof (fetched_entry_well_formed idx url content Hshape) as Hentry.
    destruct (fetched_entry_flag idx url content Hshape)
      as (success & Hsuccess & Hurl & Hflag).
    pose proof (each_fetch env max_length url urls w content success w1
                  (fetched_entry idx url content) entries w2
                  Hrun Hsuccess Hurl Hflag Heach) as Hall.
    destruct (requests env url) eqn:Hreq.
    + destruct Hworld as (u & seconds & -> & ->).
      exists (VDict (fetched_entry idx (VStr u) content) :: entries),
             (GetSent u (clock w) :: GetDone u (clock w + seconds)%N :: evs), w2.
      split; [exact Hstep|]. split; [constructor; assumption|].
      split; [rewrite Htrace; simpl; rewrite <- app_assoc; reflexivity|].
      split; [apply turn_request; assumption | exact Hall].
    + subst w1.
      exists (VDict (fetched_entry idx url content) :: entries), evs, w2.
      split; [exact Hstep|]. split; [constructor; assumption|].
      split; [exact Htrace|].
      split; [apply turn_no_request; assumption | exact Hall].
Qed.

Lemma entries_for_length idx urls entries :
  entries_for idx urls entries -> length entries = length urls.
Proof. induction 1; simpl; congruence. Qed.

Lemma entries_for_lookup idx urls entries :
  entries_for idx urls entries ->
  ∀ (i : nat) entry,
    entries !! i = Some entry ->
    ∃ e url,
      entry = VDict e /\ urls !! i = Some url
      /\ well_formed_entry (idx + Z.of_nat i) url e.
Proof.
  induction 1 as [|idx url urls e entries He Hrest IH]; intros i entry Hi.
  - destruct i; discriminate.
  - destruct i as [|i]; simpl in Hi.
    + injection Hi as <-. exists e, url.
      rewrite Z.add_0_r. split; [reflexivity|]. split; [reflexivity | exact He].
    + destruct (IH i entry Hi) as (e' & url' & -> & Hurl & Hwf).
      exists e', url'. split; [reflexivity|]. split; [exact Hurl|].
      replace (idx + Z.of_nat (S i)) with (idx + 1 + Z.of_nat i) by lia.
      exact Hwf.
Qed.

Lemma fetched_in_turn_sent env urls t evs t' :
  fetched_in_turn env urls t evs t' ->
  ∀ client, httpx env = Imported client -> sent_urls evs = http_urls urls.
Proof.
  induction 1 as [t | url urls t evs t' Hreq Hrest IH
                  | u urls t seconds evs t' Hreq Hrest IH];
    intros client Hclient; [reflexivity | |].
  - unfold http_urls. simpl. fold (http_urls urls).
    rewrite (IH client Hclient).
    unfold requests in Hreq. rewrite Hclient in Hreq.
    destruct url; try reflexivity. rewrite Hreq. reflexivity.
  - unfold http_urls. simpl. fold (http_urls urls).
    unfold requests in Hreq. rewrite Hclient in Hreq. rewrite Hreq.
    simpl. f_equal. apply (IH client Hclient).
Qed.

Lemma fetched_in_turn_clock env urls t evs t' :
  fetched_in_turn env urls t evs t' -> t' = (t + waited evs)%N.
Proof.
  induction 1 as [t | url urls t evs t' Hreq Hrest IH
                  | u urls t seconds evs t' Hreq Hrest IH].
  - simpl. lia.
  - exact IH.
  - simpl. rewrite IH. lia.
Qed.

Lemma search_and_fetch_after_failure
    env query max_results top_n max_length w search_results w1 :
  ddg_web_search env query max_results w = (Return search_results, w1) ->
  truthy (get search_results "success") = false ->
  search_and_fetch env query max_results top_n max_length w
  = (Return search_results, w1).
Proof.
  intros Hrun Hfail. unfold search_and_fetch, mbind, Py_bind.
  rewrite Hrun, Hfail. reflexivity.
Qed.

Lemma search_and_fetch_after_success
    env query max_results top_n max_length w search_results w1 :
  ddg_web_search env query max_results w = (Return search_results, w1) ->
  truthy (get search_results "success") = true ->
  ∃ results urls entries evs w2,
    search_results !! "results" = Some (VList results)
    /\ Forall2 link_is (slice_to results top_n) urls
    /\ search_and_fetch env query max_results top_n max_length w
       = (Return (dict_of [("success", VBool true);
                           ("query", VStr query);
                           ("search_results", VDict search_results);
                           ("fetched_content", VList entries);
                           ("total_results", VInt (len results));
                           ("fetched_count", VInt (len entries))]),
          w2)
    /\ entries_for 1 urls entries
    /\ trace w2 = trace w1 ++ evs
    /\ fetched_in_turn env urls (clock w1) evs (clock w2)
    /\ fetched_each env max_length urls w1 entries w2.
Proof.
  intros Hrun Hok.
  destruct (ddg_web_search_cases env query max_results w)
    as (d & w' & evs0 & Hrun' & _ & _ & Hshape).
  rewrite Hrun in Hrun'. injection Hrun' as <- <-.
  destruct Hshape as [(raw & Hd) | (msg & Hd)];
    [|rewrite Hd in Hok; discriminate Hok].
  set (results := format_results 0 raw) in *.
  assert (Hresults : search_results !! "results" = Some (VList results))
    by (rewrite Hd; reflexivity).
  assert (Hlinks : Forall (λ r, ∃ link, link_is r (VStr link)) (slice_to results top_n)).
  { unfold slice_to. destruct (0 <=? top_n); apply Forall_take, format_results_links. }
  destruct (links_spec _ w1 Hlinks) as (urls & Hurls & Hall).
  destruct (fetch_loop_spec env max_length urls 1 [] w1)
    as (entries & evs & w2 & Hloop & Hentries & Htrace & Hturn & Heach).
  exists results, urls, entries, evs, w2.
  split; [exact Hresults|]. split; [exact Hall|].
  split; [|split; [exact Hentries | split; [exact Htrace | split; [exact Hturn | exact Heach]]]].
  unfold search_and_fetch, mbind, Py_bind. rewrite Hrun, Hok. cbn [negb].
  unfold get_or. rewrite Hresults.
  change (as_list (default (VList []) (Some (VList results))) w1)
    with (@Return (list value) results, w1).
  cbv beta iota. rewrite Hurls, Hloop. reflexivity.
Qed.

Lemma search_result_cases env query max_results w :
  ∃ search_results w1,
    ddg_web_search env query max_results w = (Return search_results, w1)
    /\ ((truthy (get search_results "success") = false
         /\ search_results !! "fetched_content" = None)
        \/ truthy (get search_results "success") = true).
Proof.
  destruct (ddg_web_search_cases env query max_results w)
    as (d & w' & evs0 & Hrun & _ & _ & Hshape).
  exists d, w'. split; [exact Hrun|].
  destruct Hshape as [(raw & ->) | (msg & ->)]; [right | left; split]; reflexivity.
Qed.

Lemma len_slice_positive {A} (l : list A) (n : Z) :
  0 < n -> len (slice_to l n) = Z.min n (len l).
Proof. intros H. apply len_slice_to. lia. Qed.

Lemma slice_to_lookup {A} (l : list A) (n : Z) (i : nat) (x : A) :
  0 <= n -> slice_to l n !! i = Some x -> l !! i = Some x.
Proof.
  intros Hn. unfold slice_to. destruct (Z.leb_spec 0 n); [|lia].
  intros Hi. apply lookup_take_Some in Hi. apply Hi.
Qed.

(** C1. When the search succeeds with the list [results] and [top_n] is
    positive, search_and_fetch returns a report whose fetched_count is
    the smaller of [top_n] and the number of results, whose fetched_content
    has that many entries, and in which the url of the entry at each
    position is the link of the result at the same position. *)
Theorem fetched_count_and_order
    (env : Env) (query : str) (max_results top_n max_length : Z) (w : World)
    (search_results : gmap string value) (results : list value) (w1 : World) :
  0 < top_n ->
  ddg_web_search env query max_results w = (Return search_results, w1) ->
  search_results !! "success" = Some (VBool true) ->
  search_results !! "results" = Some (VList results) ->
  ∃ report fetched_content w2,
    search_and_fetch env query max_results top_n max_length w = (Return report, w2)
    /\ report !! "fetched_count" = Some (VInt (Z.min top_n (len results)))
    /\ report !! "fetched_content" = Some (VList fetched_content)
    /\ len fetched_content = Z.min top_n (len results)
    /\ ∀ (i : nat) entry,
         fetched_content !! i = Some entry ->
         ∃ e r link,
           entry = VDict e /\ results !! i = Some (VDict r)
           /\ r !! "link" = Some link /\ e !! "url" = Some link.
Proof.
  intros Hpos Hrun Hsuccess Hresults.
  assert (Hok : truthy (get search_results "success") = true)
    by (unfold get; rewrite Hsuccess; reflexivity).
  destruct (search_and_fetch_after_success env query max_results top_n max_length
              w search_results w1 Hrun Hok)
    as (results' & urls & entries & evs & w2 & Hresults' & Hlinks & Hsaf
        & Hentries & _ & _).
  rewrite Hresults in Hresults'. injection Hresults' as <-.
  assert (Hlen : len entries = Z.min top_n (len results)).
  { rewrite <- (len_slice_positive results top_n Hpos). unfold len. f_equal.
    rewrite (entries_for_length _ _ _ Hentries).
    symmetry. eapply Forall2_length, Hlinks. }
  eexists _, entries, w2. split; [exact Hsaf|].
  split; [rewrite <- Hlen; reflexivity|]. split; [reflexivity|].
  split; [exact Hlen|].
  intros i entry Hi.
  destruct (entries_for_lookup _ _ _ Hentries i entry Hi)
    as (e & url & -> & Hurl & _ & Heurl & _).
  destruct (Forall2_lookup_r _ _ _ _ _ Hlinks Hurl) as (r & Hr & d & -> & Hlink).
  exists e, d, url. split; [reflexivity|].
  split; [apply (slice_to_lookup results top_n); [lia | exact Hr]|].
  split; assumption.
Qed.

Lemma fetched_count_and_order_witness :
  0 < 2
  /\ ∃ report fetched_content w2,
       search_and_fetch example_env (py "batteries") 5 2 50000 start = (Return report, w2)
       /\ report !! "fetched_count" = Some (VInt 2)
       /\ report !! "fetched_content" = Some (VList fetched_content)
       /\ len fetched_content = 2.
Proof.
  split; [lia|].
  destruct (fetched_count_and_order example_env (py "batteries") 5 2 50000 start
              _ _ _ ltac:(lia) eq_refl eq_refl eq_refl)
    as (report & fetched_content & w2 & Hrun & Hcount & Hcontent & Hlen & _).
  exists report, fetched_content, w2.
  split; [exact Hrun|]. split; [exact Hcount|]. split; [exact Hcontent | exact Hlen].
Defined.

Lemma sent_urls_app evs1 evs2 :
  sent_urls (evs1 ++ evs2) = sent_urls evs1 ++ sent_urls evs2.
Proof. apply flat_map_app. Qed.

Lemma entries_for_urls idx urls entries :
  entries_for idx urls entries ->
  Forall2 (λ url entry,
             ∃ e success,
               entry = VDict e /\ e !! "url" = Some url
               /\ e !! "fetch_success" = Some (VBool success))
          urls entries.
Proof.
  induction 1 as [|idx url urls e entries He Hrest IH]; constructor; [|exact IH].
  destruct He as (_ & Hurl & _ & _ & success & _ & _ & _ & _ & Hok & _).
  exists e, success. repeat split; assumption.
Qed.

(** C7. A search that fails is the result of search_and_fetch as it is,
    and the world is left as the search left it: nothing was fetched.
    A search that succeeds gives a report whose success is true whatever
    the fetches did.  Every selected link is fetched, in the world the
    fetch before it left and whatever that fetch returned, and has its
    entry in fetched_content; the fetch_success of the entry is the
    success of the fetch of that link, so a fetch that failed marks its
    own entry with false and no other.  When httpx can be imported,
    [client.get] was called for every selected link that has one of the
    two schemes. *)
Theorem search_failure_fatal_fetch_failure_partial
    (env : Env) (query : str) (max_results top_n max_length : Z) (w : World)
    (search_results : gmap string value) (w1 : World) :
  ddg_web_search env query max_results w = (Return search_results, w1) ->
  (truthy (get search_results "success") = false ->
   search_and_fetch env query max_results top_n max_length w = (Return search_results, w1)
   /\ sent_urls (trace w1) = sent_urls (trace w))
  /\ (truthy (get search_results "success") = true ->
      ∃ report results urls fetched_content w2,
        search_and_fetch env query max_results top_n max_length w = (Return report, w2)
        /\ report !! "success" = Some (VBool true)
        /\ search_results !! "results" = Some (VList results)
        /\ Forall2 link_is (slice_to results top_n) urls
        /\ report !! "fetched_content" = Some (VList fetched_content)
        /\ fetched_each env max_length urls w1 fetched_content w2
        /\ Forall2 (λ url entry,
                      ∃ e success,
                        entry = VDict e /\ e !! "url" = Some url
                        /\ e !! "fetch_success" = Some (VBool success))
                   urls fetched_content
        /\ (∀ client, httpx env = Imported client ->
              sent_urls (trace w2) = sent_urls (trace w1) ++ http_urls urls)).
Proof.
  intros Hrun. split.
  - intros Hfail. split; [apply search_and_fetch_after_failure; assumption|].
    destruct (ddg_web_search_cases env query max_results w)
      as (d & w' & evs0 & Hrun' & Htrace & Hnone & _).
    rewrite Hrun in Hrun'. injection Hrun' as _ <-.
    rewrite Htrace, sent_urls_app, Hnone. apply app_nil_r.
  - intros Hok.
    destruct (search_and_fetch_after_success env query max_results top_n max_length
                w search_results w1 Hrun Hok)
      as (results & urls & entries & evs & w2 & Hresults & Hlinks & Hsaf
          & Hentries & Htrace & Hturn & Heach).
    eexists _, results, urls, entries, w2. split; [exact Hsaf|].
    split; [reflexivity|]. split; [exact Hresults|]. split; [exact Hlinks|].
    split; [reflexivity|]. split; [exact Heach|].
    split; [eapply entries_for_urls, Hentries|].
    intros client Hclient.
    rewrite Htrace, sent_urls_app. f_equal.
    eapply fetched_in_turn_sent; eassumption.
Qed.

Lemma search_failure_fatal_fetch_failure_partial_witness :
  (∃ search_results w1,
     truthy (get search_results "success") = false
     /\ search_and_fetch example_env (py "anything") 5 3 50000 start
        = (Return search_results, w1)
     /\ sent_urls (trace w1) = [])
  /\ (∃ report w2,
        search_and_fetch mixed_env (py "batteries") 5 3 50000 start = (Return report, w2)
        /\ report !! "success" = Some (VBool true)
        /\ fetch_flags report = [VBool false; VBool true; VBool true]
        /\ sent_urls (trace w2)
           = [py "https://example.com/missing"; py "https://example.com/slow";
              py "https://example.com/down"]).
Proof.
  split.
  - destruct (search_failure_fatal_fetch_failure_partial
                example_env (py "anything") 5 3 50000 start _ _ eq_refl)
      as [Hfatal _].
    destruct (Hfatal eq_refl) as [Hrun Hsent].
    eexists _, _. split; [|split; [exact Hrun | exact Hsent]]. reflexivity.
  - destruct (search_failure_fatal_fetch_failure_partial
                mixed_env (py "batteries") 5 3 50000 start _ _ eq_refl)
      as [_ Hpartial].
    destruct (Hpartial eq_refl)
      as (report & results & urls & fetched_content & w2 & Hrun & Hsuccess & _).
    exists report, w2. split; [exact Hrun|]. split; [exact Hsuccess|].
    split.
    + change (fetch_flags report)
        with ((λ p : outcome (gmap string value) * World,
                 match fst p with
                 | Return r => fetch_flags r
                 | Raise _ => []
                 end) (Return report, w2)).
      rewrite <- Hrun. vm_compute. reflexivity.
    + apply (f_equal snd) in Hrun. cbn [snd] in Hrun. rewrite <- Hrun.
      vm_compute. reflexivity.
Defined.

(** C9, the counterexample. Three selected links whose requests all time
    out after thirty seconds: each request is sent when the answer to the
    one before it has come, and the three fetches take ninety seconds. *)
Lemma three_timeouts_take_ninety_seconds :
  ∃ report w2,
    search_and_fetch slow_env (py "batteries") 5 3 50000 start = (Return report, w2)
    /\ trace w2
       = [Searched (py "batteries") 5 0;
          GetSent (py "https://example.com/missing") 1;
          GetDone (py "https://example.com/missing") 31;
          GetSent (py "https://example.com/slow") 31;
          GetDone (py "https://example.com/slow") 61;
          GetSent (py "https://example.com/down") 61;
          GetDone (py "https://example.com/down") 91]
    /\ waited (trace w2) = 90%N.
Proof.
  eexists _, _. split; [reflexivity|]. split; vm_compute; reflexivity.
Qed.

(** C9, as amended. search_and_fetch fetches the selected links one
    after the other, in the order of the selection: the request for a link
    is sent when the fetch of the link before it is over, so the time the
    fetches take is the sum of the times of the requests; fetched_content
    has the entries in the order of the selection. *)
Theorem fetches_run_in_turn
    (env : Env) (query : str) (max_results top_n max_length : Z) (w : World)
    (search_results : gmap string value) (w1 : World) :
  ddg_web_search env query max_results w = (Return search_results, w1) ->
  truthy (get search_results "success") = true ->
  ∃ report results urls fetched_content evs w2,
    search_and_fetch env query max_results top_n max_length w = (Return report, w2)
    /\ search_results !! "results" = Some (VList results)
    /\ Forall2 link_is (slice_to results top_n) urls
    /\ trace w2 = trace w1 ++ evs
    /\ fetched_in_turn env urls (clock w1) evs (clock w2)
    /\ clock w2 = (clock w1 + waited evs)%N
    /\ report !! "fetched_content" = Some (VList fetched_content)
    /\ Forall2 (λ url entry, ∃ e, entry = VDict e /\ e !! "url" = Some url)
               urls fetched_content.
Proof.
  intros Hrun Hok.
  destruct (search_and_fetch_after_success env query max_results top_n max_length
              w search_results w1 Hrun Hok)
    as (results & urls & entries & evs & w2 & Hresults & Hlinks & Hsaf
        & Hentries & Htrace & Hturn & _).
  eexists _, results, urls, entries, evs, w2. split; [exact Hsaf|].
  split; [exact Hresults|]. split; [exact Hlinks|]. split; [exact Htrace|].
  split; [exact Hturn|]. split; [eapply fetched_in_turn_clock, Hturn|].
  split; [reflexivity|].
  eapply Forall2_impl; [eapply entries_for_urls, Hentries|].
  intros url entry (e & success & -> & Hurl & _). exists e. split; [reflexivity | exact Hurl].
Qed.

Lemma fetches_run_in_turn_witness :
  ∃ report evs w2,
    search_and_fetch slow_env (py "batteries") 5 2 50000 start = (Return report, w2)
    /\ trace w2 = [Searched (py "batteries") 5 0] ++ evs
    /\ clock w2 = (1 + waited evs)%N.
Proof.
  destruct (fetches_run_in_turn slow_env (py "batteries") 5 2 50000 start _ _
              eq_refl eq_refl)
    as (report & results & urls & fetched_content & evs & w2 & Hrun & _ & _
        & Htrace & _ & Hclock & _).
  exists report, evs, w2. split; [exact Hrun|]. split; [exact Htrace | exact Hclock].
Defined.

(** C10. Every entry of the fetched_content that search_and_fetch returns
    has the keys index, url, title, text_content, text_length,
    fetch_success and error; its index is its position counted from one;
    its text_length is the length of its text_content; and when its fetch
    failed its title is "No title", its text_content is empty and its
    text_length is 0. *)
Theorem fetched_entries_complete
    (env : Env) (query : str) (max_results top_n max_length : Z) (w : World)
    (report : gmap string value) (w' : World)
    (fetched_content : list value) (i : nat) (entry : value) :
  search_and_fetch env query max_results top_n max_length w = (Return report, w') ->
  report !! "fetched_content" = Some (VList fetched_content) ->
  fetched_content !! i = Some entry ->
  ∃ e url title text_content success error,
    entry = VDict e
    /\ e !! "index" = Some (VInt (Z.of_nat i + 1))
    /\ e !! "url" = Some url
    /\ e !! "title" = Some (VStr title)
    /\ e !! "text_content" = Some (VStr text_content)
    /\ e !! "text_length" = Some (VInt (len text_content))
    /\ e !! "fetch_success" = Some (VBool success)
    /\ e !! "error" = Some error
    /\ (success = false ->
        title = py "No title" /\ text_content = []
        /\ e !! "text_length" = Some (VInt 0)).
Proof.
  intros Hsaf Hcontent Hentry.
  destruct (search_result_cases env query max_results w)
    as (search_results & w1 & Hrun & [[Hfail Hnone] | Hok]).
  - rewrite (search_and_fetch_after_failure _ _ _ top_n max_length _ _ _ Hrun Hfail)
      in Hsaf.
    injection Hsaf as <- _. rewrite Hnone in Hcontent. discriminate Hcontent.
  - destruct (search_and_fetch_after_success env query max_results top_n max_length
                w search_results w1 Hrun Hok)
      as (results & urls & entries & evs & w2 & _ & _ & Hsaf' & Hentries & _).
    rewrite Hsaf' in Hsaf. injection Hsaf as <- _.
    change (Some (VList entries) = Some (VList fetched_content)) in Hcontent.
    injection Hcontent as <-.
    destruct (entries_for_lookup _ _ _ Hentries i entry Hentry)
      as (e & url & -> & _ & Hindex & Hurl & title & text_content & success & error
          & Htitle & Htext & Hlen & Hsuccess & Herror & Hdefaults).
    exists e, url, title, text_content, success, error.
    split; [reflexivity|]. split; [rewrite Hindex; do 2 f_equal; lia|].
    repeat (split; [assumption|]).
    intros Hfailed. destruct (Hdefaults Hfailed) as [-> ->].
    repeat split. exact Hlen.
Qed.

Lemma fetched_entries_complete_witness :
  ∃ report w' fetched_content e,
    search_and_fetch example_env (py "batteries") 5 2 50000 start = (Return report, w')
    /\ report !! "fetched_content" = Some (VList fetched_content)
    /\ fetched_content !! 1%nat = Some (VDict e)
    /\ e !! "index" = Some (VInt 2)
    /\ ∃ text_content,
         e !! "text_content" = Some (VStr text_content)
         /\ e !! "text_length" = Some (VInt (len text_content)).
Proof.
  destruct (fetched_entries_complete example_env (py "batteries") 5 2 50000 start
              _ _ _ 1 _ eq_refl eq_refl eq_refl)
    as (e & url & title & text_content & success & error & He & Hindex & _ & _
        & Htext & Hlen & _).
  eexists _, _, _, e. split; [reflexivity|]. split; [reflexivity|].
  split; [rewrite <- He; reflexivity|]. split; [exact Hindex|].
  exists text_content. split; [exact Htext | exact Hlen].
Defined.

(** * Further properties *)

(** ** Stripping and splitting *)

Lemma lstrip_split s :
  ∃ a, s = a ++ lstrip s /\ Forall (λ c, isspace c = true) a.
Proof.
  induction s as [|c s (a & Hs & Ha)]; [exists []; split; [reflexivity | constructor]|].
  simpl. destruct (isspace c) eqn:Hc.
  - exists (c :: a). split; [simpl; congruence | constructor; assumption].
  - exists []. split; [reflexivity | constructor].
Qed.

Lemma strip_split s :
  ∃ a b, s = a ++ strip s ++ b.
Proof.
  destruct (lstrip_split s) as (a & Hs & _).
  destruct (lstrip_split (rev (lstrip s))) as (b & Hr & _).
  exists a, (rev b). unfold strip, rstrip.
  rewrite <- rev_app_distr, <- Hr, rev_involutive. exact Hs.
Qed.

Lemma lstrip_head s c : head (lstrip s) = Some c -> isspace c = false.
Proof.
  induction s as [|c' s IH]; simpl; [discriminate|].
  destruct (isspace c') eqn:Hc'; [exact IH|].
  simpl. intros [= <-]. exact Hc'.
Qed.

Lemma lstrip_fixed s :
  (∀ c, head s = Some c -> isspace c = false) -> lstrip s = s.
Proof.
  destruct s as [|c s]; [reflexivity|]. intros H. simpl.
  rewrite (H c eq_refl). reflexivity.
Qed.

Lemma lstrip_lstrip s : lstrip (lstrip s) = lstrip s.
Proof. apply lstrip_fixed, lstrip_head. Qed.

(** A text is stripped when neither end is whitespace. *)
Lemma strip_fixed s :
  lstrip s = s -> lstrip (rev s) = rev s -> strip s = s.
Proof.
  intros Hl Hr. unfold strip, rstrip. rewrite Hl, Hr. apply rev_involutive.
Qed.

Lemma head_app_nonempty {A} (s t : list A) : s ≠ [] -> head (s ++ t) = head s.
Proof. destruct s; [congruence | reflexivity]. Qed.

Lemma strip_ends s :
  lstrip (strip s) = strip s /\ lstrip (rev (strip s)) = rev (strip s).
Proof.
  unfold strip, rstrip. rewrite rev_involutive, lstrip_lstrip. split; [|reflexivity].
  apply lstrip_fixed. intros c Hc.
  destruct (lstrip_split (rev (lstrip s))) as (b & Hr & _).
  apply (f_equal (@rev N)) in Hr. rewrite rev_involutive, rev_app_distr in Hr.
  destruct (rev (lstrip (rev (lstrip s)))) as [|c' t] eqn:Ht; [discriminate|].
  simpl in Hc. injection Hc as ->.
  apply (lstrip_head s). rewrite Hr. reflexivity.
Qed.

Lemma strip_strip s : strip (strip s) = strip s.
Proof. destruct (strip_ends s). apply strip_fixed; assumption. Qed.

(** *** Double spaces *)

Lemma double_space_cons c s :
  double_space (c :: s) = false ->
  double_space s = false.
Proof.
  simpl. destruct s as [|c' s']; [reflexivity|].
  intros H. apply orb_false_iff in H. apply H.
Qed.

Lemma double_space_suffix a s :
  double_space (a ++ s) = false -> double_space s = false.
Proof.
  induction a as [|c a IH]; [auto|]. intros H. apply IH.
  exact (double_space_cons _ _ H).
Qed.

Lemma double_space_prefix s b :
  double_space (s ++ b) = false -> double_space s = false.
Proof.
  induction s as [|c s IH]; [reflexivity|]. intros H.
  pose proof (IH (double_space_cons _ _ H)) as Hs.
  destruct s as [|c' s']; [reflexivity|].
  simpl in H. apply orb_false_iff in H as [Hcc _].
  change (((c =? SPACE)%N && (c' =? SPACE)%N) || double_space (c' :: s') = false).
  rewrite Hcc, Hs. reflexivity.
Qed.

Lemma double_space_strip s : double_space s = false -> double_space (strip s) = false.
Proof.
  intros H. destruct (strip_split s) as (a & b & Hs). rewrite Hs in H.
  eapply double_space_prefix, double_space_suffix, H.
Qed.

(** Two texts without a double space, with something that is no space
    between them. *)
Lemma double_space_sep p c s :
  c ≠ SPACE ->
  double_space p = false -> double_space s = false ->
  double_space (p ++ c :: s) = false.
Proof.
  intros Hc Hp Hs. induction p as [|d p IH].
  - simpl. destruct s as [|c' s']; [reflexivity|].
    destruct (N.eqb_spec c SPACE); [contradiction|]. exact Hs.
  - specialize (IH (double_space_cons _ _ Hp)).
    destruct p as [|d' p'].
    + simpl. simpl in IH. rewrite IH.
      destruct (N.eqb_spec c SPACE); [contradiction|].
      rewrite andb_false_r. reflexivity.
    + simpl in Hp. apply orb_false_iff in Hp as [Hdd _].
      change (((d =? SPACE)%N && (d' =? SPACE)%N)
              || double_space ((d' :: p') ++ c :: s) = false).
      rewrite Hdd, IH. reflexivity.
Qed.

Lemma split_2sp_first s :
  ∃ p ps, split_2sp s = p :: ps /\ (p = [] \/ head p = head s).
Proof.
  destruct s as [|c s]; [exists [], []; split; [reflexivity | left; reflexivity]|].
  simpl. destruct s as [|c' s'].
  - exists [c], []. split; [reflexivity | right; reflexivity].
  - destruct ((c =? SPACE)%N && (c' =? SPACE)%N).
    + eexists [], _. split; [reflexivity | left; reflexivity].
    + destruct (split_2sp (c' :: s')) as [|p ps]; simpl;
        eexists _, _; (split; [reflexivity | right; reflexivity]).
Qed.

Lemma split_2sp_no_double_space s :
  Forall (λ p, double_space p = false) (split_2sp s).
Proof.
  remember (length s) as n eqn:En. revert s En.
  induction n as [n IH] using lt_wf_ind. intros s ->.
  destruct s as [|c s]; [repeat constructor|].
  assert (Hrest : Forall (λ p, double_space p = false) (split_2sp s))
    by (apply (IH (length s)); simpl; [lia | reflexivity]).
  simpl. destruct s as [|c' s']; [repeat constructor|].
  destruct ((c =? SPACE)%N && (c' =? SPACE)%N) eqn:Hcc.
  - constructor; [reflexivity|].
    apply (IH (length s')); simpl; [lia | reflexivity].
  - destruct (split_2sp_first (c' :: s')) as (p & ps & Hsplit & Hp).
    rewrite Hsplit in *. inversion Hrest as [|? ? Hp0 Hps]; subst.
    simpl. constructor; [|exact Hps].
    destruct p as [|d p']; [reflexivity|].
    destruct Hp as [? | Hd]; [discriminate|]. simpl in Hd. injection Hd as ->.
    change (((c =? SPACE)%N && (c' =? SPACE)%N) || double_space (c' :: p') = false).
    rewrite Hcc, Hp0. reflexivity.
Qed.

Lemma split_2sp_single s : double_space s = false -> split_2sp s = [s].
Proof.
  induction s as [|c s IH]; [reflexivity|]. intros H.
  specialize (IH (double_space_cons _ _ H)).
  simpl. destruct s as [|c' s']; [reflexivity|].
  simpl in H. apply orb_false_iff in H as [-> _].
  rewrite IH. reflexivity.
Qed.

(** *** Lines *)

Lemma splitlines_single p :
  p ≠ [] -> Forall (λ c, is_linebreak c = false) p -> splitlines p = [p].
Proof.
  intros Hne Hp. induction Hp as [|c p Hc Hp IH]; [congruence|].
  simpl. rewrite Hc. destruct p as [|c' p']; [reflexivity|].
  rewrite IH by discriminate. reflexivity.
Qed.

Lemma splitlines_line p rest :
  Forall (λ c, is_linebreak c = false) p ->
  splitlines (p ++ LF :: rest) = p :: splitlines rest.
Proof.
  induction 1 as [|c p Hc Hp IH].
  - simpl. destruct rest; reflexivity.
  - change ((c :: p) ++ LF :: rest) with (c :: (p ++ LF :: rest)).
    simpl. rewrite Hc, IH. reflexivity.
Qed.

Lemma splitlines_join chunks :
  Forall (λ p, p ≠ [] /\ Forall (λ c, is_linebreak c = false) p) chunks ->
  splitlines (join [LF] chunks) = chunks.
Proof.
  induction 1 as [|p ps [Hne Hp] Hps IH]; [reflexivity|].
  destruct ps as [|q ps]; [apply splitlines_single; assumption|].
  change (join [LF] (p :: q :: ps)) with (p ++ LF :: join [LF] (q :: ps)).
  rewrite splitlines_line by assumption. rewrite IH. reflexivity.
Qed.

(** *** The chunks of clean_whitespace *)

Lemma chunks_clean text :
  Forall clean_chunk
    (List.filter nonempty
       (flat_map (λ line, map strip (split_2sp line)) (map strip (splitlines text)))).
Proof.
  apply List.Forall_forall. intros chunk Hin.
  apply filter_In in Hin as [Hin Hne].
  apply in_flat_map in Hin as (line & Hline & Hchunk).
  apply in_map_iff in Hchunk as (piece & <- & Hpiece).
  apply in_map_iff in Hline as (raw & <- & Hraw).
  split; [destruct (strip piece); [discriminate | congruence]|].
  split; [apply strip_strip|].
  split.
  - pose proof (splitlines_no_linebreak text) as Hall.
    rewrite List.Forall_forall in Hall. specialize (Hall raw Hraw).
    apply Forall_strip.
    pose proof (Forall_split_2sp _ _ (Forall_strip _ _ Hall)) as Hpieces.
    rewrite List.Forall_forall in Hpieces. exact (Hpieces piece Hpiece).
  - apply double_space_strip.
    pose proof (split_2sp_no_double_space (strip raw)) as Hpieces.
    rewrite List.Forall_forall in Hpieces. exact (Hpieces piece Hpiece).
Qed.

Lemma clean_chunk_ends chunk :
  clean_chunk chunk ->
  lstrip chunk = chunk /\ lstrip (rev chunk) = rev chunk.
Proof.
  intros (_ & Hstrip & _). destruct (strip_ends chunk) as [Hl Hr].
  rewrite Hstrip in Hl, Hr. split; assumption.
Qed.

Lemma lstrip_fixed_head s c : lstrip s = s -> head s = Some c -> isspace c = false.
Proof. intros Hs Hc. apply (lstrip_head s). rewrite Hs. exact Hc. Qed.

Lemma join_double_space chunks :
  Forall clean_chunk chunks -> double_space (join [LF] chunks) = false.
Proof.
  induction 1 as [|p ps Hp Hps IH]; [reflexivity|].
  destruct ps as [|q ps]; [apply Hp|].
  change (join [LF] (p :: q :: ps)) with (p ++ LF :: join [LF] (q :: ps)).
  apply double_space_sep; [discriminate | apply Hp | exact IH].
Qed.

Lemma join_ends chunks :
  Forall clean_chunk chunks ->
  lstrip (join [LF] chunks) = join [LF] chunks
  /\ lstrip (rev (join [LF] chunks)) = rev (join [LF] chunks)
  /\ (chunks ≠ [] -> join [LF] chunks ≠ []).
Proof.
  induction 1 as [|p ps Hp Hps (IHl & IHr & IHne)]; [repeat split; congruence|].
  destruct (clean_chunk_ends p Hp) as [Hpl Hpr].
  assert (Hpne : p ≠ []) by apply Hp.
  destruct ps as [|q ps]; [simpl; repeat split; auto|].
  change (join [LF] (p :: q :: ps)) with (p ++ LF :: join [LF] (q :: ps)).
  split; [|split].
  - apply lstrip_fixed. intros c Hc. rewrite head_app_nonempty in Hc by assumption.
    exact (lstrip_fixed_head p c Hpl Hc).
  - apply lstrip_fixed. intros c Hc.
    rewrite rev_app_distr in Hc. simpl in Hc. rewrite <- app_assoc in Hc.
    rewrite head_app_nonempty in Hc.
    + exact (lstrip_fixed_head _ c IHr Hc).
    + intros Hnil. apply (f_equal (@rev N)) in Hnil. rewrite rev_involutive in Hnil.
      apply IHne in Hnil; [exact Hnil | discriminate].
  - intros _ Hnil. destruct p; [congruence | discriminate].
Qed.

Lemma clean_whitespace_join chunks :
  Forall clean_chunk chunks ->
  clean_whitespace (join [LF] chunks) = join [LF] chunks.
Proof.
  intros Hchunks. unfold clean_whitespace. f_equal.
  rewrite splitlines_join
    by (eapply Forall_impl; [exact Hchunks|]; intros p (Hne & _ & Hp & _); auto).
  induction Hchunks as [|p ps Hp Hps IH]; [reflexivity|].
  destruct Hp as (Hne & Hstrip & _ & Hdouble).
  simpl. rewrite Hstrip, (split_2sp_single p Hdouble). simpl.
  rewrite Hstrip. destruct p as [|c p']; [congruence|].
  simpl. f_equal. exact IH.
Qed.

(** *** The fallback *)

Lemma double_space_cons_ok c t :
  double_space t = false ->
  c ≠ SPACE \/ head t ≠ Some SPACE ->
  double_space (c :: t) = false.
Proof.
  intros Ht Hc. simpl. destruct t as [|c' t']; [reflexivity|].
  rewrite Ht, orb_false_r.
  destruct (N.eqb_spec c SPACE) as [->|]; [|reflexivity].
  destruct (N.eqb_spec c' SPACE) as [->|]; [|reflexivity].
  destruct Hc as [Hc | Hc]; exfalso; apply Hc; reflexivity.
Qed.

Lemma sub_spaces_double_space in_run s :
  double_space (sub_spaces in_run s) = false
  /\ (in_run = true -> head (sub_spaces in_run s) ≠ Some SPACE).
Proof.
  revert in_run. induction s as [|c s IH]; intros in_run; [split; [reflexivity | discriminate]|].
  simpl. destruct (isspace c) eqn:Hc.
  - destruct in_run; [apply IH|].
    destruct (IH true) as [Hd Hh].
    split; [|discriminate]. apply double_space_cons_ok; auto.
  - assert (Hne : c ≠ SPACE) by (intros ->; discriminate Hc).
    split; [|simpl; congruence].
    apply double_space_cons_ok; [apply IH | left; exact Hne].
Qed.

Lemma has_gt_app s t : has_gt (s ++ t) = has_gt s || has_gt t.
Proof.
  induction s as [|c s IH]; [reflexivity|].
  simpl. rewrite IH. apply orb_assoc.
Qed.

Lemma closes_app s t : closes s = true -> closes (s ++ t) = true.
Proof.
  destruct s as [|c s]; [discriminate|].
  unfold closes. change ((c :: s) ++ t) with (c :: (s ++ t)).
  intros H. apply andb_true_iff in H as [-> H].
  change (c :: s ++ t) with ((c :: s) ++ t). rewrite has_gt_app, H. reflexivity.
Qed.

Lemma tag_starts_suffix a s : tag_starts (a ++ s) = false -> tag_starts s = false.
Proof.
  induction a as [|c a IH]; [auto|]. simpl. intros H.
  apply orb_false_iff in H. apply IH, H.
Qed.

Lemma tag_starts_prefix s b : tag_starts (s ++ b) = false -> tag_starts s = false.
Proof.
  induction s as [|c s IH]; [reflexivity|]. simpl. intros H.
  apply orb_false_iff in H as [Hc Hs]. rewrite (IH Hs), orb_false_r.
  destruct (c =? LT)%N; [|reflexivity]. simpl in *.
  destruct (closes s) eqn:Hcl; [|reflexivity].
  rewrite (closes_app _ b Hcl) in Hc. discriminate.
Qed.

Lemma tag_starts_strip s : tag_starts s = false -> tag_starts (strip s) = false.
Proof.
  intros H. destruct (strip_split s) as (a & b & Hs). rewrite Hs in H.
  eapply tag_starts_prefix, tag_starts_suffix, H.
Qed.

(** Something without a [>] after a text opens no tag in it. *)
Lemma tag_starts_app_no_gt s m :
  has_gt m = false -> tag_starts m = false ->
  tag_starts s = false -> tag_starts (s ++ m) = false.
Proof.
  intros Hgt Hm. induction s as [|c s IH]; [auto|]. simpl. intros H.
  apply orb_false_iff in H as [Hc Hs]. rewrite (IH Hs), orb_false_r.
  destruct (c =? LT)%N; [|reflexivity]. simpl in *.
  destruct s as [|d s]; simpl.
  - unfold closes. destruct m; [reflexivity|]. rewrite Hgt. apply andb_false_r.
  - unfold closes in *. change (has_gt (d :: s ++ m)) with (has_gt ((d :: s) ++ m)).
    rewrite has_gt_app, Hgt, orb_false_r. exact Hc.
Qed.

Lemma has_gt_sub_tags in_tag s :
  has_gt s = false -> has_gt (sub_tags in_tag s) = false.
Proof.
  revert in_tag. induction s as [|c s IH]; intros in_tag; [reflexivity|].
  simpl. intros H. apply orb_false_iff in H as [Hc Hs].
  destruct in_tag.
  - rewrite Hc. apply IH, Hs.
  - destruct ((c =? LT)%N && closes s); [apply IH, Hs|].
    simpl. rewrite Hc. apply IH, Hs.
Qed.

Lemma closes_sub_tags s : closes s = false -> closes (sub_tags false s) = false.
Proof.
  destruct s as [|c s]; [reflexivity|].
  unfold closes. intros H. apply andb_false_iff in H as [Hc | Hgt].
  - apply negb_false_iff in Hc. simpl.
    apply N.eqb_eq in Hc. subst c. reflexivity.
  - pose proof (has_gt_sub_tags false _ Hgt) as Hout.
    destruct (sub_tags false (c :: s)); [reflexivity|]. rewrite Hout. apply andb_false_r.
Qed.

Lemma sub_tags_no_tag in_tag s : tag_starts (sub_tags in_tag s) = false.
Proof.
  revert in_tag. induction s as [|c s IH]; intros in_tag; [reflexivity|].
  simpl. destruct in_tag.
  - destruct (c =? GT)%N; apply IH.
  - destruct ((c =? LT)%N && closes s) eqn:Hmatch; [apply IH|].
    simpl. rewrite IH, orb_false_r.
    destruct (c =? LT)%N; [|reflexivity]. simpl in *.
    apply closes_sub_tags, Hmatch.
Qed.

Lemma has_gt_sub_spaces in_run s : has_gt (sub_spaces in_run s) = has_gt s.
Proof.
  revert in_run. induction s as [|c s IH]; intros in_run; [reflexivity|].
  simpl. destruct (isspace c) eqn:Hc.
  - assert (Hgt : (c =? GT)%N = false)
      by (destruct (N.eqb_spec c GT) as [->|]; [discriminate Hc | reflexivity]).
    rewrite Hgt. destruct in_run; simpl; apply IH.
  - simpl. rewrite IH. reflexivity.
Qed.

Lemma closes_sub_spaces s : closes s = false -> closes (sub_spaces false s) = false.
Proof.
  destruct s as [|c s]; [reflexivity|].
  unfold closes. intros H.
  pose proof (has_gt_sub_spaces false (c :: s)) as Hgt.
  apply andb_false_iff in H as [Hc | Hno].
  - apply negb_false_iff, N.eqb_eq in Hc. subst c. reflexivity.
  - destruct (sub_spaces false (c :: s)); [reflexivity|].
    rewrite Hgt, Hno. apply andb_false_r.
Qed.

Lemma sub_spaces_no_tag in_run s :
  tag_starts s = false -> tag_starts (sub_spaces in_run s) = false.
Proof.
  revert in_run. induction s as [|c s IH]; intros in_run; [reflexivity|].
  simpl. intros H. apply orb_false_iff in H as [Hc Hs].
  destruct (isspace c) eqn:Hsp.
  - destruct in_run; [apply IH, Hs|]. simpl. apply IH, Hs.
  - simpl. rewrite (IH false Hs), orb_false_r.
    destruct (c =? LT)%N; [|reflexivity]. simpl in *.
    apply closes_sub_spaces, Hc.
Qed.

(** ** extract_text_from_html, further *)

Lemma double_space_slice_to (text : str) (n : Z) :
  double_space text = false -> double_space (slice_to text n) = false.
Proof.
  intros H. unfold slice_to.
  destruct (0 <=? n);
    (eapply double_space_prefix; erewrite take_drop; exact H).
Qed.

Lemma tag_starts_slice_to (text : str) (n : Z) :
  tag_starts text = false -> tag_starts (slice_to text n) = false.
Proof.
  intros H. unfold slice_to.
  destruct (0 <=? n);
    (eapply tag_starts_prefix; erewrite take_drop; exact H).
Qed.

Lemma collapsed_text_double_space bs4 html text :
  collapsed_text bs4 html = Return text -> double_space text = false.
Proof.
  intros H. destruct (collapsed_text_cases _ _ _ H) as [[soup ->] | ->].
  - apply join_double_space, chunks_clean.
  - apply double_space_strip, sub_spaces_double_space.
Qed.

(** X1. An output of extract_text_from_html never has two spaces in a
    row, with or without bs4 and whether or not it was truncated. *)
Theorem extract_no_double_space
    (bs4 : imported Bs4.BeautifulSoup) (html : str) (max_length : Z) (out : str) :
  extract_text_from_html bs4 html max_length = Return out ->
  double_space out = false.
Proof.
  intros Hout. apply extract_returns in Hout as (text & Htext & ->).
  pose proof (collapsed_text_double_space _ _ _ Htext) as Hclean.
  destruct (limit_length_cases text max_length) as [[_ ->] | [_ ->]]; [|exact Hclean].
  apply double_space_sep;
    [discriminate | apply double_space_slice_to, Hclean | reflexivity].
Qed.

Lemma extract_no_double_space_witness :
  extract_text_from_html (Imported example_parser) (py "a    b  c") 3
  = Return (py "a" ++ [LF] ++ py "b" ++ truncation_marker)
  /\ double_space (py "a" ++ [LF] ++ py "b" ++ truncation_marker) = false.
Proof.
  assert (Hout : extract_text_from_html (Imported example_parser) (py "a    b  c") 3
                 = Return (py "a" ++ [LF] ++ py "b" ++ truncation_marker))
    by (vm_compute; reflexivity).
  split; [exact Hout|].
  exact (extract_no_double_space _ _ _ _ Hout).
Defined.

(** X2. The text extract_text_from_html works out before it limits the
    length has no whitespace at either end: stripping it changes
    nothing. *)
Theorem collapsed_text_stripped
    (bs4 : imported Bs4.BeautifulSoup) (html text : str) :
  collapsed_text bs4 html = Return text ->
  strip text = text.
Proof.
  intros H. destruct (collapsed_text_cases _ _ _ H) as [[soup ->] | ->].
  - destruct (join_ends _ (chunks_clean
                             (Bs4.get_text
                                (Bs4.decompose_all non_content_tags soup))))
      as (Hl & Hr & _).
    apply strip_fixed; assumption.
  - apply strip_strip.
Qed.

Lemma collapsed_text_stripped_witness :
  collapsed_text bs4_missing (py "  <p>Hello   World</p> ") = Return (py "Hello World")
  /\ strip (py "Hello World") = py "Hello World".
Proof.
  assert (Htext : collapsed_text bs4_missing (py "  <p>Hello   World</p> ")
                  = Return (py "Hello World"))
    by (vm_compute; reflexivity).
  split; [exact Htext|].
  exact (collapsed_text_stripped _ _ _ Htext).
Defined.

(** X3. Cleaning the whitespace of a text that is already cleaned changes
    nothing. *)
Theorem clean_whitespace_idempotent (text : str) :
  clean_whitespace (clean_whitespace text) = clean_whitespace text.
Proof. apply clean_whitespace_join, chunks_clean. Qed.

(** X4. Without bs4 extract_text_from_html returns, and its output holds
    no tag: nothing in it matches the pattern [<[^>]+>] any more, also
    after the truncation. *)
Theorem fallback_output_has_no_tag (name msg html : str) (max_length : Z) :
  ∃ out,
    extract_text_from_html (NotInstalled name msg) html max_length = Return out
    /\ tag_starts out = false.
Proof.
  assert (Hclean : tag_starts (fallback_text html) = false)
    by apply tag_starts_strip, sub_spaces_no_tag, sub_tags_no_tag.
  exists (limit_length (fallback_text html) max_length).
  split; [reflexivity|].
  destruct (limit_length_cases (fallback_text html) max_length)
    as [[_ ->] | [_ ->]]; [|exact Hclean].
  apply tag_starts_app_no_gt;
    [reflexivity | reflexivity | apply tag_starts_slice_to, Hclean].
Qed.

(** X5. Without bs4 the collapsed text is always produced, and the only
    whitespace left in it is the plain space: newlines, tabs and the other
    whitespace characters of the page are gone, and no space stands at the
    start or at the end. *)
Theorem fallback_whitespace_is_space (name msg html : str) :
  ∃ text,
    collapsed_text (NotInstalled name msg) html = Return text
    /\ Forall (λ c, isspace c = true -> c = SPACE) text
    /\ (∀ c, head text = Some c -> c ≠ SPACE)
    /\ (∀ c, last text = Some c -> c ≠ SPACE).
Proof.
  exists (fallback_text html). split; [reflexivity|].
  unfold fallback_text. cbv zeta.
  set (t := sub_spaces false (sub_tags false html)).
  destruct (strip_ends t) as [Hl Hr].
  split; [|split].
  - apply Forall_strip. eapply Forall_impl; [apply sub_spaces_no_space_char|].
    intros c [-> | Hc] Hsp; [reflexivity | congruence].
  - intros c Hc ->. pose proof (lstrip_fixed_head _ _ Hl Hc) as H. discriminate H.
  - intros c Hc ->. rewrite last_Some in Hc. destruct Hc as [l' Hc].
    assert (Hh : head (rev (strip t)) = Some SPACE)
      by (rewrite Hc, rev_app_distr; reflexivity).
    pose proof (lstrip_fixed_head _ _ Hr Hh) as H. discriminate H.
Qed.

(** ** fetch_url_content, further *)

Lemma len_nonneg {A} (s : list A) : 0 <= len s.
Proof. unfold len. lia. Qed.

Lemma len_extract_bound bs4 html max_length out :
  extract_text_from_html bs4 html max_length = Return out ->
  0 < max_length ->
  len out <= max_length + 24.
Proof.
  intros Hout Hpos. apply extract_returns in Hout as (text & _ & ->).
  destruct (limit_length_cases text max_length)
    as [[Hlong ->] | [Hshort ->]]; [|lia].
  rewrite len_app, len_slice_to, len_truncation_marker by lia. lia.
Qed.

(** X6. Every result of fetch_url_content names the url it was asked for
    and is of one of two kinds.  A success has the title, the text, its
    length, the content type and a 2xx status code, and no error.  A
    failure has an error message, which is not empty, and none of title,
    text_content, text_length, content_type and html_content. *)
Theorem fetch_result_shape
    (env : Env) (url : value) (include_html : bool) (max_length : Z) (w : World) :
  ∃ d w',
    fetch_url_content env url include_html max_length w = (Return d, w')
    /\ d !! "url" = Some url
    /\ ((d !! "success" = Some (VBool true)
         /\ (∃ title text_content content_type status,
               d !! "title" = Some (VStr title)
               /\ d !! "text_content" = Some (VStr text_content)
               /\ d !! "text_length" = Some (VInt (len text_content))
               /\ d !! "content_type" = Some (VStr content_type)
               /\ d !! "status_code" = Some (VInt status)
               /\ 200 <= status <= 299)
         /\ d !! "error" = None)
        \/ (d !! "success" = Some (VBool false)
            /\ (∃ msg, d !! "error" = Some (VStr msg) /\ msg ≠ [])
            /\ d !! "title" = None
            /\ d !! "text_content" = None
            /\ d !! "text_length" = None
            /\ d !! "content_type" = None
            /\ d !! "html_content" = None)).
Proof.
  assert (Hgeneric : ∀ name msg : str, name ++ py ": " ++ msg ≠ []).
  { intros name msg H. apply (f_equal (@length N)) in H.
    rewrite !length_app in H. simpl in H. lia. }
  unfold fetch_url_content. run_py.
  destruct (httpx env) as [client | name msg].
  2:{ eexists _, _. split; [reflexivity|]. split; [reflexivity|]. right.
      split; [reflexivity|]. split; [eexists; split; [reflexivity | apply Hgeneric]|].
      repeat split; reflexivity. }
  destruct url as [ | b | n | u | l | d ];
    try (eexists _, _; split; [reflexivity|]; split; [reflexivity|]; right;
         split; [reflexivity|];
         split; [eexists; split; [reflexivity | apply Hgeneric]|];
         repeat split; reflexivity).
  rewrite existsb_schemes. destruct (is_http u); cbn [negb].
  2:{ eexists _, _. split; [reflexivity|]. split; [reflexivity|]. right.
      split; [reflexivity|]. split; [eexists; split; [reflexivity | discriminate]|].
      repeat split; reflexivity. }
  cbn [as_str]. destruct (await_get client get_request u w) as [[response | e] w1].
  - destruct ((200 <=? status_code response) && (status_code response <=? 299))
      eqn:Hstatus.
    + apply andb_true_iff in Hstatus as [Hlo Hhi].
      apply Z.leb_le in Hlo, Hhi.
      destruct (extract_text_from_html (bs4 env) (text response) max_length)
        as [text_content | e].
      * destruct include_html;
          (eexists _, _; split; [reflexivity|]; split; [reflexivity|]; left;
           split; [reflexivity|]; split; [|reflexivity];
           eexists _, _, _, _; repeat split; try reflexivity; assumption).
      * destruct (contains (py "httpx") (exc_module e)); [destruct (exc_isinstance e)|];
          (eexists _, _; split; [reflexivity|]; split; [reflexivity|]; right;
           split; [reflexivity|];
           split; [eexists; split; [reflexivity | first [apply Hgeneric | discriminate]]|];
           repeat split; reflexivity).
    + eexists _, _. split; [reflexivity|]. split; [reflexivity|]. right.
      split; [reflexivity|]. split; [eexists; split; [reflexivity | discriminate]|].
      repeat split; reflexivity.
  - destruct (contains (py "httpx") (exc_module e)); [destruct (exc_isinstance e)|];
      (eexists _, _; split; [reflexivity|]; split; [reflexivity|]; right;
       split; [reflexivity|];
       split; [eexists; split; [reflexivity | first [apply Hgeneric | discriminate]]|];
       repeat split; reflexivity).
Qed.

(** X7. fetch_url_content calls [client.get] once at most and never
    tries again: when httpx can be imported and the url is a string with
    one of the two schemes, [client.get] is called exactly once, with
    that url, and its answer is awaited, whatever the answer is;
    otherwise it is not called and the world is left as it was.  (What
    httpx puts on the wire during the call, with the redirects it is
    told to follow, is the library's.) *)
Theorem fetch_sends_at_most_one_request
    (env : Env) (url : value) (include_html : bool) (max_length : Z) (w : World) :
  ∃ d w',
    fetch_url_content env url include_html max_length w = (Return d, w')
    /\ ((requests env url = false /\ w' = w)
        \/ (∃ u seconds,
              url = VStr u /\ requests env url = true
              /\ trace w' = trace w ++ [GetSent u (clock w);
                                         GetDone u (clock w + seconds)%N]
              /\ clock w' = (clock w + seconds)%N)).
Proof.
  destruct (fetch_url_content_spec env url include_html max_length w)
    as (d & w' & Hrun & _ & _ & Hworld).
  exists d, w'. split; [exact Hrun|].
  destruct (requests env url); [right | left; split; [reflexivity | exact Hworld]].
  destruct Hworld as (u & seconds & -> & ->).
  exists u, seconds. repeat split; reflexivity.
Qed.

Lemma fetch_include_html env url max_length w :
  ∃ d w',
    fetch_url_content env url false max_length w = (Return d, w')
    /\ d !! "html_content" = None
    /\ ((d !! "success" = Some (VBool false)
         /\ fetch_url_content env url true max_length w = (Return d, w'))
        \/ (d !! "success" = Some (VBool true)
            /\ ∃ html_content,
                 fetch_url_content env url true max_length w
                 = (Return (<["html_content" := VStr (slice_to html_content max_length)]> d),
                    w'))).
Proof.
  unfold fetch_url_content. run_py.
  destruct (httpx env) as [client | name msg].
  2:{ eexists _, _. split; [reflexivity|]. split; [reflexivity|].
      left. split; reflexivity. }
  destruct url as [ | b | n | u | l | d ];
    try (eexists _, _; split; [reflexivity|]; split; [reflexivity|];
         left; split; reflexivity).
  rewrite existsb_schemes. destruct (is_http u); cbn [negb].
  2:{ eexists _, _. split; [reflexivity|]. split; [reflexivity|].
      left. split; reflexivity. }
  cbn [as_str]. destruct (await_get client get_request u w) as [[response | e] w1].
  - destruct ((200 <=? status_code response) && (status_code response <=? 299)).
    + destruct (extract_text_from_html (bs4 env) (text response) max_length)
        as [text_content | e].
      * eexists _, _. split; [reflexivity|]. split; [reflexivity|].
        right. split; [reflexivity|]. exists (text response). reflexivity.
      * destruct (contains (py "httpx") (exc_module e)); [destruct (exc_isinstance e)|];
          (eexists _, _; split; [reflexivity|]; split; [reflexivity|];
           left; split; reflexivity).
    + eexists _, _. split; [reflexivity|]. split; [reflexivity|].
      left. split; reflexivity.
  - destruct (contains (py "httpx") (exc_module e)); [destruct (exc_isinstance e)|];
      (eexists _, _; split; [reflexivity|]; split; [reflexivity|];
       left; split; reflexivity).
Qed.

(** X8. Asking for the html changes nothing but one key: with
    include_html the world ends up the same, a failure is the same dict,
    and a success is the dict without the html plus an html_content of at
    most [max_length] characters (for a [max_length] that is not
    negative). *)
Theorem include_html_only_adds_html
    (env : Env) (url : value) (max_length : Z) (w : World) :
  ∃ without with_html w',
    fetch_url_content env url false max_length w = (Return without, w')
    /\ fetch_url_content env url true max_length w = (Return with_html, w')
    /\ without !! "html_content" = None
    /\ (∀ k, k ≠ "html_content" -> with_html !! k = without !! k)
    /\ (without !! "success" = Some (VBool false) -> with_html = without)
    /\ (without !! "success" = Some (VBool true) ->
        ∃ html, with_html !! "html_content" = Some (VStr html)
                /\ (0 <= max_length -> len html <= max_length)).
Proof.
  destruct (fetch_include_html env url max_length w)
    as (d & w' & Hrun & Hnone & [[Hfail Hsame] | (Hok & html & Hadd)]).
  - exists d, d, w'. split; [exact Hrun|]. split; [exact Hsame|].
    split; [exact Hnone|]. split; [reflexivity|]. split; [reflexivity|].
    rewrite Hfail. discriminate.
  - eexists d, _, w'. split; [exact Hrun|]. split; [exact Hadd|].
    split; [exact Hnone|].
    split; [intros k Hk; apply lookup_insert_ne; congruence|].
    split; [rewrite Hok; discriminate|].
    intros _. eexists. split; [apply lookup_insert_eq|].
    intros Hml. rewrite len_slice_to by exact Hml. lia.
Qed.

(** X9. A response with a 2xx status is a success when the text of its
    body can be extracted, whatever its content type: the result has the
    status code of the response, its content-type header (or the empty
    string), and as text_content the text extracted from its body, which
    for a positive [max_length] is at most [max_length] + 24 characters
    long; when bs4 is not installed the extraction always returns and the
    title is "No title".  When the extraction raises, the parser having
    rejected the body, the result is a failure instead: for an exception
    that is not one of httpx, the failure whose error is the class name
    and the message of the exception. *)
Theorem fetch_success_content
    (env : Env) (client : Httpx) (u : str) (include_html : bool) (max_length : Z)
    (w : World) (response : Response) (seconds : N) :
  httpx env = Imported client ->
  is_http u = true ->
  client_get client get_request (trace w ++ [GetSent u (clock w)]) u
  = (inr response, seconds) ->
  200 <= status_code response <= 299 ->
  ∃ d,
    fetch_url_content env (VStr u) include_html max_length w
    = (Return d, after_get w u seconds)
    /\ (∀ text_content,
          extract_text_from_html (bs4 env) (text response) max_length
          = Return text_content ->
          d !! "success" = Some (VBool true)
          /\ d !! "status_code" = Some (VInt (status_code response))
          /\ d !! "content_type" = Some (VStr (default [] (content_type_header response)))
          /\ d !! "text_content" = Some (VStr text_content)
          /\ d !! "text_length" = Some (VInt (len text_content))
          /\ (0 < max_length -> 0 <= len text_content <= max_length + 24))
    /\ (∀ e,
          extract_text_from_html (bs4 env) (text response) max_length = Raise e ->
          d !! "success" = Some (VBool false)
          /\ (contains (py "httpx") (exc_module e) = false ->
              d = dict_of [("success", VBool false);
                           ("error", VStr (exc_name e ++ py ": " ++ exc_str e));
                           ("url", VStr u)]))
    /\ (∀ name msg,
          bs4 env = NotInstalled name msg ->
          d !! "success" = Some (VBool true)
          /\ d !! "title" = Some (VStr (py "No title"))).
Proof.
  intros Hclient Hu Hget Hstatus.
  unfold fetch_url_content. run_py.
  rewrite Hclient, existsb_schemes, Hu. cbn [negb as_str].
  unfold await_get. rewrite Hget.
  rewrite (status_is_success _ Hstatus).
  assert (Hworld : {| trace := (trace w ++ [GetSent u (clock w)])
                               ++ [GetDone u (clock w + seconds)%N];
                      clock := (clock w + seconds)%N |} = after_get w u seconds)
    by (unfold after_get; rewrite <- app_assoc; reflexivity).
  rewrite Hworld.
  destruct (extract_text_from_html (bs4 env) (text response) max_length)
    as [text_content | e] eqn:Hextract.
  - destruct include_html;
      (eexists; split; [reflexivity|]; split; [|split; [discriminate|]];
       [ intros ? [= <-];
         split; [reflexivity|]; split; [reflexivity|]; split; [reflexivity|];
         split; [reflexivity|]; split; [reflexivity|];
         intros Hpos; split; [apply len_nonneg | eapply len_extract_bound; eassumption]
       | intros name msg Hbs4; rewrite Hbs4; split; reflexivity ]).
  - assert (Hinstalled : ∀ name msg, bs4 env ≠ NotInstalled name msg).
    { intros name msg Hbs4. rewrite Hbs4 in Hextract. discriminate Hextract. }
    destruct (contains (py "httpx") (exc_module e)) eqn:Hhttpx;
      [destruct (exc_isinstance e)|];
      (eexists; split; [reflexivity|]; split; [discriminate|];
       split; [intros ? [= <-]; split; [reflexivity|];
               intros Hmod; first [reflexivity | congruence]
              | intros name msg Hbs4; destruct (Hinstalled _ _ Hbs4)]).
Qed.

(** ** ddg_web_search, further *)

Lemma format_results_length raw : ∀ idx, length (format_results idx raw) = length raw.
Proof. induction raw as [|r raw IH]; intros idx; simpl; [reflexivity | rewrite IH; reflexivity]. Qed.

Lemma format_results_lookup raw :
  ∀ idx (i : nat) r,
    raw !! i = Some r ->
    format_results idx raw !! i
    = Some (VDict (dict_of
                     [("index", VInt (idx + Z.of_nat i + 1));
                      ("title", VStr (default (py "No title") (r !! "title")));
                      ("snippet", VStr (default (py "No snippet") (r !! "body")));
                      ("link", VStr (default (py "No link") (r !! "href")))])).
Proof.
  induction raw as [|r0 raw IH]; intros idx i r Hi; [destruct i; discriminate|].
  destruct i as [|i]; simpl in Hi.
  - injection Hi as ->. simpl. rewrite Z.add_0_r. reflexivity.
  - simpl. rewrite (IH (idx + 1) i r Hi).
    replace (idx + 1 + Z.of_nat i + 1) with (idx + Z.of_nat (S i) + 1) by lia.
    reflexivity.
Qed.

(** X10. ddg_web_search calls the search engine once, for the query as
    given and for the smaller of [max_results] and 10 results (a
    [max_results] of 0 or less is passed on as it is), and sends no
    request for a page. *)
Theorem search_asks_for_at_most_ten
    (env : Env) (client : Ddgs) (query : str) (max_results : Z) (w : World) :
  ddgs env = Imported client ->
  ∃ d w' asked,
    ddg_web_search env query max_results w = (Return d, w')
    /\ trace w' = trace w ++ [Searched query asked (clock w)]
    /\ asked = Z.min max_results 10
    /\ asked <= 10
    /\ searches (trace w') = searches (trace w) ++ [(query, asked)]
    /\ sent_urls (trace w') = sent_urls (trace w).
Proof.
  intros Hclient. unfold ddg_web_search. run_py. rewrite Hclient.
  unfold call_text.
  assert (Hsearches : ∀ t q n at_, searches (t ++ [Searched q n at_]) = searches t ++ [(q, n)])
    by (intros; unfold searches; rewrite flat_map_app; reflexivity).
  assert (Hsent : ∀ t q n at_, sent_urls (t ++ [Searched q n at_]) = sent_urls t)
    by (intros; unfold sent_urls; rewrite flat_map_app; apply app_nil_r).
  destruct (ddgs_text client (trace w) query (Z.min max_results 10))
    as [[e | results] seconds];
    [destruct (exc_isinstance e)|];
    (eexists _, _, _; split; [reflexivity|]; split; [reflexivity|];
     split; [reflexivity|]; split; [lia|];
     split; [apply Hsearches | apply Hsent]).
Qed.

Lemma search_asks_for_at_most_ten_witness :
  ∃ d w',
    ddg_web_search example_env (py "batteries") 50 start = (Return d, w')
    /\ trace w' = [Searched (py "batteries") 10 0].
Proof.
  destruct (search_asks_for_at_most_ten example_env example_ddgs (py "batteries") 50 start
              eq_refl)
    as (d & w' & asked & Hrun & Htrace & -> & _).
  exists d, w'. split; [exact Hrun | exact Htrace].
Defined.

(** X11. When the search engine returns a list, ddg_web_search succeeds
    and keeps every result, in its order (the list is not cut when it is
    longer than what was asked for): result_count is the length of the
    list, and the result at position i has the index i + 1 and the title,
    body and href of the i-th raw result under title, snippet and link,
    with "No title", "No snippet" and "No link" for a key that is
    missing. *)
Theorem search_results_formatted
    (env : Env) (client : Ddgs) (query : str) (max_results : Z) (w : World)
    (raw : list (gmap string str)) (seconds : N) :
  ddgs env = Imported client ->
  ddgs_text client (trace w) query (Z.min max_results 10) = (inr raw, seconds) ->
  ∃ d w' results,
    ddg_web_search env query max_results w = (Return d, w')
    /\ d !! "success" = Some (VBool true)
    /\ d !! "query" = Some (VStr query)
    /\ d !! "result_count" = Some (VInt (len raw))
    /\ d !! "results" = Some (VList results)
    /\ length results = length raw
    /\ ∀ (i : nat) r, raw !! i = Some r -> results !! i = Some (formatted i r).
Proof.
  intros Hclient Htext. unfold ddg_web_search. run_py. rewrite Hclient.
  unfold call_text. rewrite Htext.
  eexists _, _, (format_results 0 raw). split; [reflexivity|].
  split; [reflexivity|]. split; [reflexivity|].
  split; [unfold len; rewrite format_results_length; reflexivity|].
  split; [reflexivity|]. split; [apply format_results_length|].
  intros i r Hi. rewrite (format_results_lookup raw 0 i r Hi). reflexivity.
Qed.

Lemma search_results_formatted_witness :
  ∃ d w' results,
    ddg_web_search example_env (py "batteries") 2 start = (Return d, w')
    /\ d !! "result_count" = Some (VInt 3)
    /\ d !! "results" = Some (VList results)
    /\ results !! 2%nat
       = Some (VDict (dict_of [("index", VInt 3);
                               ("title", VStr (py "C"));
                               ("snippet", VStr (py "No snippet"));
                               ("link", VStr (py "https://example.com/down"))])).
Proof.
  destruct (search_results_formatted example_env example_ddgs (py "batteries") 2 start
              _ 1%N eq_refl eq_refl)
    as (d & w' & results & Hrun & _ & _ & Hcount & Hresults & _ & Hat).
  exists d, w', results. split; [exact Hrun|]. split; [exact Hcount|].
  split; [exact Hresults|].
  rewrite (Hat 2%nat _ eq_refl). reflexivity.
Defined.

(** ** search_and_fetch, further *)

Lemma fetch_url_content_outcome_ex env url max_length w :
  ∃ d w',
    fetch_url_content env url false max_length w = (Return d, w')
    /\ fetch_outcome max_length d.
Proof.
  assert (Hgeneric : ∀ name msg : str, name ++ py ": " ++ msg ≠ []).
  { intros name msg H. apply (f_equal (@length N)) in H.
    rewrite !length_app in H. simpl in H. lia. }
  unfold fetch_url_content, fetch_outcome. run_py.
  destruct (httpx env) as [client | name msg].
  2:{ eexists _, _. split; [reflexivity|]. right. eexists.
      split; [reflexivity|]. split; [reflexivity|].
      split; [apply Hgeneric|]. repeat split; reflexivity. }
  destruct url as [ | b | n | u | l | d0 ];
    try (eexists _, _; split; [reflexivity|]; right; eexists;
         split; [reflexivity|]; split; [reflexivity|];
         split; [apply Hgeneric|]; repeat split; reflexivity).
  rewrite existsb_schemes. destruct (is_http u); cbn [negb].
  2:{ eexists _, _. split; [reflexivity|]. right. eexists.
      split; [reflexivity|]. split; [reflexivity|].
      split; [discriminate|]. repeat split; reflexivity. }
  cbn [as_str]. destruct (await_get client get_request u w) as [[response | e] w1].
  - destruct ((200 <=? status_code response) && (status_code response <=? 299)).
    + destruct (extract_text_from_html (bs4 env) (text response) max_length)
        as [text_content | e] eqn:Hextract.
      * eexists _, _. split; [reflexivity|]. left. eexists _, _.
        repeat (split; [reflexivity|]). eapply len_extract_bound, Hextract.
      * destruct (contains (py "httpx") (exc_module e)); [destruct (exc_isinstance e)|];
          (eexists _, _; split; [reflexivity|]; right; eexists;
           split; [reflexivity|]; split; [reflexivity|];
           split; [first [apply Hgeneric | discriminate]|]; repeat split; reflexivity).
    + eexists _, _. split; [reflexivity|]. right. eexists.
      split; [reflexivity|]. split; [reflexivity|].
      split; [discriminate|]. repeat split; reflexivity.
  - destruct (contains (py "httpx") (exc_module e)); [destruct (exc_isinstance e)|];
      (eexists _, _; split; [reflexivity|]; right; eexists;
       split; [reflexivity|]; split; [reflexivity|];
       split; [first [apply Hgeneric | discriminate]|]; repeat split; reflexivity).
Qed.

Lemma fetch_url_content_outcome env url max_length w d w' :
  fetch_url_content env url false max_length w = (Return d, w') ->
  fetch_outcome max_length d.
Proof.
  intros Hrun.
  destruct (fetch_url_content_outcome_ex env url max_length w) as (d0 & w0 & Hrun0 & H).
  rewrite Hrun in Hrun0. injection Hrun0 as <- _. exact H.
Qed.

Lemma fetch_url_content_invalid env client u include_html max_length w :
  httpx env = Imported client ->
  is_http u = false ->
  fetch_url_content env (VStr u) include_html max_length w
  = (Return (dict_of [("success", VBool false);
                      ("error", VStr (py "URL must start with http:// or https://"));
                      ("url", VStr u)]),
     w).
Proof.
  intros Hclient Hu. unfold fetch_url_content. run_py.
  rewrite Hclient, existsb_schemes, Hu. reflexivity.
Qed.

Lemma fetch_loop_entries env max_length urls :
  ∀ idx acc w,
    ∃ entries w',
      fetch_loop env max_length idx urls acc w = (Return (acc ++ entries), w')
      /\ Forall2 (entry_of_fetch env max_length) urls entries
      /\ (urls = [] -> w' = w).
Proof.
  induction urls as [|url urls IH]; intros idx acc w.
  - exists [], w. rewrite app_nil_r. repeat split; constructor.
  - destruct (fetch_url_content_spec env url false max_length w)
      as (content & w1 & Hrun & _).
    destruct (IH (idx + 1) (acc ++ [VDict (fetched_entry idx url content)]) w1)
      as (entries & w2 & Hloop & Hentries & _).
    exists (VDict (fetched_entry idx url content) :: entries), w2.
    split; [|split; [|discriminate]].
    + simpl. unfold mbind, Py_bind. rewrite Hrun, Hloop, <- app_assoc. reflexivity.
    + constructor; [|exact Hentries].
      exists idx, content, w, w1. split; [reflexivity | exact Hrun].
Qed.

Lemma search_and_fetch_entries
    env query max_results top_n max_length w search_results w1 :
  ddg_web_search env query max_results w = (Return search_results, w1) ->
  truthy (get search_results "success") = true ->
  ∃ results urls entries w2,
    search_results !! "results" = Some (VList results)
    /\ search_results !! "result_count" = Some (VInt (len results))
    /\ Forall2 link_is (slice_to results top_n) urls
    /\ search_and_fetch env query max_results top_n max_length w
       = (Return (dict_of [("success", VBool true);
                           ("query", VStr query);
                           ("search_results", VDict search_results);
                           ("fetched_content", VList entries);
                           ("total_results", VInt (len results));
                           ("fetched_count", VInt (len entries))]),
          w2)
    /\ Forall2 (entry_of_fetch env max_length) urls entries
    /\ (urls = [] -> w2 = w1).
Proof.
  intros Hrun Hok.
  destruct (ddg_web_search_cases env query max_results w)
    as (d & w' & evs0 & Hrun' & _ & _ & Hshape).
  rewrite Hrun in Hrun'. injection Hrun' as <- <-.
  destruct Hshape as [(raw & Hd) | (msg & Hd)];
    [|rewrite Hd in Hok; discriminate Hok].
  set (results := format_results 0 raw) in *.
  assert (Hresults : search_results !! "results" = Some (VList results))
    by (rewrite Hd; reflexivity).
  assert (Hcount : search_results !! "result_count" = Some (VInt (len results)))
    by (rewrite Hd; reflexivity).
  assert (Hlinks : Forall (λ r, ∃ link, link_is r (VStr link)) (slice_to results top_n)).
  { unfold slice_to. destruct (0 <=? top_n); apply Forall_take, format_results_links. }
  destruct (links_spec _ w1 Hlinks) as (urls & Hurls & Hall).
  destruct (fetch_loop_entries env max_length urls 1 [] w1)
    as (entries & w2 & Hloop & Hentries & Hsame).
  exists results, urls, entries, w2.
  split; [exact Hresults|]. split; [exact Hcount|]. split; [exact Hall|].
  split; [|split; [exact Hentries | exact Hsame]].
  unfold search_and_fetch, mbind, Py_bind. rewrite Hrun, Hok. cbn [negb].
  unfold get_or. rewrite Hresults.
  change (as_list (default (VList []) (Some (VList results))) w1)
    with (@Return (list value) results, w1).
  cbv beta iota. rewrite Hurls, Hloop. reflexivity.
Qed.

(** X12. search_and_fetch never raises: whatever the environment, the
    arguments and the answers of the network, it returns a dict. *)
Theorem search_and_fetch_never_raises
    (env : Env) (query : str) (max_results top_n max_length : Z) (w : World) :
  ∃ d w',
    search_and_fetch env query max_results top_n max_length w = (Return d, w')
    /\ ∃ success, d !! "success" = Some (VBool success).
Proof.
  destruct (ddg_web_search_cases env query max_results w)
    as (search_results & w1 & evs0 & Hrun & _ & _ & Hshape).
  destruct Hshape as [(raw & Hd) | (msg & Hd)].
  - assert (Hok : truthy (get search_results "success") = true)
      by (rewrite Hd; reflexivity).
    destruct (search_and_fetch_entries env query max_results top_n max_length
                w search_results w1 Hrun Hok)
      as (results & urls & entries & w2 & _ & _ & _ & Hsaf & _).
    eexists _, _. split; [exact Hsaf|]. exists true. reflexivity.
  - assert (Hfail : truthy (get search_results "success") = false)
      by (rewrite Hd; reflexivity).
    eexists _, _. split; [eapply search_and_fetch_after_failure; eassumption|].
    exists false. rewrite Hd. reflexivity.
Qed.

Lemma len_slice_nonpositive {A} (l : list A) (n : Z) :
  n < 0 -> len (slice_to l n) = Z.max 0 (len l + n).
Proof.
  intros Hn. unfold slice_to, len.
  destruct (Z.leb_spec 0 n); [lia|]. rewrite length_take. lia.
Qed.

(** X13. A [top_n] of 0 fetches nothing: fetched_count is 0 and the world
    is left as the search left it.  A negative [top_n] counts from the
    end, as a Python slice does: all results but the last -[top_n] are
    fetched, so fetched_count is the number of results plus [top_n], or 0
    when that is negative. *)
Theorem nonpositive_top_n
    (env : Env) (query : str) (max_results top_n max_length : Z) (w : World)
    (search_results : gmap string value) (results : list value) (w1 : World) :
  top_n <= 0 ->
  ddg_web_search env query max_results w = (Return search_results, w1) ->
  search_results !! "success" = Some (VBool true) ->
  search_results !! "results" = Some (VList results) ->
  ∃ report w2,
    search_and_fetch env query max_results top_n max_length w = (Return report, w2)
    /\ (top_n = 0 ->
        report !! "fetched_count" = Some (VInt 0)
        /\ report !! "fetched_content" = Some (VList [])
        /\ w2 = w1)
    /\ (top_n < 0 ->
        report !! "fetched_count" = Some (VInt (Z.max 0 (len results + top_n)))).
Proof.
  intros Htop Hrun Hsuccess Hresults.
  assert (Hok : truthy (get search_results "success") = true)
    by (unfold get; rewrite Hsuccess; reflexivity).
  destruct (search_and_fetch_entries env query max_results top_n max_length
              w search_results w1 Hrun Hok)
    as (results' & urls & entries & w2 & Hresults' & _ & Hlinks & Hsaf & Hentries & Hsame).
  rewrite Hresults in Hresults'. injection Hresults' as <-.
  eexists _, w2. split; [exact Hsaf|]. split.
  - intros ->. unfold slice_to in Hlinks. simpl in Hlinks.
    apply Forall2_nil_inv_l in Hlinks. subst urls.
    apply Forall2_nil_inv_l in Hentries. subst entries.
    split; [reflexivity|]. split; [reflexivity | apply Hsame; reflexivity].
  - intros Hneg.
    assert (Hlen : len entries = Z.max 0 (len results + top_n)).
    { rewrite <- (len_slice_nonpositive results top_n Hneg). unfold len. f_equal.
      rewrite <- (Forall2_length _ _ _ Hentries).
      symmetry. eapply Forall2_length, Hlinks. }
    rewrite <- Hlen. reflexivity.
Qed.

Lemma nonpositive_top_n_witness :
  ∃ report w2,
    search_and_fetch example_env (py "batteries") 5 (-1) 50000 start = (Return report, w2)
    /\ report !! "fetched_count" = Some (VInt 2).
Proof.
  destruct (nonpositive_top_n example_env (py "batteries") 5 (-1) 50000 start
              _ _ _ ltac:(lia) eq_refl eq_refl eq_refl)
    as (report & w2 & Hrun & _ & Hneg).
  exists report, w2. split; [exact Hrun|]. apply Hneg. lia.
Defined.

Lemma len_slice_le {A} (l : list A) (n : Z) : len (slice_to l n) <= len l.
Proof.
  unfold slice_to, len. destruct (0 <=? n); rewrite length_take; lia.
Qed.

(** X14. The report of a successful search carries the search as it was
    returned and counts that agree: total_results is the number of
    results and the result_count of the search, fetched_count is the
    length of fetched_content, and fetched_count is never more than
    total_results, whatever [top_n] is. *)
Theorem report_counts
    (env : Env) (query : str) (max_results top_n max_length : Z) (w : World)
    (search_results : gmap string value) (w1 : World) :
  ddg_web_search env query max_results w = (Return search_results, w1) ->
  truthy (get search_results "success") = true ->
  ∃ report results fetched_content w2,
    search_and_fetch env query max_results top_n max_length w = (Return report, w2)
    /\ report !! "query" = Some (VStr query)
    /\ report !! "search_results" = Some (VDict search_results)
    /\ search_results !! "results" = Some (VList results)
    /\ search_results !! "result_count" = Some (VInt (len results))
    /\ report !! "total_results" = Some (VInt (len results))
    /\ report !! "fetched_content" = Some (VList fetched_content)
    /\ report !! "fetched_count" = Some (VInt (len fetched_content))
    /\ len fetched_content <= len results.
Proof.
  intros Hrun Hok.
  destruct (search_and_fetch_entries env query max_results top_n max_length
              w search_results w1 Hrun Hok)
    as (results & urls & entries & w2 & Hresults & Hcount & Hlinks & Hsaf & Hentries & _).
  eexists _, results, entries, w2. split; [exact Hsaf|].
  split; [reflexivity|]. split; [reflexivity|]. split; [exact Hresults|].
  split; [exact Hcount|]. split; [reflexivity|]. split; [reflexivity|].
  split; [reflexivity|].
  pose proof (len_slice_le results top_n) as Hle. unfold len in *.
  rewrite <- (Forall2_length _ _ _ Hentries), <- (Forall2_length _ _ _ Hlinks). exact Hle.
Qed.

Lemma report_counts_witness :
  ∃ report w2,
    search_and_fetch example_env (py "batteries") 5 2 50000 start = (Return report, w2)
    /\ report !! "total_results" = Some (VInt 3)
    /\ report !! "query" = Some (VStr (py "batteries")).
Proof.
  destruct (report_counts example_env (py "batteries") 5 2 50000 start _ _ eq_refl eq_refl)
    as (report & results & fetched_content & w2 & Hrun & Hquery & _ & Hresults & _
        & Htotal & _).
  exists report, w2. split; [exact Hrun|]. split; [|exact Hquery].
  injection Hresults as <-. exact Htotal.
Defined.

Lemma fetched_content_entries
    env query max_results top_n max_length w report w' fetched_content :
  search_and_fetch env query max_results top_n max_length w = (Return report, w') ->
  report !! "fetched_content" = Some (VList fetched_content) ->
  ∃ urls, Forall2 (entry_of_fetch env max_length) urls fetched_content.
Proof.
  intros Hsaf Hcontent.
  destruct (search_result_cases env query max_results w)
    as (search_results & w1 & Hrun & [[Hfail Hnone] | Hok]).
  - rewrite (search_and_fetch_after_failure _ _ _ top_n max_length _ _ _ Hrun Hfail)
      in Hsaf.
    injection Hsaf as <- _. rewrite Hnone in Hcontent. discriminate Hcontent.
  - destruct (search_and_fetch_entries env query max_results top_n max_length
                w search_results w1 Hrun Hok)
      as (results & urls & entries & w2 & _ & _ & _ & Hsaf' & Hentries & _).
    rewrite Hsaf' in Hsaf. injection Hsaf as <- _.
    change (Some (VList entries) = Some (VList fetched_content)) in Hcontent.
    injection Hcontent as <-. exists urls. exact Hentries.
Qed.

Lemma fetched_entry_text idx url content max_length :
  fetch_outcome max_length content ->
  ∃ text_content,
    fetched_entry idx url content !! "text_content" = Some (VStr text_content)
    /\ fetched_entry idx url content !! "text_length" = Some (VInt (len text_content))
    /\ (0 < max_length -> len text_content <= max_length + 24).
Proof.
  intros Hout.
  assert (Htext : fetched_entry idx url content !! "text_content"
                  = Some (get_or content "text_content" (VStr [])))
    by reflexivity.
  assert (Hlen : fetched_entry idx url content !! "text_length"
                 = Some (get_or content "text_length" (VInt 0)))
    by reflexivity.
  rewrite Htext, Hlen. unfold get_or.
  destruct Hout as [(title & text_content & _ & _ & -> & -> & _ & Hbound)
                   | (msg & _ & _ & _ & _ & -> & ->)].
  - exists text_content. repeat split; [exact Hbound].
  - exists []. repeat split. intros Hpos. unfold len. simpl. lia.
Qed.

Lemma fetched_entry_error idx url content max_length :
  fetch_outcome max_length content ->
  (fetched_entry idx url content !! "fetch_success" = Some (VBool true)
   /\ fetched_entry idx url content !! "error" = Some VNone)
  \/ (fetched_entry idx url content !! "fetch_success" = Some (VBool false)
      /\ ∃ msg, fetched_entry idx url content !! "error" = Some (VStr msg) /\ msg ≠ []).
Proof.
  intros Hout.
  assert (Hok : fetched_entry idx url content !! "fetch_success"
                = Some (get_or content "success" (VBool false)))
    by reflexivity.
  assert (Herr : fetched_entry idx url content !! "error" = Some (get content "error"))
    by reflexivity.
  rewrite Hok, Herr. unfold get_or, get.
  destruct Hout as [(title & text_content & -> & _ & _ & _ & -> & _)
                   | (msg & -> & -> & Hmsg & _)].
  - left. split; reflexivity.
  - right. split; [reflexivity|]. exists msg. split; [reflexivity | exact Hmsg].
Qed.

(** X15. For a positive [max_length] every entry of fetched_content has a
    text_content of at most [max_length] + 24 characters, and a
    text_length that is its length: the limit given to search_and_fetch
    holds for every page. *)
Theorem fetched_text_within_limit
    (env : Env) (query : str) (max_results top_n max_length : Z) (w : World)
    (report : gmap string value) (w' : World) (fetched_content : list value) :
  0 < max_length ->
  search_and_fetch env query max_results top_n max_length w = (Return report, w') ->
  report !! "fetched_content" = Some (VList fetched_content) ->
  Forall (λ entry,
            ∃ e text_content,
              entry = VDict e
              /\ e !! "text_content" = Some (VStr text_content)
              /\ e !! "text_length" = Some (VInt (len text_content))
              /\ len text_content <= max_length + 24)
         fetched_content.
Proof.
  intros Hpos Hsaf Hcontent.
  destruct (fetched_content_entries _ _ _ _ _ _ _ _ _ Hsaf Hcontent) as (urls & Hentries).
  clear Hsaf Hcontent.
  induction Hentries as [|url entry urls entries (idx & content & wa & wb & -> & Hrun) _ IH];
    [constructor|]. constructor; [|exact IH].
  destruct (fetched_entry_text idx url content max_length
              (fetch_url_content_outcome _ _ _ _ _ _ Hrun))
    as (text_content & Htext & Hlen & Hbound).
  exists (fetched_entry idx url content), text_content. auto.
Qed.

Lemma fetched_text_within_limit_witness :
  ∃ report fetched_content w',
    search_and_fetch example_env (py "batteries") 5 3 10 start = (Return report, w')
    /\ report !! "fetched_content" = Some (VList fetched_content)
    /\ Forall (λ entry,
                 ∃ e text_content,
                   entry = VDict e
                   /\ e !! "text_content" = Some (VStr text_content)
                   /\ e !! "text_length" = Some (VInt (len text_content))
                   /\ len text_content <= 10 + 24)
              fetched_content.
Proof.
  eexists _, _, _. split; [reflexivity|]. split; [reflexivity|].
  eapply (fetched_text_within_limit example_env (py "batteries") 5 3 10 start);
    [lia | reflexivity | reflexivity].
Defined.

(** X16. In every entry of fetched_content the error tells whether the
    fetch failed: it is None when fetch_success is true, and a message
    that is not empty when fetch_success is false. *)
Theorem entry_error_iff_failed
    (env : Env) (query : str) (max_results top_n max_length : Z) (w : World)
    (report : gmap string value) (w' : World) (fetched_content : list value) :
  search_and_fetch env query max_results top_n max_length w = (Return report, w') ->
  report !! "fetched_content" = Some (VList fetched_content) ->
  Forall (λ entry,
            ∃ e,
              entry = VDict e
              /\ ((e !! "fetch_success" = Some (VBool true)
                   /\ e !! "error" = Some VNone)
                  \/ (e !! "fetch_success" = Some (VBool false)
                      /\ ∃ msg, e !! "error" = Some (VStr msg) /\ msg ≠ [])))
         fetched_content.
Proof.
  intros Hsaf Hcontent.
  destruct (fetched_content_entries _ _ _ _ _ _ _ _ _ Hsaf Hcontent) as (urls & Hentries).
  clear Hsaf Hcontent.
  induction Hentries as [|url entry urls entries (idx & content & wa & wb & -> & Hrun) _ IH];
    [constructor|]. constructor; [|exact IH].
  exists (fetched_entry idx url content). split; [reflexivity|].
  apply (fetched_entry_error idx url content max_length).
  exact (fetch_url_content_outcome _ _ _ _ _ _ Hrun).
Qed.

Lemma entry_error_iff_failed_witness :
  ∃ report fetched_content w',
    search_and_fetch example_env (py "batteries") 5 1 50000 start = (Return report, w')
    /\ report !! "fetched_content" = Some (VList fetched_content)
    /\ Forall (λ entry,
                 ∃ e,
                   entry = VDict e
                   /\ ((e !! "fetch_success" = Some (VBool true)
                        /\ e !! "error" = Some VNone)
                       \/ (e !! "fetch_success" = Some (VBool false)
                           /\ ∃ msg, e !! "error" = Some (VStr msg) /\ msg ≠ [])))
              fetched_content.
Proof.
  eexists _, _, _. split; [reflexivity|]. split; [reflexivity|].
  eapply (entry_error_iff_failed example_env (py "batteries") 5 1 50000 start);
    reflexivity.
Defined.

(** X18. A search result without an href gets the link "No link", and
    search_and_fetch fetches it like any other: when it is among the
    selected results and httpx can be imported, its entry has the url
    "No link", a fetch_success of false and the error about the scheme
    of the url. *)
Theorem result_without_link_fails
    (env : Env) (search : Ddgs) (client : Httpx)
    (query : str) (max_results top_n max_length : Z) (w : World)
    (raw : list (gmap string str)) (seconds : N) (i : nat) (r : gmap string str) :
  ddgs env = Imported search ->
  ddgs_text search (trace w) query (Z.min max_results 10) = (inr raw, seconds) ->
  httpx env = Imported client ->
  raw !! i = Some r ->
  r !! "href" = None ->
  Z.of_nat i < top_n ->
  ∃ report fetched_content e w',
    search_and_fetch env query max_results top_n max_length w = (Return report, w')
    /\ report !! "fetched_content" = Some (VList fetched_content)
    /\ fetched_content !! i = Some (VDict e)
    /\ e !! "url" = Some (VStr (py "No link"))
    /\ e !! "fetch_success" = Some (VBool false)
    /\ e !! "error" = Some (VStr (py "URL must start with http:// or https://")).
Proof.
  intros Hsearch Htext Hclient Hi Hhref Htop.
  assert (Hrun : ∃ w1,
             ddg_web_search env query max_results w
             = (Return (dict_of [("success", VBool true);
                                 ("query", VStr query);
                                 ("result_count", VInt (len (format_results 0 raw)));
                                 ("results", VList (format_results 0 raw))]),
                w1)).
  { unfold ddg_web_search. run_py. rewrite Hsearch. unfold call_text. rewrite Htext.
    eexists. reflexivity. }
  destruct Hrun as (w1 & Hrun).
  destruct (search_and_fetch_entries env query max_results top_n max_length w _ w1
              Hrun eq_refl)
    as (results & urls & entries & w2 & Hresults & _ & Hlinks & Hsaf & Hentries & _).
  change (Some (VList (format_results 0 raw)) = Some (VList results)) in Hresults.
  injection Hresults as <-.
  assert (Hsel : slice_to (format_results 0 raw) top_n !! i
                 = Some (VDict (dict_of
                                  [("index", VInt (0 + Z.of_nat i + 1));
                                   ("title", VStr (default (py "No title") (r !! "title")));
                                   ("snippet", VStr (default (py "No snippet") (r !! "body")));
                                   ("link", VStr (default (py "No link") (r !! "href")))]))).
  { unfold slice_to. destruct (Z.leb_spec 0 top_n); [|lia].
    apply lookup_take_Some. split; [apply format_results_lookup, Hi | lia]. }
  destruct (Forall2_lookup_l _ _ _ _ _ Hlinks Hsel) as (url & Hurl & d & Hd & Hlink).
  injection Hd as <-. rewrite Hhref in Hlink.
  change (Some (VStr (py "No link")) = Some url) in Hlink. injection Hlink as <-.
  destruct (Forall2_lookup_l _ _ _ _ _ Hentries Hurl)
    as (entry & Hentry & idx & content & wa & wb & -> & Hfetch).
  rewrite (fetch_url_content_invalid env client (py "No link") false max_length wa
             Hclient eq_refl) in Hfetch.
  injection Hfetch as <- _.
  eexists _, entries, _, w2. split; [exact Hsaf|]. split; [reflexivity|].
  split; [exact Hentry|]. repeat split; reflexivity.
Qed.

Lemma result_without_link_fails_witness :
  ∃ report fetched_content e w',
    search_and_fetch ok_env (py "anything") 5 3 50000 start = (Return report, w')
    /\ report !! "fetched_content" = Some (VList fetched_content)
    /\ fetched_content !! 1%nat = Some (VDict e)
    /\ e !! "url" = Some (VStr (py "No link"))
    /\ e !! "fetch_success" = Some (VBool false).
Proof.
  destruct (result_without_link_fails ok_env linkless_ddgs ok_httpx (py "anything")
              5 3 50000 start _ 1%N 1%nat _ eq_refl eq_refl eq_refl eq_refl eq_refl
              ltac:(lia))
    as (report & fetched_content & e & w' & Hrun & Hcontent & Hentry & Hurl & Hok & _).
  exists report, fetched_content, e, w'. auto.
Defined.

(** ** main *)

Lemma fetch_url_content_no_scheme env u include_html max_length w :
  is_http u = false ->
  ∃ d,
    fetch_url_content env (VStr u) include_html max_length w = (Return d, w)
    /\ d !! "success" = Some (VBool false)
    /\ d !! "url" = Some (VStr u).
Proof.
  intros Hu. unfold fetch_url_content. run_py.
  destruct (httpx env) as [client | name msg].
  - rewrite existsb_schemes, Hu. cbn [negb].
    eexists. split; [reflexivity|]. split; reflexivity.
  - eexists. split; [reflexivity|]. split; reflexivity.
Qed.

Lemma fetch_url_content_named env url include_html max_length w :
  ∃ d w' success,
    fetch_url_content env url include_html max_length w = (Return d, w')
    /\ d !! "success" = Some (VBool success)
    /\ d !! "url" = Some url
    /\ searches (trace w') = searches (trace w).
Proof.
  destruct (fetch_url_content_spec env url include_html max_length w)
    as (d & w' & Hrun & Hshape & Hurl & Hworld).
  assert (Hsearches : searches (trace w') = searches (trace w)).
  { destruct (requests env url); [|subst w'; reflexivity].
    destruct Hworld as (u & seconds & _ & ->). unfold after_get, searches. simpl.
    rewrite flat_map_app. apply app_nil_r. }
  destruct Hshape as [(title & text_content & Hs & _) | (msg & Hs & _)];
    eexists d, w', _; (split; [exact Hrun|]; split; [exact Hs|]; split; assumption).
Qed.

Lemma search_and_fetch_named env query max_results top_n max_length w :
  ∃ d w' success,
    search_and_fetch env query max_results top_n max_length w = (Return d, w')
    /\ d !! "success" = Some (VBool success)
    /\ d !! "query" = Some (VStr query).
Proof.
  destruct (ddg_web_search_cases env query max_results w)
    as (search_results & w1 & evs0 & Hrun & _ & _ & Hshape).
  destruct Hshape as [(raw & Hd) | (msg & Hd)].
  - assert (Hok : truthy (get search_results "success") = true)
      by (rewrite Hd; reflexivity).
    destruct (search_and_fetch_entries env query max_results top_n max_length
                w search_results w1 Hrun Hok)
      as (results & urls & entries & w2 & _ & _ & _ & Hsaf & _).
    eexists _, _, true. split; [exact Hsaf|]. split; reflexivity.
  - assert (Hfail : truthy (get search_results "success") = false)
      by (rewrite Hd; reflexivity).
    eexists _, _, false.
    split; [eapply search_and_fetch_after_failure; eassumption|].
    rewrite Hd. split; reflexivity.
Qed.

Lemma ddg_web_search_named env query max_results w :
  ∃ d w' success,
    ddg_web_search env query max_results w = (Return d, w')
    /\ d !! "success" = Some (VBool success)
    /\ d !! "query" = Some (VStr query)
    /\ sent_urls (trace w') = sent_urls (trace w).
Proof.
  destruct (ddg_web_search_cases env query max_results w)
    as (d & w1 & evs0 & Hrun & Htrace & Hnone & Hshape).
  assert (Hsent : sent_urls (trace w1) = sent_urls (trace w))
    by (rewrite Htrace, sent_urls_app, Hnone; apply app_nil_r).
  destruct Hshape as [(raw & ->) | (msg & ->)];
    [eexists _, _, true | eexists _, _, false];
    (split; [exact Hrun|]; split; [reflexivity|]; split; [reflexivity | exact Hsent]).
Qed.

(** What main prints when its arguments pass the validation: the report
    of the function of the mode. *)
Lemma main_runs env args w :
  given (Cli.query args) ≠ given (Cli.fetch_url args) ->
  ∃ result w' (success : bool),
    main env args w
    = (Exit result (if Cli.pretty args then Some 2 else None)
            (if success then 0 else 1),
       w')
    /\ result !! "success" = Some (VBool success)
    /\ (given (Cli.fetch_url args) = true ->
        result !! "url" = Some (VStr (default [] (Cli.fetch_url args))))
    /\ (given (Cli.query args) = true ->
        result !! "query" = Some (VStr (default [] (Cli.query args)))).
Proof.
  intros Hone. unfold main.
  destruct (given (Cli.query args)) eqn:Hq, (given (Cli.fetch_url args)) eqn:Hu;
    try congruence; cbn [negb andb].
  - destruct (Cli.fetch_content args).
    + destruct (search_and_fetch_named env (default [] (Cli.query args))
                  (Cli.max_results args) (Cli.top_n args) (Cli.max_length args) w)
        as (d & w' & success & Hrun & Hs & Hquery).
      rewrite Hrun. exists d, w', success.
      split; [unfold get; rewrite Hs; destruct success; reflexivity|].
      split; [exact Hs|].
      split; [discriminate | intros _; exact Hquery].
    + destruct (ddg_web_search_named env (default [] (Cli.query args))
                  (Cli.max_results args) w)
        as (d & w' & success & Hrun & Hs & Hquery & _).
      rewrite Hrun. exists d, w', success.
      split; [unfold get; rewrite Hs; destruct success; reflexivity|].
      split; [exact Hs|].
      split; [discriminate | intros _; exact Hquery].
  - destruct (fetch_url_content_named env (VStr (default [] (Cli.fetch_url args)))
                (Cli.include_html args) (Cli.max_length args) w)
      as (d & w' & success & Hrun & Hs & Hurl & _).
    rewrite Hrun. exists d, w', success.
    split; [unfold get; rewrite Hs; destruct success; reflexivity|].
    split; [exact Hs|].
    split; [intros _; exact Hurl | discriminate].
Qed.

(** X19. main refuses a command line with neither a query nor a url, and
    one with both: the parser error ends the process with status 2 before
    anything is searched or fetched.  An empty string counts as not
    given. *)
Theorem main_rejects_bad_arguments (env : Env) (args : Cli.Args) (w : World) :
  given (Cli.query args) = given (Cli.fetch_url args) ->
  ∃ message,
    main env args w = (ParserError message, w)
    /\ exit_status (fst (main env args w)) = 2.
Proof.
  intros Hsame. unfold main. rewrite Hsame.
  destruct (given (Cli.fetch_url args)); cbn [negb andb];
    eexists; split; reflexivity.
Qed.

Lemma main_rejects_bad_arguments_witness :
  ∃ message,
    main example_env
      {| Cli.query := Some []; Cli.max_results := 5; Cli.fetch_url := None;
         Cli.include_html := false; Cli.max_length := 50000;
         Cli.fetch_content := true; Cli.top_n := 3; Cli.pretty := false |}
      start
    = (ParserError message, start).
Proof.
  destruct (main_rejects_bad_arguments example_env
              {| Cli.query := Some []; Cli.max_results := 5; Cli.fetch_url := None;
                 Cli.include_html := false; Cli.max_length := 50000;
                 Cli.fetch_content := true; Cli.top_n := 3; Cli.pretty := false |}
              start eq_refl)
    as (message & Hmain & _).
  exists message. exact Hmain.
Defined.

(** X20. With exactly one of query and url given, main prints one report
    and its exit code tells the success of that report: 0 when success is
    true, 1 when it is false.  The indent of the output is 2 with
    --pretty and none without. *)
Theorem main_exit_code (env : Env) (args : Cli.Args) (w : World) :
  given (Cli.query args) ≠ given (Cli.fetch_url args) ->
  ∃ result indent code w' success,
    main env args w = (Exit result indent code, w')
    /\ result !! "success" = Some (VBool success)
    /\ (code = 0 <-> success = true)
    /\ (code = 1 <-> success = false)
    /\ indent = (if Cli.pretty args then Some 2 else None).
Proof.
  intros Hone.
  destruct (main_runs env args w Hone) as (result & w' & success & Hmain & Hs & _).
  eexists result, _, _, w', success. split; [exact Hmain|]. split; [exact Hs|].
  destruct success; repeat split; intros; congruence.
Qed.

Lemma main_exit_code_witness :
  ∃ result indent w',
    main example_env (fetch_args (py "https://example.com/missing")) start
    = (Exit result indent 1, w')
    /\ result !! "success" = Some (VBool false).
Proof.
  destruct (main_exit_code example_env (fetch_args (py "https://example.com/missing"))
              start ltac:(discriminate))
    as (result & indent & code & w' & success & Hmain & Hs & _ & Hone & _).
  assert (Hfalse : success = false).
  { apply (f_equal (λ p, exit_status (fst p))) in Hmain. vm_compute in Hmain.
    apply Hone. congruence. }
  subst success. exists result, indent, w'.
  split; [|exact Hs]. rewrite Hmain. do 2 f_equal. apply Hone. reflexivity.
Defined.

(** X21. The report main prints is always that of the function of the
    mode, never the one of its handler for unexpected errors: it names
    what was asked, the url in the fetch mode and the query in the two
    search modes. *)
Theorem main_report_names_input (env : Env) (args : Cli.Args) (w : World) :
  given (Cli.query args) ≠ given (Cli.fetch_url args) ->
  ∃ result indent code w',
    main env args w = (Exit result indent code, w')
    /\ (∀ url, Cli.fetch_url args = Some url -> url ≠ [] ->
          result !! "url" = Some (VStr url))
    /\ (∀ query, Cli.query args = Some query -> query ≠ [] ->
          result !! "query" = Some (VStr query)).
Proof.
  intros Hone.
  destruct (main_runs env args w Hone)
    as (result & w' & success & Hmain & _ & Hurl & Hquery).
  eexists result, _, _, w'. split; [exact Hmain|]. split.
  - intros url Hu Hne. rewrite Hu in Hurl. apply Hurl.
    destruct url; [congruence | reflexivity].
  - intros query Hq Hne. rewrite Hq in Hquery. apply Hquery.
    destruct query; [congruence | reflexivity].
Qed.

Lemma main_report_names_input_witness :
  ∃ result indent code w',
    main example_env (search_args (py "batteries") true) start
    = (Exit result indent code, w')
    /\ result !! "query" = Some (VStr (py "batteries")).
Proof.
  destruct (main_report_names_input example_env (search_args (py "batteries") true)
              start ltac:(discriminate))
    as (result & indent & code & w' & Hmain & _ & Hquery).
  exists result, indent, code, w'. split; [exact Hmain|].
  apply Hquery; [reflexivity | discriminate].
Defined.

(** X22. The modes of main do not mix: with a url given nothing is
    searched, and a search without --fetch-content sends no request for a
    page. *)
Theorem main_modes_do_not_mix (env : Env) (args : Cli.Args) (w : World) :
  (given (Cli.fetch_url args) = true ->
   searches (trace (snd (main env args w))) = searches (trace w))
  /\ (given (Cli.fetch_url args) = false -> Cli.fetch_content args = false ->
      sent_urls (trace (snd (main env args w))) = sent_urls (trace w)).
Proof.
  unfold main. split.
  - intros Hu. rewrite Hu.
    destruct (given (Cli.query args)); cbn [negb andb]; [reflexivity|].
    destruct (fetch_url_content_named env (VStr (default [] (Cli.fetch_url args)))
                (Cli.include_html args) (Cli.max_length args) w)
      as (d & w' & success & Hrun & _ & _ & Hsearches).
    rewrite Hrun. exact Hsearches.
  - intros Hu Hfc. rewrite Hu, Hfc.
    destruct (given (Cli.query args)); cbn [negb andb]; [|reflexivity].
    destruct (ddg_web_search_named env (default [] (Cli.query args))
                (Cli.max_results args) w)
      as (d & w' & success & Hrun & _ & _ & Hsent).
    rewrite Hrun. exact Hsent.
Qed.

Lemma main_modes_do_not_mix_witness :
  searches (trace (snd (main example_env (fetch_args (py "https://example.com/slow")) start)))
  = []
  /\ sent_urls (trace (snd (main example_env (search_args (py "batteries") false) start)))
     = [].
Proof.
  split.
  - apply (main_modes_do_not_mix example_env (fetch_args (py "https://example.com/slow"))
             start).
    reflexivity.
  - apply (main_modes_do_not_mix example_env (search_args (py "batteries") false) start);
      reflexivity.
Defined.

(** X23. main with a url that has neither scheme ends with the exit code
    1 and a report whose success is false, and the world is as it was: no
    request was sent. *)
Theorem main_invalid_url (env : Env) (args : Cli.Args) (u : str) (w : World) :
  Cli.fetch_url args = Some u ->
  u ≠ [] ->
  given (Cli.query args) = false ->
  is_http u = false ->
  ∃ result indent,
    main env args w = (Exit result indent 1, w)
    /\ result !! "success" = Some (VBool false)
    /\ result !! "url" = Some (VStr u).
Proof.
  intros Hu Hne Hq Hscheme. unfold main. rewrite Hq, Hu.
  assert (Hgiven : given (Some u) = true) by (destruct u; [congruence | reflexivity]).
  rewrite Hgiven. cbn [negb andb default].
  destruct (fetch_url_content_no_scheme env u (Cli.include_html args)
              (Cli.max_length args) w Hscheme)
    as (d & Hrun & Hs & Hurl).
  change (id u) with u. rewrite Hrun. unfold get. rewrite Hs.
  eexists _, _. split; [reflexivity|]. split; assumption.
Qed.

Lemma main_invalid_url_witness :
  ∃ result indent,
    main example_env (fetch_args (py "ftp://example.com")) start
    = (Exit result indent 1, start)
    /\ result !! "success" = Some (VBool false).
Proof.
  destruct (main_invalid_url example_env (fetch_args (py "ftp://example.com"))
              (py "ftp://example.com") start eq_refl ltac:(discriminate) eq_refl eq_refl)
    as (result & indent & Hmain & Hs & _).
  exists result, indent. split; [exact Hmain | exact Hs].
Defined.

(** ** Further examples and edges *)

Lemma include_html_only_adds_html_witness :
  ∃ without with_html w' html,
    fetch_url_content ok_env (VStr (py "https://example.com/a")) false 10 start
    = (Return without, w')
    /\ fetch_url_content ok_env (VStr (py "https://example.com/a")) true 10 start
       = (Return with_html, w')
    /\ with_html !! "html_content" = Some (VStr html)
    /\ len html <= 10
    /\ with_html !! "title" = without !! "title".
Proof.
  destruct (include_html_only_adds_html ok_env (VStr (py "https://example.com/a")) 10 start)
    as (without & with_html & w' & Hwithout & Hwith & _ & Hsame & _ & Hadds).
  assert (Hok : without !! "success" = Some (VBool true)).
  { apply (f_equal (λ p, match fst p with
                         | Return d => d !! "success"
                         | Raise _ => None
                         end)) in Hwithout.
    cbn [fst] in Hwithout. rewrite <- Hwithout. vm_compute. reflexivity. }
  destruct (Hadds Hok) as (html & Hhtml & Hlen).
  exists without, with_html, w', html.
  split; [exact Hwithout|]. split; [exact Hwith|]. split; [exact Hhtml|].
  split; [apply Hlen; lia | apply Hsame; discriminate].
Defined.

Lemma fetch_success_content_witness :
  (∃ d,
     fetch_url_content ok_env (VStr (py "https://example.com/a")) false 50000 start
     = (Return d, after_get start (py "https://example.com/a") 1)
     /\ d !! "status_code" = Some (VInt 200)
     /\ d !! "text_content" = Some (VStr (py "THello" ++ [LF] ++ py "World")))
  /\ (∃ d,
        fetch_url_content env_without_bs4 (VStr (py "https://example.com/a")) false 50000 start
        = (Return d, after_get start (py "https://example.com/a") 1)
        /\ d !! "title" = Some (VStr (py "No title"))
        /\ d !! "text_content" = Some (VStr (py "TxHello World")))
  /\ (∃ d,
        fetch_url_content rejecting_env (VStr (py "https://example.com/odd")) false 50000 start
        = (Return d, after_get start (py "https://example.com/odd") 1)
        /\ d !! "success" = Some (VBool false)
        /\ d !! "error"
           = Some (VStr (py "ParserRejectedMarkup: The markup you provided was rejected by the parser."))).
Proof.
  split; [|split].
  - destruct (fetch_success_content ok_env ok_httpx (py "https://example.com/a") false 50000
                start found 1%N eq_refl eq_refl eq_refl ltac:(simpl; lia))
      as (d & Hrun & Hreturned & _).
    destruct (Hreturned (py "THello" ++ [LF] ++ py "World"))
      as (_ & Hstatus & _ & Htext & _); [vm_compute; reflexivity|].
    exists d. split; [exact Hrun|]. split; [exact Hstatus | exact Htext].
  - destruct (fetch_success_content env_without_bs4 ok_httpx (py "https://example.com/a")
                false 50000 start found 1%N eq_refl eq_refl eq_refl ltac:(simpl; lia))
      as (d & Hrun & Hreturned & _ & Hmissing).
    destruct (Hreturned (py "TxHello World"))
      as (_ & _ & _ & Htext & _); [vm_compute; reflexivity|].
    destruct (Hmissing (py "ModuleNotFoundError") (py "No module named 'bs4'") eq_refl)
      as [_ Htitle].
    exists d. split; [exact Hrun|]. split; [exact Htitle | exact Htext].
  - destruct (fetch_success_content rejecting_env odd_httpx (py "https://example.com/odd")
                false 50000 start odd_page 1%N eq_refl eq_refl eq_refl ltac:(simpl; lia))
      as (d & Hrun & _ & Hraised & _).
    destruct (Hraised parser_rejected) as [Hfailed Hgeneric]; [vm_compute; reflexivity|].
    exists d. split; [exact Hrun|]. split; [exact Hfailed|].
    rewrite Hgeneric; reflexivity.
Defined.

Lemma fetched_in_turn_searches env urls t evs t' :
  fetched_in_turn env urls t evs t' -> searches evs = [].
Proof. induction 1; [reflexivity | assumption | simpl; assumption]. Qed.

Lemma searches_app evs1 evs2 : searches (evs1 ++ evs2) = searches evs1 ++ searches evs2.
Proof. apply flat_map_app. Qed.

Lemma ddg_web_search_searched env client query max_results w :
  ddgs env = Imported client ->
  ∃ d w',
    ddg_web_search env query max_results w = (Return d, w')
    /\ trace w' = trace w ++ [Searched query (Z.min max_results 10) (clock w)].
Proof.
  intros Hclient. unfold ddg_web_search. run_py. rewrite Hclient. unfold call_text.
  destruct (ddgs_text client (trace w) query (Z.min max_results 10))
    as [[e | results] seconds];
    [destruct (exc_isinstance e)|];
    (eexists _, _; split; reflexivity).
Qed.

(** X17. When ddgs can be imported, search_and_fetch searches exactly
    once, whatever [top_n] is and however the fetches go: its events add
    one search, for the query and for the smaller of [max_results] and
    10 results, and the search is the first of them. *)
Theorem search_and_fetch_searches_once
    (env : Env) (client : Ddgs) (query : str) (max_results top_n max_length : Z)
    (w : World) :
  ddgs env = Imported client ->
  ∃ d w' evs,
    search_and_fetch env query max_results top_n max_length w = (Return d, w')
    /\ trace w' = trace w ++ Searched query (Z.min max_results 10) (clock w) :: evs
    /\ searches evs = [].
Proof.
  intros Hclient.
  destruct (ddg_web_search_searched env client query max_results w Hclient)
    as (search_results & w1 & Hrun & Htrace).
  destruct (search_result_cases env query max_results w)
    as (search_results' & w1' & Hrun' & Hcases).
  rewrite Hrun in Hrun'. injection Hrun' as <- <-.
  destruct Hcases as [[Hfail _] | Hok].
  - eexists _, w1, []. split; [eapply search_and_fetch_after_failure; eassumption|].
    split; [exact Htrace | reflexivity].
  - destruct (search_and_fetch_after_success env query max_results top_n max_length
                w search_results w1 Hrun Hok)
      as (results & urls & entries & evs & w2 & _ & _ & Hsaf & _ & Htrace2 & Hturn & _).
    eexists _, w2, evs. split; [exact Hsaf|].
    split; [rewrite Htrace2, Htrace, <- app_assoc; reflexivity|].
    eapply fetched_in_turn_searches, Hturn.
Qed.

Lemma search_and_fetch_searches_once_witness :
  ∃ d w' evs,
    search_and_fetch example_env (py "batteries") 50 3 50000 start = (Return d, w')
    /\ trace w' = Searched (py "batteries") 10 0 :: evs
    /\ searches evs = [].
Proof.
  destruct (search_and_fetch_searches_once example_env example_ddgs (py "batteries")
              50 3 50000 start eq_refl)
    as (d & w' & evs & Hrun & Htrace & Hnone).
  exists d, w', evs. split; [exact Hrun|]. split; [exact Htrace | exact Hnone].
Defined.

(** X24. A [max_length] that is not positive still truncates.  With 0 a
    text that is not empty becomes the marker alone.  With a negative
    [max_length] every text counts as too long, the empty one too: the
    output is the text without its last -[max_length] characters,
    followed by the marker. *)
Theorem nonpositive_max_length
    (bs4 : imported Bs4.BeautifulSoup) (html text : str) (max_length : Z) :
  collapsed_text bs4 html = Return text ->
  max_length <= 0 ->
  (max_length = 0 -> text ≠ [] ->
   extract_text_from_html bs4 html max_length = Return truncation_marker)
  /\ (max_length < 0 ->
      extract_text_from_html bs4 html max_length
      = Return (take (length text - Z.to_nat (- max_length)) text
                ++ truncation_marker)).
Proof.
  intros Htext Hle. rewrite (extract_of_collapsed _ _ max_length _ Htext).
  unfold limit_length. split.
  - intros -> Hne.
    destruct (Z.gtb_spec (len text) 0) as [_ | Hlen]; [reflexivity|].
    destruct text; [congruence|]. unfold len in Hlen. simpl in Hlen. lia.
  - intros Hneg.
    destruct (Z.gtb_spec (len text) max_length) as [_ | Hlen];
      [|pose proof (len_nonneg text); lia].
    unfold slice_to. destruct (Z.leb_spec 0 max_length); [lia | reflexivity].
Qed.

Lemma nonpositive_max_length_witness :
  extract_text_from_html bs4_missing (py "<p>Hello</p>") 0 = Return truncation_marker
  /\ extract_text_from_html bs4_missing (py "<p>Hello</p>") (-2)
     = Return (py "Hel" ++ truncation_marker)
  /\ extract_text_from_html bs4_missing [] (-2) = Return truncation_marker.
Proof.
  split; [|split].
  - apply (nonpositive_max_length bs4_missing (py "<p>Hello</p>") (py "Hello") 0);
      [vm_compute; reflexivity | lia | reflexivity | discriminate].
  - destruct (nonpositive_max_length bs4_missing (py "<p>Hello</p>") (py "Hello") (-2))
      as [_ Hneg]; [vm_compute; reflexivity | lia |].
    rewrite Hneg by lia. vm_compute. reflexivity.
  - destruct (nonpositive_max_length bs4_missing [] [] (-2)) as [_ Hneg];
      [vm_compute; reflexivity | lia |].
    rewrite Hneg by lia. reflexivity.
Defined.
